(** * convert-heic: a shallow embedding of the batch image converter

    The development follows the three Python modules of the repository:
    [src/convert_heic.py] (the conversion engine and its command line),
    [src/example_usage.py] (the usage examples) and [setup.py] (the set-up
    script).

    Python strings are Rocq strings of 8-bit characters; case mapping is the
    ASCII one.  Paths are POSIX paths ([posixpath]).  The file system is a
    finite map from full paths to nodes.  The decoders, encoders and the PDF
    renderer of Pillow and reportlab, the clock and the formatter of the log
    lines are the fields of the class [Host]. *)

From Stdlib Require Import ZArith Floats Uint63 Ascii Bool Lia.
From stdpp Require Import gmap strings list sorting.

Local Open Scope Z_scope.

(** ** Python built-ins on [str] *)

Module Py.

Definition is_upper (c : ascii) : bool :=
  let n := N_of_ascii c in ((65 <=? n) && (n <=? 90))%N.

Definition is_lower (c : ascii) : bool :=
  let n := N_of_ascii c in ((97 <=? n) && (n <=? 122))%N.

Definition lower_char (c : ascii) : ascii :=
  if is_upper c then ascii_of_N (N_of_ascii c + 32) else c.

Definition upper_char (c : ascii) : ascii :=
  if is_lower c then ascii_of_N (N_of_ascii c - 32) else c.

(** [s.lower()] and [s.upper()] *)
Fixpoint lower (s : string) : string :=
  match s with
  | EmptyString => EmptyString
  | String c r => String (lower_char c) (lower r)
  end.

Fixpoint upper (s : string) : string :=
  match s with
  | EmptyString => EmptyString
  | String c r => String (upper_char c) (upper r)
  end.

(** [s.startswith(p)] *)
Fixpoint startswith (s p : string) : bool :=
  match p with
  | EmptyString => true
  | String c p' =>
      match s with
      | EmptyString => false
      | String a s' => Ascii.eqb a c && startswith s' p'
      end
  end.

(** [s.endswith(suf)]: some tail of [s] is [suf]. *)
Fixpoint endswith (s suf : string) : bool :=
  if String.eqb s suf then true
  else match s with
       | EmptyString => false
       | String _ r => endswith r suf
       end.

(** [s.rpartition(c)] without the separator: the parts before and after
    the last occurrence of [c], or [None] when [c] does not occur. *)
Fixpoint rpartition (c : ascii) (s : string) : option (string * string) :=
  match s with
  | EmptyString => None
  | String a r =>
      match rpartition c r with
      | Some (h, t) => Some (String a h, t)
      | None => if Ascii.eqb a c then Some (EmptyString, r) else None
      end
  end.

(** [s == c * len(s)] *)
Fixpoint all_char (c : ascii) (s : string) : bool :=
  match s with
  | EmptyString => true
  | String a r => Ascii.eqb a c && all_char c r
  end.

(** [s.rstrip(c)] *)
Fixpoint rstrip (c : ascii) (s : string) : string :=
  match s with
  | EmptyString => EmptyString
  | String a r =>
      match rstrip c r with
      | EmptyString => if Ascii.eqb a c then EmptyString else String a EmptyString
      | r' => String a r'
      end
  end.

(** [c in s] *)
Fixpoint contains (c : ascii) (s : string) : bool :=
  match s with
  | EmptyString => false
  | String a r => Ascii.eqb a c || contains c r
  end.

(** [x in xs] for a list of strings *)
Definition in_list (x : string) (xs : list string) : bool :=
  existsb (String.eqb x) xs.

(** The order of [str], lexicographic on character codes, is [String.le]. *)

(** [bool(s)]: a string is true when it is not empty. *)
Definition truthy (s : string) : bool :=
  match s with EmptyString => false | _ => true end.

(** [s.partition(c)] without the separator: the parts before and after
    the first occurrence of [c], or [None] when [c] does not occur. *)
Fixpoint partition (c : ascii) (s : string) : option (string * string) :=
  match s with
  | EmptyString => None
  | String a r =>
      if Ascii.eqb a c then Some (EmptyString, r)
      else match partition c r with
           | Some (h, t) => Some (String a h, t)
           | None => None
           end
  end.

(** The line feed. *)
Definition linefeed : string := String "010" "".

(** The characters [int] skips around a number: [\t\n\v\f\r], the
    space, NEL and the no-break space. *)
Definition is_space (c : ascii) : bool :=
  let n := N_of_ascii c in
  (((9 <=? n) && (n <=? 13)) || (n =? 32) || (n =? 133) || (n =? 160))%N.

Fixpoint lstrip_space (s : string) : string :=
  match s with
  | EmptyString => EmptyString
  | String a r => if is_space a then lstrip_space r else s
  end.

Fixpoint rstrip_space (s : string) : string :=
  match s with
  | EmptyString => EmptyString
  | String a r =>
      match rstrip_space r with
      | EmptyString => if is_space a then EmptyString else String a EmptyString
      | r' => String a r'
      end
  end.

Definition is_digit (c : ascii) : bool :=
  let n := N_of_ascii c in ((48 <=? n) && (n <=? 57))%N.

Fixpoint all_digits (s : string) : bool :=
  match s with
  | EmptyString => true
  | String c r => is_digit c && all_digits r
  end.

(** Decimal digits, with single underscores between digits;
    [after_digit] tells whether the character before was a digit. *)
Fixpoint digits_value (s : string) (acc : Z) (after_digit : bool)
  : option Z :=
  match s with
  | EmptyString => if after_digit then Some acc else None
  | String c r =>
      if is_digit c then
        digits_value r (10 * acc + (Z.of_N (N_of_ascii c) - 48)) true
      else if Ascii.eqb c "_" && after_digit then digits_value r acc false
      else None
  end.

(** [int(s)]: white space around an optional sign and decimal digits;
    [None] stands for the [ValueError]. *)
Definition int (s : string) : option Z :=
  match lstrip_space (rstrip_space s) with
  | String "-" d => Z.opp <$> digits_value d 0 false
  | String "+" d => digits_value d 0 false
  | d => digits_value d 0 false
  end.

End Py.

(** ** [os.path] (posixpath) *)

Module OsPath.

Definition sep : ascii := "/"%char.
Definition extsep : ascii := "."%char.

(** [os.path.join(a, b)] *)
Definition join (a b : string) : string :=
  if Py.startswith b "/" then b
  else if negb (Py.truthy a) || Py.endswith a "/" then a +:+ b
  else a +:+ "/" +:+ b.

(** [os.path.split(p)] *)
Definition split (p : string) : string * string :=
  match Py.rpartition sep p with
  | None => (EmptyString, p)
  | Some (h, tail) =>
      let head := h +:+ "/" in
      (if Py.all_char sep head then head else Py.rstrip sep head, tail)
  end.

Definition basename (p : string) : string :=
  match Py.rpartition sep p with
  | None => p
  | Some (_, tail) => tail
  end.

Definition dirname (p : string) : string := fst (split p).

(** [os.path.splitext(p)]: the extension starts at the last dot of the
    last component, unless only dots precede it there. *)
Definition splitext (p : string) : string * string :=
  let '(dirpart, name) :=
    match Py.rpartition sep p with
    | None => (EmptyString, p)
    | Some (h, tail) => (h +:+ "/", tail)
    end in
  match Py.rpartition extsep name with
  | None => (p, EmptyString)
  | Some (root, e) =>
      if Py.all_char extsep root then (p, EmptyString)
      else (dirpart +:+ root, String extsep e)
  end.

End OsPath.

Example join_ex : OsPath.join "images/output" "a.png" = "images/output/a.png".
Proof. reflexivity. Qed.
Example split_ex : OsPath.split "src//*.heic" = ("src", "*.heic").
Proof. reflexivity. Qed.
Example splitext_ex1 : OsPath.splitext "IMG_1.tar.HEIC" = ("IMG_1.tar", ".HEIC").
Proof. reflexivity. Qed.
Example splitext_ex2 : OsPath.splitext "..png" = ("..png", "").
Proof. reflexivity. Qed.
Example splitext_ex3 : OsPath.splitext "a.b/c" = ("a.b/c", "").
Proof. reflexivity. Qed.
Example lower_ex : Py.lower "ReadMe.MD" = "readme.md".
Proof. reflexivity. Qed.

(** ** Exceptions and results *)

(** An exception is represented by its text, [str(e)]. *)
Definition exn := string.

Inductive result (A : Type) : Type :=
  | Ok (a : A)
  | Raise (e : exn).
Arguments Ok {A} a.
Arguments Raise {A} e.

(** ** The file system *)

Inductive node : Type :=
  | File (data : string)
  | Dir.

#[global] Instance node_eq_dec : EqDecision node.
Proof. solve_decision. Defined.

(** Full path to node.  Paths are compared as written: a directory is
    recorded under its path without a trailing separator, and the root
    directory under ["/"]. *)
Notation filesystem := (gmap string node).

Module FS.

Definition is_dir (fs : filesystem) (p : string) : bool :=
  match fs !! p with Some Dir => true | _ => false end.

Definition exists_ (fs : filesystem) (p : string) : bool :=
  match fs !! p with Some _ => true | None => false end.

(** The name under which key [k] is listed in [folder], if it lies
    directly inside it. *)
Definition entry_name (folder k : string) : option string :=
  let n := OsPath.basename k in
  if Py.truthy n && String.eqb (OsPath.join folder n) k then Some n else None.

(** The entries directly inside [folder], in the order of the map. *)
Definition entries (fs : filesystem) (folder : string) : list string :=
  omap (λ kv, entry_name folder kv.1) (map_to_list fs).

(** [os.listdir(folder)] *)
Definition listdir (fs : filesystem) (folder : string) : result (list string) :=
  match fs !! folder with
  | Some Dir => Ok (entries fs folder)
  | Some (File _) => Raise ("[Errno 20] Not a directory: " +:+ folder)
  | None => Raise ("[Errno 2] No such file or directory: " +:+ folder)
  end.

(** [repr(p)] of a path, as the text of an [OSError] shows it. *)
Definition quoted (p : string) : string := "'" +:+ p +:+ "'".

(** [os.mkdir(p)]: the parent has to be a directory, which for a bare name
    is the working directory, and [p] must not exist. *)
Definition mkdir (fs : filesystem) (p : string) : result filesystem :=
  if negb (Py.truthy p) then
    Raise ("[Errno 2] No such file or directory: " +:+ quoted p)
  else
    match (if Py.truthy (OsPath.dirname p) then fs !! OsPath.dirname p
           else Some Dir) with
    | Some Dir =>
        match fs !! p with
        | Some _ => Raise ("[Errno 17] File exists: " +:+ quoted p)
        | None => Ok (<[p := Dir]> fs)
        end
    | Some (File _) => Raise ("[Errno 20] Not a directory: " +:+ quoted p)
    | None => Raise ("[Errno 2] No such file or directory: " +:+ quoted p)
    end.

(** What appending [text] to the file at [p] leaves; nothing is written
    when [p] is not a regular file any more. *)
Definition append (fs : filesystem) (p text : string) : filesystem :=
  match fs !! p with
  | Some (File d) => <[p := File (d +:+ text)]> fs
  | _ => fs
  end.

(** [os.path.getsize(p)] of a regular file. *)
Definition getsize (fs : filesystem) (p : string) : Z :=
  match fs !! p with
  | Some (File d) => Z.of_nat (String.length d)
  | _ => 0
  end.

End FS.

(** ** [fnmatch] and [glob] for the patterns [*.ext] *)

Module Glob.

(** [glob.has_magic] *)
Definition has_magic (s : string) : bool :=
  Py.contains "*"%char s || Py.contains "?"%char s || Py.contains "["%char s.

(** [glob._ishidden] *)
Definition ishidden (name : string) : bool := Py.startswith name ".".

(** [fnmatch.fnmatch(name, "*" + suffix)]: both sides go through
    [os.path.normcase], which folds case on Windows only. *)
Definition fnmatch_star (normcase : bool) (name suffix : string) : bool :=
  if normcase then Py.endswith (Py.lower name) (Py.lower suffix)
  else Py.endswith name suffix.

(** The part of a pattern [*.ext] after the star. *)
Definition star_suffix (pattern : string) : string :=
  match pattern with
  | String _ r => r
  | EmptyString => EmptyString
  end.

(** [glob._glob1]: hidden names are dropped, the others are filtered with
    [fnmatch]; the kind of the entry is never looked at. *)
Definition glob1 (normcase : bool) (names : list string) (pattern : string)
  : list string :=
  filter (λ n, fnmatch_star normcase n (star_suffix pattern) = true)
         (filter (λ n, ishidden n = false) names).

End Glob.

(** ** Pillow images *)

Inductive mode : Type :=
  | M_1 | M_L | M_P | M_RGB | M_RGBA | M_CMYK | M_YCbCr | M_LAB | M_HSV
  | M_I | M_F | M_LA | M_PA | M_RGBX | M_RGBa | M_La | M_I16.

#[global] Instance mode_eq_dec : EqDecision mode.
Proof. solve_decision. Defined.

(** A pixel is the list of its band values, as [getpixel] shows it:
    [[r; g; b; a]] in RGBA, [[l; a]] in LA, [[index]] in P. *)
Notation pixel := (list Z).

Record image : Type := Image {
  im_mode : mode;
  im_size : Z * Z;                       (* width, height *)
  im_exif : option string;               (* info.get('exif') *)
  im_palette : Z → pixel;                (* palette entry as RGBA, for P *)
  im_data : result (list pixel)          (* the raster; [Raise] when loading fails *)
}.

Inductive image_format : Type := JPEG | PNG.

(** The keyword arguments of [img.save]. *)
Record save_kwargs : Type := SaveKwargs {
  kw_format : image_format;
  kw_quality : option Z;
  kw_optimize : bool;
  kw_subsampling : option Z;
  kw_progressive : bool;
  kw_compress_level : option Z;
  kw_exif : option string
}.

(** What writing an output file did: the bytes written, or the exception and
    what the path holds afterwards. *)
Inductive save_outcome : Type :=
  | Saved (data : string)
  | SaveFailed (e : exn) (residue : option node).

(** The call [c.drawImage(ImageReader(img), x, y, w, h)] on a canvas of a
    given page size. *)
Record draw_request : Type := DrawRequest {
  dr_pagesize : float * float;
  dr_image : image;
  dr_x : float;
  dr_y : float;
  dr_width : float;
  dr_height : float
}.

(** ** Log records *)

Inductive level : Type := DEBUG | INFO | WARNING | ERROR.

Definition level_no (l : level) : Z :=
  match l with DEBUG => 10 | INFO => 20 | WARNING => 30 | ERROR => 40 end.

(** The pieces of an f-string: text and the formatted values. *)
Inductive fpart : Type :=
  | T (s : string)          (* literal text, or a [str] value *)
  | D (n : Z)               (* an integer *)
  | DComma (n : Z)          (* an integer with thousands separators *)
  | F1 (x : float).         (* a float with one decimal *)

Record log_record : Type := LogRecord {
  levelname : level;
  message : list fpart
}.

(** ** The external capabilities *)

Class Host : Type := {
  (** Pillow's decoders, on the bytes of a regular file *)
  decode : string → result image;
  (** Pillow's colour conversion of one pixel between two modes *)
  convert_pixel : mode → mode → pixel → pixel;
  (** [img.save(path, **kwargs)] *)
  image_save : filesystem → image → string → save_kwargs → save_outcome;
  (** reportlab: the canvas with one image drawn, saved at a path *)
  canvas_save : filesystem → draw_request → string → save_outcome;
  (** whether [os.remove(path)] succeeds *)
  os_remove_ok : filesystem → string → bool;
  (** [glob] when the directory part is itself a pattern *)
  glob_magic_dir : filesystem → string → list string;
  (** [os.path.normcase] folds case (Windows) *)
  normcase_folds : bool;
  (** [datetime.now().strftime('%Y%m%d_%H%M%S')] *)
  now_stamp : string;
  (** [os.path.abspath(__file__)] of the engine *)
  script_file : string;
  (** [logging.Formatter.format] under the format of [setup_logging]: the
      line of a record, the [n]-th handed to the handlers, with the time
      stamp the clock gives it *)
  format_record : log_record → nat → string
}.

Module PIL.

(** [Image.open(path)] *)
Definition open `{Host} (fs : filesystem) (path : string) : result image :=
  match fs !! path with
  | Some (File d) => decode d
  | Some Dir => Raise ("[Errno 21] Is a directory: " +:+ path)
  | None => Raise ("[Errno 2] No such file or directory: " +:+ path)
  end.

(** [Image.new(mode, size, color)] *)
Definition new (m : mode) (size : Z * Z) (color : pixel) : image :=
  {| im_mode := m; im_size := size; im_exif := None;
     im_palette := λ _, [];
     im_data := Ok (replicate (Z.to_nat (size.1 * size.2)) color) |}.

(** [img.convert(m)]: a palette image goes through its palette, the other
    conversions are the library's, pixel by pixel. *)
Definition convert `{Host} (img : image) (m : mode) : result image :=
  match im_data img with
  | Raise e => Raise e
  | Ok px =>
      let f := match im_mode img, m with
               | M_P, M_RGBA => λ p, im_palette img (default 0 (head p))
               | src, dst => convert_pixel src dst
               end in
      Ok {| im_mode := m; im_size := im_size img; im_exif := im_exif img;
            im_palette := im_palette img; im_data := Ok (f <$> px) |}
  end.

(** [img.split()[-1]]: the last band of every pixel. *)
Definition last_band (img : image) : result (list Z) :=
  match im_data img with
  | Raise e => Raise e
  | Ok px => Ok ((λ p, default 0 (last p)) <$> px)
  end.

(** Pillow's rounding of [x / 255]. *)
Definition div255 (x : Z) : Z :=
  let t := x + 128 in Z.shiftr (Z.shiftr t 8 + t) 8.

(** One band of [paste] through an [L] mask. *)
Definition blend (mask a b : Z) : Z := div255 (a * (255 - mask) + b * mask).

(** The colour bands a pixel contributes when pasted onto RGB. *)
Definition rgb_bands (m : mode) (p : pixel) : pixel :=
  match m, p with
  | M_LA, l :: _ => [l; l; l]
  | _, _ => take 3 p
  end.

(** One pixel of [paste]: blended through the mask value, copied when
    there is no mask. *)
Definition paste_pixel (m : mode) (dst src : pixel) (mask : option Z) : pixel :=
  match mask with
  | Some a => zip_with (blend a) dst (rgb_bands m src)
  | None => rgb_bands m src
  end.

(** [background.paste(img, mask=alpha)] for an RGB background of the
    size of [img]. *)
Definition paste (background img : image) (alpha : option (list Z))
  : result image :=
  match im_data background, im_data img with
  | Ok bg, Ok px =>
      let masks := match alpha with
                   | Some a => Some <$> a
                   | None => replicate (length px) None
                   end in
      Ok {| im_mode := im_mode background; im_size := im_size background;
            im_exif := im_exif background; im_palette := im_palette background;
            im_data := Ok (zip_with (λ d sm, paste_pixel (im_mode img) d sm.1 sm.2)
                                    bg (zip px masks)) |}
  | Raise e, _ => Raise e
  | _, Raise e => Raise e
  end.

(** The number of bands of a mode. *)
Definition bands (m : mode) : nat :=
  match m with
  | M_1 | M_L | M_P | M_I | M_F | M_I16 => 1
  | M_LA | M_PA | M_La => 2
  | M_RGB | M_YCbCr | M_LAB | M_HSV => 3
  | M_RGBA | M_CMYK | M_RGBX | M_RGBa => 4
  end.

(** A pixel of an RGBA, LA or P image with its alpha made explicit: the
    palette entry for P, the pixel itself otherwise; and the mode it then
    has. *)
Definition with_alpha (img : image) (p : pixel) : pixel :=
  match im_mode img with
  | M_P => im_palette img (default 0 (head p))
  | _ => p
  end.

Definition alpha_mode (m : mode) : mode :=
  match m with M_P => M_RGBA | _ => m end.

End PIL.

(** ** reportlab page sizes *)

Module ReportLab.
Local Open Scope float_scope.
Definition inch : float := 72.0.
Definition cm : float := inch / 2.54.
Definition mm : float := cm * 0.1.
Definition letter : float * float := (8.5 * inch, 11 * inch).
Definition A4 : float * float := (210 * mm, 297 * mm).
End ReportLab.

(** ** Logging and the state of a run *)

(** The root logger once [basicConfig] has run. *)
Record logging_config : Type := LoggingConfig {
  lc_level : level;
  lc_file : option string
}.

Record world : Type := World {
  w_fs : filesystem;
  w_logging : option logging_config;
  w_log : list log_record          (* the records handed to the handlers *)
}.

(** State and exceptions: an exception keeps the effects made so far. *)
Definition M (A : Type) : Type := world → result A * world.

#[global] Instance M_ret : MRet M := λ A a w, (Ok a, w).
#[global] Instance M_bind : MBind M := λ A B f m w,
  match m w with
  | (Ok a, w') => f a w'
  | (Raise e, w') => (Raise e, w')
  end.

Definition raise {A} (e : exn) : M A := λ w, (Raise e, w).

(** [try: m except Exception as e: handler e] *)
Definition try_except {A} (m : M A) (handler : exn → M A) : M A := λ w,
  match m w with
  | (Ok a, w') => (Ok a, w')
  | (Raise e, w') => handler e w'
  end.

(** [m] returns in every state. *)
Definition returns {A} (m : M A) : Prop := ∀ w, ∃ a w', m w = (Ok a, w').

Definition lift {A} (r : result A) : M A := λ w, (r, w).
Definition get_fs : M filesystem := λ w, (Ok (w_fs w), w).
Definition set_fs (fs : filesystem) : M unit := λ w,
  (Ok tt, {| w_fs := fs; w_logging := w_logging w; w_log := w_log w |}).

(** The file the [FileHandler] of the root logger writes to. *)
Definition log_path (w : world) : option string := w_logging w ≫= lc_file.

(** What the handlers of a configuration do with a record, the [n]-th of
    the run: the [FileHandler] appends its line to the log file; the
    [StreamHandler] writes to the terminal. *)
Definition emit `{Host} (cfg : logging_config) (r : log_record) (n : nat)
    (fs : filesystem) : filesystem :=
  match lc_file cfg with
  | Some p => FS.append fs p (format_record r n +:+ Py.linefeed)
  | None => fs
  end.

(** A record that passes the threshold is handed to the handlers. *)
Definition logged `{Host} (l : level) (msg : list fpart) (w : world) : world :=
  let cfg := default (LoggingConfig WARNING None) (w_logging w) in
  if level_no (lc_level cfg) <=? level_no l then
    {| w_fs := emit cfg (LogRecord l msg) (length (w_log w)) (w_fs w);
       w_logging := Some cfg;
       w_log := w_log w ++ [LogRecord l msg] |}
  else
    {| w_fs := w_fs w; w_logging := Some cfg; w_log := w_log w |}.

(** The node at [p] is in [fs'] what it is in [fs], but for text appended
    when [p] is the log file, whose path is [lp]. *)
Definition kept_at (lp : option string) (p : string)
    (fs fs' : filesystem) : Prop :=
  fs' !! p = fs !! p
  ∨ (lp = Some p
     ∧ ∃ d more, fs !! p = Some (File d)
                 ∧ fs' !! p = Some (File (d +:+ more))).

(** [fs'] is [fs] but for text appended to the log file. *)
Definition appended_to (lp : option string) (fs fs' : filesystem) : Prop :=
  ∀ p, kept_at lp p fs fs'.

(** What a clearing may do to the node at [p] between [fs] and [fs']:
    nothing, the removal of the regular file there when [R] holds, or text
    appended when [p] is the log file, whose path is [lp]. *)
Definition cleared_at (lp : option string) (R : Prop) (p : string)
    (fs fs' : filesystem) : Prop :=
  fs' !! p = fs !! p
  ∨ (fs' !! p = None ∧ ∃ d, fs !! p = Some (File d) ∧ R)
  ∨ (lp = Some p
     ∧ ∃ d more, fs !! p = Some (File d)
                 ∧ fs' !! p = Some (File (d +:+ more))).

Definition cleared (lp : option string) (R : string → Prop)
    (fs fs' : filesystem) : Prop :=
  ∀ p, cleared_at lp (R p) p fs fs'.

Module Logging.

(** [logging.basicConfig(level=..., handlers=[FileHandler(file), ...])]:
    does nothing when the root logger already has handlers. *)
Definition basicConfig (cfg : logging_config) : M unit := λ w,
  (Ok tt, {| w_fs := w_fs w;
             w_logging := match w_logging w with
                          | Some c => Some c
                          | None => Some cfg
                          end;
             w_log := w_log w |}).

(** [logging.debug/info/warning/error]: an unconfigured root logger is
    first configured with the default threshold WARNING and no file. *)
Definition log `{Host} (l : level) (msg : list fpart) : M unit := λ w,
  (Ok tt, logged l msg w).

Definition debug `{Host} := log DEBUG.
Definition info `{Host} := log INFO.
Definition warning `{Host} := log WARNING.
Definition error `{Host} := log ERROR.

End Logging.

Module Os.

Definition mkdir (p : string) : M unit :=
  fs ← get_fs; fs' ← lift (FS.mkdir fs p); set_fs fs'.

Definition is_FileExistsError (e : exn) : bool := Py.startswith e "[Errno 17]".

(** The last step of [os.makedirs(name, exist_ok=True)]: the error of
    [mkdir] is passed over when [name] is a directory. *)
Definition mkdir_exist_ok (name : string) : M unit :=
  try_except (mkdir name)
             (λ e, fs ← get_fs;
                   if FS.is_dir fs name then mret tt else raise e).

(** [os.makedirs(name, exist_ok=True)]: the missing parents are made first,
    a [FileExistsError] of that step is passed over, then the leaf is made.
    The recursion is on the head of the path, which is shorter. *)
Fixpoint makedirs_from (depth : nat) (name : string) : M unit :=
  match depth with
  | O => raise "maximum recursion depth exceeded"
  | S depth =>
      let '(head, tail) := OsPath.split name in
      let '(head, tail) :=
        if negb (Py.truthy tail) then OsPath.split head else (head, tail) in
      fs ← get_fs;
      if Py.truthy head && Py.truthy tail && negb (FS.exists_ fs head) then
        try_except (makedirs_from depth head)
                   (λ e, if is_FileExistsError e then mret tt else raise e);;
        if String.eqb tail "." then mret tt else mkdir_exist_ok name
      else mkdir_exist_ok name
  end.

Definition makedirs (name : string) : M unit :=
  makedirs_from (S (String.length name)) name.

Definition listdir (p : string) : M (list string) :=
  fs ← get_fs; lift (FS.listdir fs p).

(** [os.remove(p)] *)
Definition remove `{Host} (p : string) : M unit :=
  fs ← get_fs;
  match fs !! p with
  | Some (File _) =>
      if os_remove_ok fs p then set_fs (delete p fs)
      else raise ("[Errno 13] Permission denied: " +:+ p)
  | Some Dir => raise ("[Errno 21] Is a directory: " +:+ p)
  | None => raise ("[Errno 2] No such file or directory: " +:+ p)
  end.

(** Opening [p] for appending, as [logging.FileHandler] does. *)
Definition open_append (p : string) : M unit :=
  fs ← get_fs;
  match fs !! p with
  | Some (File _) => mret tt
  | Some Dir => raise ("[Errno 21] Is a directory: " +:+ p)
  | None => set_fs (<[p := File ""]> fs)
  end.

(** The effect of a save on the file system. *)
Definition commit (p : string) (o : save_outcome) : M unit :=
  fs ← get_fs;
  match o with
  | Saved d => set_fs (<[p := File d]> fs)
  | SaveFailed e residue =>
      set_fs (match residue with Some n => <[p := n]> fs | None => delete p fs end);;
      raise e
  end.

End Os.

(** Python's [x / n] for a float and an int. *)
Definition float_of_int (z : Z) : float := PrimFloat.of_uint63 (Uint63.of_Z z).

Definition truediv (x : float) (n : Z) : result float :=
  if n =? 0 then Raise "float division by zero"
  else Ok (PrimFloat.div x (float_of_int n)).

(** [min(a, b)] on floats: [b] when [b < a], else [a]. *)
Definition float_min (a b : float) : float :=
  if PrimFloat.ltb b a then b else a.

Definition mode_name (m : mode) : string :=
  match m with
  | M_1 => "1" | M_L => "L" | M_P => "P" | M_RGB => "RGB" | M_RGBA => "RGBA"
  | M_CMYK => "CMYK" | M_YCbCr => "YCbCr" | M_LAB => "LAB" | M_HSV => "HSV"
  | M_I => "I" | M_F => "F" | M_LA => "LA" | M_PA => "PA" | M_RGBX => "RGBX"
  | M_RGBa => "RGBa" | M_La => "La" | M_I16 => "I;16"
  end.

(** From [w] to [w1] only directories were made, where nothing was. *)
Definition made_dirs (w w1 : world) : Prop :=
  w_logging w1 = w_logging w ∧ w_log w1 = w_log w
  ∧ ∀ p, w_fs w1 !! p = w_fs w !! p
         ∨ (w_fs w !! p = None ∧ w_fs w1 !! p = Some Dir).

(** ** The conversion engine: [src/convert_heic.py] *)

Module ConvertHeic.
Section engine.
Context `{Host}.

(** [glob.glob(pathname)] for a path whose last component is [*.ext]. *)
Definition glob_glob (fs : filesystem) (pathname : string) : list string :=
  let '(dirname, basename) := OsPath.split pathname in
  if negb (Py.truthy dirname) then
    Glob.glob1 normcase_folds (FS.entries fs "") basename
  else if Glob.has_magic dirname then glob_magic_dir fs pathname
  else
    let names := match FS.listdir fs dirname with
                 | Ok ns => ns
                 | Raise _ => []
                 end in
    OsPath.join dirname <$> Glob.glob1 normcase_folds names basename.

Definition setup_logging (log_level : level) : M string :=
  let script_dir := OsPath.dirname script_file in
  let logs_dir := OsPath.join (OsPath.dirname script_dir) "logs" in
  Os.makedirs logs_dir;;
  let timestamp := now_stamp in
  let log_file :=
    OsPath.join logs_dir ("convert_images_" +:+ timestamp +:+ ".log") in
  Os.open_append log_file;;
  Logging.basicConfig (LoggingConfig log_level (Some log_file));;
  Logging.info [T "Log file created: "; T log_file];;
  mret log_file.

Definition extensions_to_remove : list string :=
  [".png"; ".jpg"; ".jpeg"; ".pdf"; ".PNG"; ".JPG"; ".JPEG"; ".PDF"].

(** The test of line 88. *)
Definition has_removable_extension (filename : string) : bool :=
  existsb (λ ext, Py.endswith (Py.lower filename) (Py.lower ext))
          extensions_to_remove.

(** The names lines 84-88 select for removal. *)
Definition selected (keep_readme : bool) (filename : string) : bool :=
  negb (keep_readme && String.eqb (Py.lower filename) "readme.md")
  && has_removable_extension filename.

(** The body of the loop of [clear_output_folder]: one entry of the
    listing; the value is the new count. *)
Definition clear_entry (output_folder : string) (keep_readme : bool)
    (filename : string) (removed_count : nat) : M nat :=
  let filepath := OsPath.join output_folder filename in
  fs ← get_fs;
  if FS.is_dir fs filepath then mret removed_count
  else if keep_readme && String.eqb (Py.lower filename) "readme.md" then
    mret removed_count
  else if has_removable_extension filename then
    try_except
      (Os.remove filepath;;
       Logging.debug [T "Removed: "; T filename];;
       mret (S removed_count))
      (λ e, Logging.warning [T "Could not remove "; T filename; T ": "; T e];;
            mret removed_count)
  else mret removed_count.

Fixpoint clear_loop (output_folder : string) (keep_readme : bool)
    (names : list string) (removed_count : nat) : M nat :=
  match names with
  | [] => mret removed_count
  | filename :: rest =>
      removed_count' ←
        clear_entry output_folder keep_readme filename removed_count;
      clear_loop output_folder keep_readme rest removed_count'
  end.

Definition clear_output_folder (output_folder : string) (keep_readme : bool)
  : M unit :=
  fs ← get_fs;
  if negb (FS.exists_ fs output_folder) then mret tt
  else
    names ← Os.listdir output_folder;
    removed_count ← clear_loop output_folder keep_readme names 0%nat;
    if (0 <? removed_count)%nat then
      Logging.info [T "Cleared "; D (Z.of_nat removed_count);
                    T " file(s) from output folder"]
    else Logging.info [T "Output folder is already clean"].

Definition patterns : list string :=
  ["*.heic"; "*.HEIC"; "*.heif"; "*.HEIF";
   "*.jpg"; "*.JPG"; "*.jpeg"; "*.JPEG";
   "*.png"; "*.PNG"].

(** The list built by the loop of lines 119-121. *)
Definition globbed (fs : filesystem) (source_folder : string) : list string :=
  foldl (λ image_files pattern,
           image_files ++ glob_glob fs (OsPath.join source_folder pattern))
        [] patterns.

(** [sorted(list(set(image_files)))] *)
Definition get_image_files (fs : filesystem) (source_folder : string)
  : list string :=
  merge_sort String.le
    (elements (list_to_set (globbed fs source_folder) : gset string)).

Definition white : pixel := [255; 255; 255].

(** Lines 153-161 and 237-244: onto a white background when the mode is
    RGBA, LA or P, to RGB otherwise. *)
Definition normalize_rgb (img : image) : result image :=
  if bool_decide (im_mode img ∈ [M_RGBA; M_LA; M_P]) then
    let background := PIL.new M_RGB (im_size img) white in
    match (if bool_decide (im_mode img = M_P)
           then PIL.convert img M_RGBA else Ok img) with
    | Raise e => Raise e
    | Ok img =>
        if bool_decide (im_mode img ∈ [M_RGBA; M_LA]) then
          match PIL.last_band img with
          | Raise e => Raise e
          | Ok alpha => PIL.paste background img (Some alpha)
          end
        else PIL.paste background img None
    end
  else if bool_decide (im_mode img ≠ M_RGB) then PIL.convert img M_RGB
  else Ok img.

Definition is_jpeg_family (output_format : string) : bool :=
  String.eqb (Py.upper output_format) "JPG"
  || String.eqb (Py.upper output_format) "JPEG".

Definition convert_image_to_format (image_path output_format : string)
    (quality : Z) : M (option (image * option string)) :=
  try_except
    (Logging.info [T "Loading image file: "; T (OsPath.basename image_path)];;
     fs ← get_fs;
     img ← lift (PIL.open fs image_path);
     let exif_data := im_exif img in
     match exif_data with
     | Some b =>
         if Py.truthy b then
           Logging.debug [T "Extracted EXIF metadata (";
                          D (Z.of_nat (String.length b)); T " bytes)"]
         else mret tt
     | None => mret tt
     end;;
     img ← (if is_jpeg_family output_format
            then lift (normalize_rgb img) else mret img);
     Logging.info [T "Successfully loaded image: "; D (im_size img).1; T "x";
                   D (im_size img).2; T " pixels, mode: ";
                   T (mode_name (im_mode img))];;
     mret (Some (img, exif_data)))
    (λ e, Logging.error [T "Failed to convert "; T image_path; T ": "; T e];;
          mret None).

(** The exif entry of the keyword arguments: set when the blob is true. *)
Definition exif_kwarg (exif_data : option string) : option string :=
  match exif_data with
  | Some b => if Py.truthy b then Some b else None
  | None => None
  end.

Definition save_kwargs_for (output_format : string) (quality : Z)
    (exif_data : option string) : save_kwargs :=
  if bool_decide (Py.upper output_format ∈ ["JPG"; "JPEG"]) then
    {| kw_format := JPEG; kw_quality := Some quality; kw_optimize := true;
       kw_subsampling := Some 0; kw_progressive := true;
       kw_compress_level := None; kw_exif := exif_kwarg exif_data |}
  else
    {| kw_format := PNG; kw_quality := None; kw_optimize := true;
       kw_subsampling := None; kw_progressive := false;
       kw_compress_level := Some 6; kw_exif := exif_kwarg exif_data |}.

Definition save_as_image (img : image) (output_path output_format : string)
    (quality : Z) (exif_data : option string) : M bool :=
  try_except
    (let save_kwargs := save_kwargs_for output_format quality exif_data in
     fs ← get_fs;
     Os.commit output_path (image_save fs img output_path save_kwargs);;
     fs ← get_fs;
     let file_size := FS.getsize fs output_path in
     Logging.info [T "Saved "; T output_format; T " file: ";
                   T (OsPath.basename output_path); T " (";
                   DComma file_size; T " bytes)"];;
     mret true)
    (λ e, Logging.error [T "Failed to save "; T output_path; T ": "; T e];;
          mret false).

Definition page_size_of (page_size : string) : float * float :=
  if String.eqb (Py.upper page_size) "A4" then ReportLab.A4
  else ReportLab.letter.

(** Lines 255-267: position and size of the image on the page, as
    [(x_offset, y_offset, scaled_width, scaled_height)]. *)
Definition pdf_layout (pdf_page_size : float * float)
    (img_width img_height : Z) : result (float * float * float * float) :=
  let '(page_width, page_height) := pdf_page_size in
  match truediv page_width img_width with
  | Raise e => Raise e
  | Ok width_ratio =>
      match truediv page_height img_height with
      | Raise e => Raise e
      | Ok height_ratio =>
          let scale := (float_min width_ratio height_ratio * 0.9)%float in
          let scaled_width := (float_of_int img_width * scale)%float in
          let scaled_height := (float_of_int img_height * scale)%float in
          let x_offset := ((page_width - scaled_width) / 2)%float in
          let y_offset := ((page_height - scaled_height) / 2)%float in
          Ok (x_offset, y_offset, scaled_width, scaled_height)
      end
  end.

(** Lines 234-267, up to the call of [drawImage]. *)
Definition pdf_request (fs : filesystem) (image_path page_size : string)
  : result draw_request :=
  match PIL.open fs image_path with
  | Raise e => Raise e
  | Ok img =>
      match normalize_rgb img with
      | Raise e => Raise e
      | Ok img =>
          let '(img_width, img_height) := im_size img in
          let pdf_page_size := page_size_of page_size in
          match pdf_layout pdf_page_size img_width img_height with
          | Raise e => Raise e
          | Ok (x_offset, y_offset, scaled_width, scaled_height) =>
              Ok {| dr_pagesize := pdf_page_size; dr_image := img;
                    dr_x := x_offset; dr_y := y_offset;
                    dr_width := scaled_width; dr_height := scaled_height |}
          end
      end
  end.

Definition convert_image_to_pdf (image_path output_path page_size : string)
  : M bool :=
  try_except
    (Logging.info [T "Converting to PDF: "; T (OsPath.basename image_path)];;
     fs ← get_fs;
     request ← lift (pdf_request fs image_path page_size);
     Os.commit output_path (canvas_save fs request output_path);;
     fs ← get_fs;
     let file_size := FS.getsize fs output_path in
     Logging.info [T "Saved PDF file: "; T (OsPath.basename output_path);
                   T " ("; DComma file_size; T " bytes)"];;
     mret true)
    (λ e, Logging.error [T "Failed to convert "; T image_path; T " to PDF: ";
                         T e];;
          mret false).

Record stats : Type := Stats {
  total : nat;
  successful : nat;
  failed : nat
}.

Definition output_ext (output_format : string) : string :=
  if String.eqb (Py.upper output_format) "PDF" then ".pdf"
  else if bool_decide (Py.upper output_format ∈ ["JPG"; "JPEG"]) then ".jpg"
  else ".png".

Definition base_name_of (image_file : string) : string :=
  (OsPath.splitext (OsPath.basename image_file)).1.

Definition output_path_of (output_folder output_format image_file : string)
  : string :=
  OsPath.join output_folder (base_name_of image_file +:+ output_ext output_format).

(** The body of the loop of [convert_images], up to the tally. *)
Definition convert_one (output_folder output_format : string) (quality : Z)
    (page_size image_file : string) : M bool :=
  let filename := OsPath.basename image_file in
  let output_path := output_path_of output_folder output_format image_file in
  Logging.info [T "Processing: "; T filename; T " -> ";
                T (OsPath.basename output_path)];;
  if String.eqb (Py.upper output_format) "PDF" then
    convert_image_to_pdf image_file output_path page_size
  else
    r ← convert_image_to_format image_file output_format quality;
    match r with
    | Some (img, exif_data) =>
        save_as_image img output_path output_format quality exif_data
    | None => mret false
    end.

(** The bytes a job hands to its output file when it succeeds: the source
    is decoded and the encoder is called in the states in which the job
    does it, each after the lines logged before. *)
Definition job_output (output_folder output_format : string) (quality : Z)
    (page_size : string) (w : world) (image_file : string)
  : option string :=
  let filename := OsPath.basename image_file in
  let output_path := output_path_of output_folder output_format image_file in
  let w1 := logged INFO [T "Processing: "; T filename; T " -> ";
                         T (OsPath.basename output_path)] w in
  if String.eqb (Py.upper output_format) "PDF" then
    let w2 := logged INFO [T "Converting to PDF: "; T filename] w1 in
    match pdf_request (w_fs w2) image_file page_size with
    | Ok request =>
        match canvas_save (w_fs w2) request output_path with
        | Saved d => Some d
        | SaveFailed _ _ => None
        end
    | Raise _ => None
    end
  else
    match convert_image_to_format image_file output_format quality w1 with
    | (Ok (Some (img, exif_data)), w2) =>
        match image_save (w_fs w2) img output_path
                (save_kwargs_for output_format quality exif_data) with
        | Saved d => Some d
        | SaveFailed _ _ => None
        end
    | _ => None
    end.

Fixpoint convert_loop (output_folder output_format : string) (quality : Z)
    (page_size : string) (image_files : list string)
    (successful failed : nat) : M (nat * nat) :=
  match image_files with
  | [] => mret (successful, failed)
  | image_file :: rest =>
      success ← convert_one output_folder output_format quality page_size
                            image_file;
      if success : bool then
        convert_loop output_folder output_format quality page_size rest
                     (S successful) failed
      else
        convert_loop output_folder output_format quality page_size rest
                     successful (S failed)
  end.

(** Lines 298-304: the output folder is made and, on request, cleared. *)
Definition prepare_output (output_folder : string) (clear_output : bool)
  : M unit :=
  Os.makedirs output_folder;;
  Logging.info [T "Output folder: "; T output_folder];;
  if clear_output then clear_output_folder output_folder true else mret tt.

Definition convert_images (source_folder output_folder output_format : string)
    (quality : Z) (page_size : string) (clear_output : bool) : M stats :=
  prepare_output output_folder clear_output;;
  fs ← get_fs;
  let image_files := get_image_files fs source_folder in
  match image_files with
  | [] =>
      Logging.warning [T "No supported image files found in "; T source_folder];;
      mret (Stats 0 0 0)
  | _ =>
      Logging.info [T "Found "; D (Z.of_nat (length image_files));
                    T " image file(s) to convert"];;
      '(successful, failed) ←
        convert_loop output_folder output_format quality page_size
                     image_files 0%nat 0%nat;
      mret (Stats (length image_files) successful failed)
  end.

(** *** The command line *)

Record namespace : Type := Namespace {
  ns_source : string;
  ns_output : string;
  ns_format : string;
  ns_quality : Z;
  ns_page_size : string;
  ns_verbose : bool;
  ns_no_clear : bool
}.

Definition format_choices : list string :=
  ["pdf"; "png"; "jpg"; "jpeg"; "PDF"; "PNG"; "JPG"; "JPEG"].

Definition page_size_choices : list string :=
  ["letter"; "a4"; "LETTER"; "A4"].

Definition project_root : string :=
  OsPath.dirname (OsPath.dirname script_file).

Definition defaults : namespace :=
  {| ns_source := OsPath.join (OsPath.join project_root "images") "source";
     ns_output := OsPath.join (OsPath.join project_root "images") "output";
     ns_format := "png"; ns_quality := 95; ns_page_size := "letter";
     ns_verbose := false; ns_no_clear := false |}.

(** What [parser.parse_args()] gives: the namespace, or the exit status of
    the usage error (2) or of the help (0). *)
Inductive parsed : Type :=
  | Args (args : namespace)
  | Exit (status : Z).

Definition set_source (v : string) (ns : namespace) : namespace :=
  {| ns_source := v; ns_output := ns_output ns; ns_format := ns_format ns;
     ns_quality := ns_quality ns; ns_page_size := ns_page_size ns;
     ns_verbose := ns_verbose ns; ns_no_clear := ns_no_clear ns |}.

Definition set_output (v : string) (ns : namespace) : namespace :=
  {| ns_source := ns_source ns; ns_output := v; ns_format := ns_format ns;
     ns_quality := ns_quality ns; ns_page_size := ns_page_size ns;
     ns_verbose := ns_verbose ns; ns_no_clear := ns_no_clear ns |}.

Definition set_format (v : string) (ns : namespace) : namespace :=
  {| ns_source := ns_source ns; ns_output := ns_output ns; ns_format := v;
     ns_quality := ns_quality ns; ns_page_size := ns_page_size ns;
     ns_verbose := ns_verbose ns; ns_no_clear := ns_no_clear ns |}.

Definition set_quality (q : Z) (ns : namespace) : namespace :=
  {| ns_source := ns_source ns; ns_output := ns_output ns;
     ns_format := ns_format ns; ns_quality := q;
     ns_page_size := ns_page_size ns;
     ns_verbose := ns_verbose ns; ns_no_clear := ns_no_clear ns |}.

Definition set_page_size (v : string) (ns : namespace) : namespace :=
  {| ns_source := ns_source ns; ns_output := ns_output ns;
     ns_format := ns_format ns; ns_quality := ns_quality ns;
     ns_page_size := v;
     ns_verbose := ns_verbose ns; ns_no_clear := ns_no_clear ns |}.

Definition set_verbose (ns : namespace) : namespace :=
  {| ns_source := ns_source ns; ns_output := ns_output ns;
     ns_format := ns_format ns; ns_quality := ns_quality ns;
     ns_page_size := ns_page_size ns;
     ns_verbose := true; ns_no_clear := ns_no_clear ns |}.

Definition set_no_clear (ns : namespace) : namespace :=
  {| ns_source := ns_source ns; ns_output := ns_output ns;
     ns_format := ns_format ns; ns_quality := ns_quality ns;
     ns_page_size := ns_page_size ns;
     ns_verbose := ns_verbose ns; ns_no_clear := true |}.

(** [parser.parse_args()], as [argparse] of CPython 3.11 reads a command
    line for this parser: an option is given by one of its option strings
    or by an unambiguous prefix of a long one; its argument is the next
    string, or is attached ([--quality=90], [-q90]); single-dash options
    without argument can be grouped ([-vq90]).  An attached argument is
    stored as it is written. *)

(** The actions of the parser. *)
Inductive action : Type :=
  | act_help | act_source | act_output | act_format | act_quality
  | act_page_size | act_verbose | act_no_clear.

(** [parser._option_string_actions], in the order of the [add_argument]
    calls; [-h/--help] is added by the parser itself. *)
Definition option_string_actions : list (string * action) :=
  [("-h", act_help); ("--help", act_help);
   ("-s", act_source); ("--source", act_source);
   ("-o", act_output); ("--output", act_output);
   ("-f", act_format); ("--format", act_format);
   ("-q", act_quality); ("--quality", act_quality);
   ("--page-size", act_page_size);
   ("-v", act_verbose); ("--verbose", act_verbose);
   ("--no-clear", act_no_clear)].

Definition option_action (option_string : string) : option action :=
  snd <$> List.find (λ oa, String.eqb oa.1 option_string) option_string_actions.

(** The number of arguments of an action: one for the [store] actions,
    none for [store_true] and [help]. *)
Definition takes_argument (a : action) : bool :=
  match a with
  | act_help | act_verbose | act_no_clear => false
  | _ => true
  end.

(** [parser._negative_number_matcher], the pattern [^-\d+$|^-\d*\.\d+$];
    [$] also matches before a final line feed. *)
Definition negative_number_body (s : string) : bool :=
  match s with
  | String "-" d =>
      (Py.truthy d && Py.all_digits d)
      || match Py.rpartition "."%char d with
         | Some (a, b) => Py.all_digits a && Py.truthy b && Py.all_digits b
         | None => false
         end
  | _ => false
  end.

Fixpoint chomp (s : string) : option string :=
  match s with
  | EmptyString => None
  | String a EmptyString => if Ascii.eqb a "010" then Some EmptyString else None
  | String a r => String a <$> chomp r
  end.

Definition is_negative_number (s : string) : bool :=
  negative_number_body s
  || match chomp s with Some s' => negative_number_body s' | None => false end.

(** How [_parse_optional] reads one argument. *)
Inductive arg_kind : Type :=
  | Positional
  | Optional (a : option action) (option_string : string)
             (explicit_arg : option string)
  | Ambiguous.

(** [parser._get_option_tuples], for an argument of two characters or more
    that begins with a dash. *)
Definition get_option_tuples (arg_string : string)
  : list (action * string * option string) :=
  match arg_string with
  | String _ (String "-" _) =>
      let '(option_prefix, explicit_arg) :=
        match Py.partition "="%char arg_string with
        | Some (p, e) => (p, Some e)
        | None => (arg_string, None)
        end in
      omap (λ oa : string * action,
              if Py.startswith oa.1 option_prefix
              then Some (oa.2, oa.1, explicit_arg) else None)
           option_string_actions
  | String c0 (String c1 short_explicit_arg) =>
      let short_option_prefix := String c0 (String c1 EmptyString) in
      omap (λ oa : string * action,
              if String.eqb oa.1 short_option_prefix
              then Some (oa.2, oa.1, Some short_explicit_arg)
              else if Py.startswith oa.1 arg_string
              then Some (oa.2, oa.1, None) else None)
           option_string_actions
  | _ => []
  end.

(** [parser._parse_optional] *)
Definition parse_optional (arg_string : string) : arg_kind :=
  if negb (Py.truthy arg_string) then Positional
  else if negb (Py.startswith arg_string "-") then Positional
  else
    match option_action arg_string with
    | Some a => Optional (Some a) arg_string None
    | None =>
        if (String.length arg_string =? 1)%nat then Positional
        else
          let explicit :=
            match Py.partition "="%char arg_string with
            | Some (option_string, explicit_arg) =>
                match option_action option_string with
                | Some a => Some (a, option_string, explicit_arg)
                | None => None
                end
            | None => None
            end in
          match explicit with
          | Some (a, option_string, explicit_arg) =>
              Optional (Some a) option_string (Some explicit_arg)
          | None =>
              match get_option_tuples arg_string with
              | _ :: _ :: _ => Ambiguous
              | [(a, option_string, explicit_arg)] =>
                  Optional (Some a) option_string explicit_arg
              | [] =>
                  if is_negative_number arg_string then Positional
                  else if Py.contains " "%char arg_string then Positional
                  else Optional None arg_string None
              end
          end
    end.

(** The pattern of the command line: [A] for an argument, [O] for an
    option, [-] for the first [--]; what follows it are arguments. *)
Inductive pattern : Type :=
  | pat_A
  | pat_dashes
  | pat_O (a : option action) (option_string : string)
          (explicit_arg : option string).

Fixpoint arg_strings_pattern (arg_strings : list string)
  : option (list pattern) :=
  match arg_strings with
  | [] => Some []
  | arg_string :: rest =>
      if String.eqb arg_string "--" then
        Some (pat_dashes :: ((λ _, pat_A) <$> rest))
      else
        match parse_optional arg_string with
        | Ambiguous => None
        | Positional => cons pat_A <$> arg_strings_pattern rest
        | Optional a s e => cons (pat_O a s e) <$> arg_strings_pattern rest
        end
  end.

(** [take_action]: the value is converted and checked, then stored; the
    help action prints the help and exits. *)
Definition take_action (a : action) (value : string) (ns : namespace)
  : parsed :=
  match a with
  | act_help => Exit 0
  | act_source => Args (set_source value ns)
  | act_output => Args (set_output value ns)
  | act_format =>
      if Py.in_list value format_choices then Args (set_format value ns)
      else Exit 2
  | act_quality =>
      match Py.int value with
      | Some q => Args (set_quality q ns)
      | None => Exit 2
      end
  | act_page_size =>
      if Py.in_list value page_size_choices then Args (set_page_size value ns)
      else Exit 2
  | act_verbose => Args (set_verbose ns)
  | act_no_clear => Args (set_no_clear ns)
  end.

Fixpoint take_actions (todo : list (action * string)) (ns : namespace)
  : parsed :=
  match todo with
  | [] => Args ns
  | (a, value) :: rest =>
      match take_action a value ns with
      | Args ns' => take_actions rest ns'
      | Exit status => Exit status
      end
  end.

(** The loop of [consume_optional] on an explicit argument: single-dash
    options without argument may be followed by further ones in the same
    string.  The result is the actions to take and whether the last one
    still expects its argument; [None] is a usage error. *)
Fixpoint explicit_actions (a : action) (option_string : string)
    (explicit_arg : string) : option (list (action * string) * option action) :=
  if takes_argument a then Some ([(a, explicit_arg)], None)
  else
    match option_string, explicit_arg with
    | String _ (String c1 _), String c rest =>
        if Ascii.eqb c1 "-" then None
        else
          match option_action (String "-" (String c EmptyString)) with
          | None => None
          | Some a' =>
              match rest with
              | EmptyString => Some ([(a, EmptyString)], Some a')
              | _ =>
                  match explicit_actions a' (String "-" (String c EmptyString))
                          rest with
                  | Some (todo, last) => Some ((a, EmptyString) :: todo, last)
                  | None => None
                  end
              end
          end
    | _, _ => None
    end.


(** The loop of [_parse_known_args]: options are consumed with their
    arguments, anything else is left over; left-over arguments are a usage
    error at the end. *)
Fixpoint consume (arg_strings : list string) (pats : list pattern)
    (extras : bool) (ns : namespace) : parsed :=
  match arg_strings, pats with
  | _ :: rest, (pat_A | pat_dashes | pat_O None _ _) :: pats' =>
      consume rest pats' true ns
  | _ :: rest, pat_O (Some a) option_string explicit_arg :: pats' =>
      match (match explicit_arg with
             | Some e => explicit_actions a option_string e
             | None => Some ([], Some a)
             end) with
      | None => Exit 2
      | Some (todo, None) =>
          match take_actions todo ns with
          | Args ns' => consume rest pats' extras ns'
          | Exit status => Exit status
          end
      | Some (todo, Some last) =>
          if takes_argument last then
            match rest, pats' with
            | value :: rest', pat_A :: pats'' =>
                match take_actions (todo ++ [(last, value)]) ns with
                | Args ns' => consume rest' pats'' extras ns'
                | Exit status => Exit status
                end
            | _, _ => Exit 2
            end
          else
            match take_actions (todo ++ [(last, EmptyString)]) ns with
            | Args ns' => consume rest pats' extras ns'
            | Exit status => Exit status
            end
      end
  | _, _ => if extras then Exit 2 else Args ns
  end.

Definition parse_args (argv : list string) (ns : namespace) : parsed :=
  match arg_strings_pattern argv with
  | None => Exit 2
  | Some pats => consume argv pats false ns
  end.

(** ["=" * 60] *)
Definition rule : string := String.concat "" (replicate 60 "=").

(** Lines 446-457: the configuration banner. *)
Definition log_configuration (args : namespace) : M unit :=
  Logging.info [T rule];;
  Logging.info [T "HEIC Image Converter"];;
  Logging.info [T rule];;
  Logging.info [T "Source folder: "; T (ns_source args)];;
  Logging.info [T "Output folder: "; T (ns_output args)];;
  Logging.info [T "Output format: "; T (Py.upper (ns_format args))];;
  (if bool_decide (Py.upper (ns_format args) ∈ ["JPG"; "JPEG"]) then
     Logging.info [T "JPG Quality: "; D (ns_quality args); T "%"]
   else mret tt);;
  (if String.eqb (Py.upper (ns_format args)) "PDF" then
     Logging.info [T "PDF Page size: "; T (Py.upper (ns_page_size args))]
   else mret tt);;
  Logging.info [T rule].

(** Lines 459-493: the conversion, its summary and the exit status. *)
Definition convert_and_report (args : namespace) (log_file : string) : M Z :=
  try_except
    (stats ← convert_images (ns_source args) (ns_output args)
               (ns_format args) (ns_quality args) (ns_page_size args)
               (negb (ns_no_clear args));
     Logging.info [T rule];;
     Logging.info [T "Conversion Summary"];;
     Logging.info [T rule];;
     Logging.info [T "Total files found: "; D (Z.of_nat (total stats))];;
     Logging.info [T "Successfully converted: ";
                   D (Z.of_nat (successful stats))];;
     Logging.info [T "Failed conversions: "; D (Z.of_nat (failed stats))];;
     (if (0 <? total stats)%nat then
        let success_rate :=
          (float_of_int (Z.of_nat (successful stats))
           / float_of_int (Z.of_nat (total stats)) * 100)%float in
        Logging.info [T "Success rate: "; F1 success_rate; T "%"]
      else mret tt);;
     Logging.info [T rule];;
     Logging.info [T "Check output folder: "; T (ns_output args)];;
     Logging.info [T "Log file: "; T log_file];;
     if (0 <? failed stats)%nat then mret 1 else mret 0)
    (λ e, Logging.error [T "Unexpected error: "; T e];;
          Logging.debug [T "Traceback (most recent call last)"];;
          mret 1).

(** [main] after the arguments are parsed; the value is the exit status. *)
Definition run (args : namespace) : M Z :=
  let log_level := if ns_verbose args then DEBUG else INFO in
  log_file ← setup_logging log_level;
  if (ns_quality args <? 1) || (100 <? ns_quality args) then
    Logging.error [T "Quality must be between 1 and 100"];;
    mret 1
  else
    fs ← get_fs;
    if negb (FS.exists_ fs (ns_source args)) then
      Logging.error [T "Source folder does not exist: "; T (ns_source args)];;
      mret 1
    else if negb (FS.is_dir fs (ns_source args)) then
      Logging.error [T "Source path is not a directory: "; T (ns_source args)];;
      mret 1
    else
      log_configuration args;;
      convert_and_report args log_file.

(** The process: the exit status and the state it leaves. *)
Definition main (argv : list string) (w : world) : Z * world :=
  match parse_args argv defaults with
  | Exit status => (status, w)
  | Args args =>
      match run args w with
      | (Ok status, w') => (status, w')
      | (Raise _, w') => (1, w')
      end
  end.

End engine.
End ConvertHeic.

(** ** The usage examples: [src/example_usage.py] *)

Module ExampleUsage.

(** The functions defined by [convert_heic.py]. *)
Inductive engine_op : Type :=
  | op_setup_logging | op_clear_output_folder | op_get_image_files
  | op_convert_image_to_format | op_save_as_image | op_convert_image_to_pdf
  | op_convert_images | op_main.

(** The names bound at the top level of the engine module: its functions,
    and the names it imports itself. *)
Definition convert_heic_module : list (string * option engine_op) :=
  [("os", None); ("glob", None); ("logging", None); ("Path", None);
   ("datetime", None); ("argparse", None); ("sys", None);
   ("register_heif_opener", None); ("Image", None); ("letter", None);
   ("A4", None); ("canvas", None); ("ImageReader", None);
   ("setup_logging", Some op_setup_logging);
   ("clear_output_folder", Some op_clear_output_folder);
   ("get_image_files", Some op_get_image_files);
   ("convert_image_to_format", Some op_convert_image_to_format);
   ("save_as_image", Some op_save_as_image);
   ("convert_image_to_pdf", Some op_convert_image_to_pdf);
   ("convert_images", Some op_convert_images);
   ("main", Some op_main)].

Definition has_attr (module : list (string * option engine_op)) (name : string)
  : bool :=
  existsb (λ b, String.eqb b.1 name) module.

(** Lines 14-21: [from convert_heic import (...)]. *)
Definition imported_names : list string :=
  ["convert_images"; "convert_heic_to_image"; "convert_heic_to_pdf";
   "save_as_image"; "get_heic_files"; "setup_logging"].

(** [from module import names]: the first name the module lacks raises
    ImportError. *)
Fixpoint import_from (module : list (string * option engine_op))
    (names : list string) : result unit :=
  match names with
  | [] => Ok tt
  | name :: rest =>
      if has_attr module name then import_from module rest
      else Raise ("cannot import name '" +:+ name +:+ "' from 'convert_heic'")
  end.

(** The imported names each example calls, in the order of the text. *)
Definition example_calls (n : nat) : list string :=
  match n with
  | 1 => ["setup_logging"; "convert_images"]
  | 2 => ["setup_logging"; "convert_images"]
  | 3 => ["setup_logging"; "convert_images"]
  | 4 => ["setup_logging"; "get_heic_files"; "convert_heic_to_image";
          "save_as_image"]
  | 5 => ["setup_logging"; "convert_images"]
  | 6 => ["setup_logging"; "get_heic_files"; "convert_heic_to_image";
          "save_as_image"]
  | _ => []
  end%nat.

(** The examples [main] runs for a menu choice. *)
Definition menu (choice : string) : list nat :=
  (if String.eqb choice "1" then [1]
   else if String.eqb choice "2" then [2]
   else if String.eqb choice "3" then [3]
   else if String.eqb choice "4" then [4]
   else if String.eqb choice "5" then [5]
   else if String.eqb choice "6" then [6]
   else if String.eqb choice "0" then [1; 2; 3; 4; 6]
   else [])%nat.

(** Running the script with a menu choice: the import statement first,
    then the examples of the choice; the value is the list of the engine
    names called. *)
Definition run_script (choice : string) : result (list string) :=
  match import_from convert_heic_module imported_names with
  | Raise e => Raise e
  | Ok _ => Ok (mjoin (example_calls <$> menu choice))
  end.

End ExampleUsage.

(** ** A host for the examples *)

Module Sample.

Definition rgba_image (exif : string) : image :=
  {| im_mode := M_RGBA; im_size := (2, 1); im_exif := Some exif;
     im_palette := λ _, [];
     im_data := Ok [[10; 20; 30; 0]; [200; 100; 50; 255]] |}.

Definition rgb_image (exif : string) : image :=
  {| im_mode := M_RGB; im_size := (1000, 500); im_exif := Some exif;
     im_palette := λ _, []; im_data := Ok [] |}.

(** A toy codec: the bytes name the mode, and travel on as the exif blob. *)
Definition toy_decode (d : string) : result image :=
  if Py.startswith d "RGBA" then Ok (rgba_image d)
  else if Py.startswith d "RGB" then Ok (rgb_image d)
  else Raise "cannot identify image file".

Definition format_tag (f : image_format) : string :=
  match f with JPEG => "JPEG:" | PNG => "PNG:" end.

Definition toy_save (fs : filesystem) (img : image) (path : string)
    (kw : save_kwargs) : save_outcome :=
  match fs !! path with
  | Some Dir => SaveFailed "[Errno 21] Is a directory" (Some Dir)
  | _ => Saved (format_tag (kw_format kw) +:+ default "" (kw_exif kw))
  end.

Definition level_name (l : level) : string :=
  match l with
  | DEBUG => "DEBUG" | INFO => "INFO" | WARNING => "WARNING" | ERROR => "ERROR"
  end.

(** A toy formatter: the level and the text parts of the message. *)
Definition toy_format (r : log_record) (n : nat) : string :=
  level_name (levelname r) +:+ " - "
  +:+ String.concat "" (omap (λ part, match part with T s => Some s | _ => None end)
                             (message r)).

(** A host on which the removal of the paths in [locked] fails. *)
Definition host (folds : bool) (locked : list string) : Host :=
  {| decode := toy_decode;
     convert_pixel := λ _ _ p, take 3 (p ++ [0; 0; 0]);
     image_save := toy_save;
     canvas_save := λ fs req path, Saved "PDF";
     os_remove_ok := λ _ p, negb (Py.in_list p locked);
     glob_magic_dir := λ _ _, [];
     normcase_folds := folds;
     now_stamp := "20240101_120000";
     script_file := "/app/src/convert_heic.py";
     format_record := toy_format |}.

Definition posix : Host := host false [].

Definition defaults : ConvertHeic.namespace := ConvertHeic.defaults (H := posix).

Definition fresh (fs : filesystem) : world :=
  {| w_fs := fs; w_logging := None; w_log := [] |}.

(** A state in which [setup_logging] has run at level INFO. *)
Definition configured (fs : filesystem) : world :=
  {| w_fs := fs;
     w_logging := Some (LoggingConfig INFO (Some "/app/logs/run.log"));
     w_log := [] |}.

(** Two sources with one base name, a dot-file and a directory with an
    image name. *)
Definition fs0 : filesystem :=
  list_to_map
    [("/app", Dir); ("/app/images", Dir);
     ("/app/images/source", Dir); ("/app/images/output", Dir);
     ("/app/images/source/a.heic", File "RGB one");
     ("/app/images/source/a.png", File "RGBA two");
     ("/app/images/source/.hidden.png", File "RGB three");
     ("/app/images/source/album.png", Dir);
     ("/app/images/source/notes.txt", File "text");
     ("/app/images/output/README.md", File "readme");
     ("/app/images/output/old.JPG", File "old");
     ("/app/images/output/keep.PNG", Dir)].

(** A host on which [a.png] cannot be removed while [b.png] is there, as
    when another program holds it for a while. *)
Definition busy : Host :=
  {| decode := toy_decode;
     convert_pixel := λ _ _ p, take 3 (p ++ [0; 0; 0]);
     image_save := toy_save;
     canvas_save := λ fs req path, Saved "PDF";
     os_remove_ok := λ fs p,
       negb (String.eqb p "/app/images/output/a.png"
             && FS.exists_ fs "/app/images/output/b.png");
     glob_magic_dir := λ _ _, [];
     normcase_folds := false;
     now_stamp := "20240101_120000";
     script_file := "/app/src/convert_heic.py";
     format_record := toy_format |}.

(** A source folder whose last file is not an image. *)
Definition fs2 : filesystem :=
  list_to_map
    [("/app", Dir); ("/app/images", Dir);
     ("/app/images/source", Dir); ("/app/images/output", Dir);
     ("/app/images/source/a.heic", File "RGB one");
     ("/app/images/source/a.png", File "not an image")].

(** An output folder with two old results, a README and a directory. *)
Definition fs1 : filesystem :=
  list_to_map
    [("/app", Dir); ("/app/images", Dir); ("/app/images/output", Dir);
     ("/app/images/output/README.md", File "readme");
     ("/app/images/output/a.png", File "old a");
     ("/app/images/output/b.png", File "old b");
     ("/app/images/output/keep.PNG", Dir)].

End Sample.


(** ** Further sample inputs *)

Module SampleEdge.

(** An image whose header reads but whose raster cannot be loaded. *)
Definition truncated_image : image :=
  {| im_mode := M_RGBA; im_size := (2, 1); im_exif := None;
     im_palette := λ _, [];
     im_data := Raise "image file is truncated" |}.

(** An image without pixels. *)
Definition empty_image : image :=
  {| im_mode := M_RGB; im_size := (0, 0); im_exif := None;
     im_palette := λ _, []; im_data := Ok [] |}.

Definition edge_decode (d : string) : result image :=
  if Py.startswith d "TRUNCATED" then Ok truncated_image
  else if Py.startswith d "EMPTY" then Ok empty_image
  else Sample.toy_decode d.

Definition host : Host :=
  {| decode := edge_decode;
     convert_pixel := λ _ _ p, take 3 (p ++ [0; 0; 0]);
     image_save := Sample.toy_save;
     canvas_save := λ fs req path, Saved "PDF";
     os_remove_ok := λ _ _, true;
     glob_magic_dir := λ _ _, [];
     normcase_folds := false;
     now_stamp := "20240101_120000";
     script_file := "/app/src/convert_heic.py";
     format_record := Sample.toy_format |}.

Definition fs3 : filesystem :=
  list_to_map
    [("/app", Dir); ("/app/images", Dir);
     ("/app/images/source", Dir); ("/app/images/output", Dir);
     ("/app/images/source/t.heic", File "TRUNCATED");
     ("/app/images/source/e.heic", File "EMPTY");
     ("/app/images/source/c.png", File "RGB c")].

(** A source folder with a hidden directory named like an image. *)
Definition fs4 : filesystem :=
  list_to_map
    [("/app", Dir); ("/app/images", Dir);
     ("/app/images/source", Dir); ("/app/images/output", Dir);
     ("/app/images/source/.album.png", Dir);
     ("/app/images/source/b.png", File "RGB b")].

End SampleEdge.

(** ** The set-up script: [setup.py] *)

Module Setup.

(** [sys.version_info] *)
Record version_info : Type := VersionInfo {
  major : Z;
  minor : Z;
  micro : Z
}.

(** What the script asks of its environment. *)
Class Env : Type := {
  (** [sys.version_info] *)
  sys_version_info : version_info;
  (** whether [__import__(name)] succeeds *)
  importable : string → bool;
  (** [subprocess.check_call([sys.executable, "-m", "pip", "install", name])]:
      the text of the [CalledProcessError] when the exit status is not zero,
      and the file system pip leaves *)
  pip_install : filesystem → string → option exn * filesystem;
  (** [os.path.abspath(__file__)] of the script *)
  setup_file : string
}.

(** The file system and the lines the script itself has printed. *)
Record state : Type := State {
  s_fs : filesystem;
  s_out : list (list fpart)
}.

(** How a computation ends: with a value, by [sys.exit], or by an exception
    that nothing catches. *)
Inductive outcome (A : Type) : Type :=
  | Done (a : A)
  | SysExit (status : Z)
  | Error (e : exn).
Arguments Done {A} a.
Arguments SysExit {A} status.
Arguments Error {A} e.

Definition P (A : Type) : Type := state → outcome A * state.

#[global] Instance P_ret : MRet P := λ A a s, (Done a, s).
#[global] Instance P_bind : MBind P := λ A B f m s,
  match m s with
  | (Done a, s') => f a s'
  | (SysExit n, s') => (SysExit n, s')
  | (Error e, s') => (Error e, s')
  end.

Definition sys_exit {A} (status : Z) : P A := λ s, (SysExit status, s).
Definition raise {A} (e : exn) : P A := λ s, (Error e, s).
Definition get_fs : P filesystem := λ s, (Done (s_fs s), s).

(** [try: m except Exception as e: handler e]; [SystemExit] passes. *)
Definition try_except {A} (m : P A) (handler : exn → P A) : P A := λ s,
  match m s with
  | (Error e, s') => handler e s'
  | r => r
  end.

Definition printed (line : list fpart) (s : state) : state :=
  {| s_fs := s_fs s; s_out := s_out s ++ [line] |}.

(** [print(f"...")]; [print()] is [print []]. *)
Definition print (line : list fpart) : P unit := λ s, (Done tt, printed line s).

(** The line feed. *)
Definition nl : string := String "010" "".

(** ["=" * 60] *)
Definition rule : string := String.concat "" (replicate 60 "=").

(** *** The file operations, on absolute paths *)

Definition quoted (p : string) : string := "'" +:+ p +:+ "'".

(** [os.mkdir(p)]: the parent has to be a directory and [p] must not exist. *)
Definition mkdir (p : string) : P unit := λ s,
  match s_fs s !! OsPath.dirname p with
  | Some Dir =>
      match s_fs s !! p with
      | Some _ => (Error ("[Errno 17] File exists: " +:+ quoted p), s)
      | None => (Done tt, {| s_fs := <[p := Dir]> (s_fs s); s_out := s_out s |})
      end
  | Some (File _) => (Error ("[Errno 20] Not a directory: " +:+ quoted p), s)
  | None => (Error ("[Errno 2] No such file or directory: " +:+ quoted p), s)
  end.

Definition is_FileExistsError (e : exn) : bool := Py.startswith e "[Errno 17]".

(** [os.makedirs(name)], with [exist_ok=False]: the missing parents are made
    first, a [FileExistsError] of that step is passed over, then the leaf
    is made.  The recursion is on the head of the path, which is shorter. *)
Fixpoint makedirs_from (depth : nat) (name : string) : P unit :=
  match depth with
  | O => raise "maximum recursion depth exceeded"
  | S depth =>
      let '(head, tail) := OsPath.split name in
      let '(head, tail) :=
        if negb (Py.truthy tail) then OsPath.split head else (head, tail) in
      fs ← get_fs;
      if Py.truthy head && Py.truthy tail && negb (FS.exists_ fs head) then
        try_except (makedirs_from depth head)
                   (λ e, if is_FileExistsError e then mret tt else raise e);;
        if String.eqb tail "." then mret tt else mkdir name
      else mkdir name
  end.

Definition makedirs (name : string) : P unit :=
  makedirs_from (String.length name) name.

(** [with open(path, 'w') as f: f.write(c1); ...; f.write(cn)]: the file is
    created or truncated, and holds the chunks in order when it is closed. *)
Definition write_file (path : string) (chunks : list string) : P unit := λ s,
  match s_fs s !! OsPath.dirname path with
  | Some Dir =>
      match s_fs s !! path with
      | Some Dir => (Error ("[Errno 21] Is a directory: " +:+ quoted path), s)
      | _ => (Done tt, {| s_fs := <[path := File (String.concat "" chunks)]> (s_fs s);
                          s_out := s_out s |})
      end
  | Some (File _) => (Error ("[Errno 20] Not a directory: " +:+ quoted path), s)
  | None => (Error ("[Errno 2] No such file or directory: " +:+ quoted path), s)
  end.

(** Nothing lies inside a regular file. *)
Definition inside_file (fs : filesystem) (p : string) : bool :=
  match fs !! OsPath.dirname p with
  | Some (File _) => true
  | _ => false
  end.

Definition consistent (fs : filesystem) : Prop :=
  map_Forall (λ p _, inside_file fs p = false) fs.

Definition is_file (fs : filesystem) (p : string) : bool :=
  match fs !! p with
  | Some (File _) => true
  | _ => false
  end.

(** A computation that keeps every entry it finds: it only adds. *)
Definition only_adds {A} (m : P A) : Prop :=
  ∀ s, s_fs s ⊆ s_fs (m s).2.

Section script.
Context `{Env}.

Definition install_package (package_name : string) : P bool := λ s,
  match pip_install (s_fs s) package_name with
  | (None, fs) => (Done true, {| s_fs := fs; s_out := s_out s |})
  | (Some e, fs) =>
      (Done false,
       printed [T "Error installing "; T package_name; T ": "; T e]
               {| s_fs := fs; s_out := s_out s |})
  end.

Definition check_python_version : P bool :=
  let version := sys_version_info in
  if (major version <? 3) || ((major version =? 3) && (minor version <? 7)) then
    print [T "Error: Python 3.7 or higher is required. You have Python ";
           D (major version); T "."; D (minor version)];;
    mret false
  else
    print [T "✓ Python "; D (major version); T "."; D (minor version); T ".";
           D (micro version); T " is compatible"];;
    mret true.

Definition required_packages : list (string * string) :=
  [("pillow-heif", "pillow_heif"); ("Pillow", "PIL"); ("reportlab", "reportlab")].

(** The loop of lines 40-46; the value is [missing_packages]. *)
Fixpoint check_loop (packages : list (string * string))
    (missing_packages : list string) : P (list string) :=
  match packages with
  | [] => mret missing_packages
  | (package_name, import_name) :: rest =>
      if importable import_name then
        print [T "✓ "; T package_name; T " is already installed"];;
        check_loop rest missing_packages
      else
        print [T "✗ "; T package_name; T " is not installed"];;
        check_loop rest (missing_packages ++ [package_name])
  end.

Definition check_dependencies : P (bool * list string) :=
  missing_packages ← check_loop required_packages [];
  mret (bool_decide (length missing_packages = 0%nat), missing_packages).

Definition script_dir : string := OsPath.dirname setup_file.

Definition directories : list string :=
  [OsPath.join (OsPath.join script_dir "images") "source";
   OsPath.join (OsPath.join script_dir "images") "output";
   OsPath.join script_dir "logs"].

(** Names for the paths of the layout. *)
Definition images_dir : string := OsPath.join script_dir "images".
Definition source_dir : string := OsPath.join images_dir "source".
Definition output_dir : string := OsPath.join images_dir "output".
Definition logs_dir : string := OsPath.join script_dir "logs".

(** The body of the loop of lines 60-65. *)
Definition ensure_directory (directory : string) : P unit :=
  fs ← get_fs;
  if negb (FS.exists_ fs directory) then
    makedirs directory;;
    print [T "✓ Created directory: "; T directory]
  else
    print [T "✓ Directory exists: "; T directory].

Fixpoint directories_loop (dirs : list string) : P unit :=
  match dirs with
  | [] => mret tt
  | directory :: rest =>
      ensure_directory directory;;
      directories_loop rest
  end.

Definition setup_directories : P bool :=
  directories_loop directories;;
  mret true.

Definition source_readme : string :=
  OsPath.join (OsPath.join (OsPath.join script_dir "images") "source")
              "README.md".

Definition output_readme : string :=
  OsPath.join (OsPath.join (OsPath.join script_dir "images") "output")
              "README.md".

Definition source_readme_chunks : list string :=
  ["# Source Images Folder" +:+ nl +:+ nl;
   "Place your HEIC/HEIF image files in this folder." +:+ nl +:+ nl;
   "Supported file extensions:" +:+ nl;
   "- .heic" +:+ nl;
   "- .HEIC" +:+ nl;
   "- .heif" +:+ nl;
   "- .HEIF" +:+ nl +:+ nl;
   "The converter will automatically detect and process all HEIC files in this folder."
     +:+ nl].

Definition output_readme_chunks : list string :=
  ["# Output Images Folder" +:+ nl +:+ nl;
   "Converted images will be saved in this folder." +:+ nl +:+ nl;
   "The output format depends on the conversion option you choose:" +:+ nl;
   "- PDF format (.pdf)" +:+ nl;
   "- PNG format (.png)" +:+ nl;
   "- JPG format (.jpg)" +:+ nl +:+ nl;
   "Output files will have the same base name as the source files." +:+ nl].

(** One of the two blocks of [create_readme_files]. *)
Definition create_readme (readme : string) (chunks : list string) : P unit :=
  fs ← get_fs;
  if negb (FS.exists_ fs readme) then
    write_file readme chunks;;
    print [T "✓ Created "; T readme]
  else
    print [T "✓ README exists: "; T readme].

Definition create_readme_files : P unit :=
  create_readme source_readme source_readme_chunks;;
  create_readme output_readme output_readme_chunks.

(** The loop of lines 125-132. *)
Fixpoint install_loop (missing_packages : list string) : P unit :=
  match missing_packages with
  | [] => mret tt
  | package :: rest =>
      print [T nl; T "Installing "; T package; T "..."];;
      ok ← install_package package;
      if ok : bool then
        print [T "✓ "; T package; T " installed successfully"];;
        install_loop rest
      else
        print [T "✗ Failed to install "; T package];;
        print [T "Please try installing manually: pip install -r requirements.txt"];;
        sys_exit 1
  end.

Definition next_steps : list (list fpart) :=
  [[T nl; T "The HEIC Image Converter Tool is ready to use!"];
   [T nl; T "Next steps:"];
   [T "1. Add HEIC files to the 'images/source' folder"];
   [T "2. Navigate to src: cd src"];
   [T "3. Run the converter:"];
   [T "   - Convert to PNG:  python convert_heic.py"];
   [T "   - Convert to JPG:  python convert_heic.py -f jpg"];
   [T "   - Convert to PDF:  python convert_heic.py -f pdf"];
   [T "4. Check the output in 'images/output' folder"];
   [T "5. Review logs in 'logs' folder for debugging"];
   [T nl; T "For help, run: python convert_heic.py --help"];
   [T nl; T "Quick start scripts:"];
   [T "  Windows: cd src && .\convert_heic.bat"];
   [T "  Unix/Mac: cd src && ./convert_heic.sh"]].

Fixpoint print_all (lines : list (list fpart)) : P unit :=
  match lines with
  | [] => mret tt
  | line :: rest => print line;; print_all rest
  end.

Definition main : P unit :=
  print [T rule];;
  print [T "Image Converter Tool - Setup"];;
  print [T rule];;
  print [];;
  ok ← check_python_version;
  (if negb ok then sys_exit 1 else mret tt);;
  print [];;
  '(dependencies_ok, missing_packages) ← check_dependencies;
  (if negb dependencies_ok then
     print [T nl; T rule];;
     print [T "Installing missing dependencies..."];;
     print [T rule];;
     install_loop missing_packages
   else mret tt);;
  print [T nl; T rule];;
  print [T "Setting up directories..."];;
  print [T rule];;
  setup_directories;;
  print [];;
  create_readme_files;;
  print [T nl; T rule];;
  print [T "Setup Complete!"];;
  print [T rule];;
  print_all next_steps.

(** The process: its exit status and the state it leaves. *)
Definition run (s : state) : Z * state :=
  match main s with
  | (Done _, s') => (0, s')
  | (SysExit status, s') => (status, s')
  | (Error _, s') => (1, s')
  end.

End script.
End Setup.

(** A project with the script and nothing else, on a current Python with
    every package installed. *)
Module SampleSetup.

Definition env (version : Setup.version_info) (installed : list string)
    (broken : list string) : Setup.Env :=
  {| Setup.sys_version_info := version;
     Setup.importable := λ name, Py.in_list name installed;
     Setup.pip_install := λ fs name,
       if Py.in_list name broken
       then (Some "Command returned non-zero exit status 1.", fs)
       else (None, fs);
     Setup.setup_file := "/app/setup.py" |}.

Definition ready : Setup.Env :=
  env (Setup.VersionInfo 3 11 4) ["pillow_heif"; "PIL"; "reportlab"] [].

Definition bare : filesystem :=
  list_to_map [("/app", Dir); ("/app/setup.py", File "#!/usr/bin/env python3")].


(** reportlab is missing and does not install. *)
Definition offline : Setup.Env :=
  env (Setup.VersionInfo 3 11 4) ["pillow_heif"; "PIL"] ["reportlab"].

(** A project in which [logs] is a regular file. *)
Definition with_logs_file : filesystem :=
  list_to_map [("/app", Dir); ("/app/setup.py", File "#!/usr/bin/env python3");
               ("/app/logs", File "notes")].

(** A project in which [images/output] is a regular file and a README of
    the source folder is already there. *)
Definition with_output_file : filesystem :=
  list_to_map [("/app", Dir); ("/app/setup.py", File "#!/usr/bin/env python3");
               ("/app/images", Dir); ("/app/images/source", Dir);
               ("/app/images/source/README.md", File "mine");
               ("/app/images/output", File "oops")].

Definition start (fs : filesystem) : Setup.state :=
  {| Setup.s_fs := fs; Setup.s_out := [] |}.

End SampleSetup.
(** * Properties *)

(** ** Strings and paths *)

Section strings.

Lemma app_String c (a b : string) : String c a +:+ b = String c (a +:+ b).
Proof. reflexivity. Qed.

Lemma app_empty (b : string) : "" +:+ b = b.
Proof. reflexivity. Qed.

Lemma eqb_true_iff (a b : string) : String.eqb a b = true ↔ a = b.
Proof. apply String.eqb_eq. Qed.

Lemma in_list_elem_of x xs : Py.in_list x xs = true ↔ x ∈ xs.
Proof.
  unfold Py.in_list. rewrite existsb_exists. split.
  - intros (y & Hy & E). apply String.eqb_eq in E as ->.
    by apply list_elem_of_In.
  - intros Hx. exists x. split; [by apply list_elem_of_In|apply String.eqb_refl].
Qed.

Lemma lower_app a b : Py.lower (a +:+ b) = Py.lower a +:+ Py.lower b.
Proof.
  induction a as [|c a IH]; [done|]. rewrite app_String. simpl.
  by rewrite IH, app_String.
Qed.

Lemma endswith_refl s : Py.endswith s s = true.
Proof. destruct s; cbn [Py.endswith]; by rewrite String.eqb_refl. Qed.

Lemma endswith_app a b : Py.endswith (a +:+ b) b = true.
Proof.
  induction a as [|c a IH]; [apply endswith_refl|].
  rewrite app_String. cbn [Py.endswith].
  rewrite IH. by destruct (String.eqb _ _).
Qed.

Lemma endswith_inv s suf :
  Py.endswith s suf = true → ∃ pre, s = pre +:+ suf.
Proof.
  induction s as [|c s IH]; cbn [Py.endswith].
  - destruct suf; [by exists ""|done].
  - destruct (String.eqb (String c s) suf) eqn:E.
    + apply String.eqb_eq in E. intros _. by exists "".
    + intros [pre ->]%IH. by exists (String c pre).
Qed.

Lemma app_assoc_str (a b c : string) : (a +:+ b) +:+ c = a +:+ (b +:+ c).
Proof. induction a as [|x a IH]; [done|]. rewrite !app_String. by f_equal. Qed.

Lemma app_nil_r_str (a : string) : a +:+ "" = a.
Proof. induction a as [|x a IH]; [done|]. rewrite app_String. by f_equal. Qed.

Lemma app_inv_head_str (a b c : string) : a +:+ b = a +:+ c → b = c.
Proof. apply (inj (String.app a)). Qed.

Lemma length_app_str (a b : string) :
  String.length (a +:+ b) = (String.length a + String.length b)%nat.
Proof.
  induction a as [|x a IH]; [done|]. rewrite app_String. simpl. by rewrite IH.
Qed.

Lemma app_inv_tail_str (a b c : string) : a +:+ c = b +:+ c → a = b.
Proof.
  revert b. induction a as [|x a IH]; intros [|y b]; [done| | |].
  - intros E. apply (f_equal String.length) in E.
    rewrite app_empty, app_String in E. simpl in E.
    rewrite length_app_str in E. lia.
  - intros E. apply (f_equal String.length) in E.
    rewrite app_empty, app_String in E. simpl in E.
    rewrite length_app_str in E. lia.
  - rewrite !app_String. intros [= -> E]. f_equal. auto.
Qed.

(** [rpartition] splits at an occurrence of the separator, and the tail
    has none. *)
Lemma rpartition_Some c s h t :
  Py.rpartition c s = Some (h, t) →
  s = h +:+ String c t ∧ Py.contains c t = false.
Proof.
  revert h t. induction s as [|a s IH]; simpl; [done|]. intros h t.
  destruct (Py.rpartition c s) as [[h' t']|] eqn:E.
  - intros [= <- <-]. destruct (IH _ _ eq_refl) as [-> ?].
    by rewrite app_String.
  - destruct (Ascii.eqb a c) eqn:Ea; [|done].
    apply Ascii.eqb_eq in Ea as ->. intros [= <- <-]. split; [done|].
    clear IH. induction s as [|b s IH]; simpl in *; [done|].
    destruct (Py.rpartition c s) as [[??]|]; [done|].
    destruct (Ascii.eqb b c); [done|]. auto.
Qed.

Lemma rpartition_None c s :
  Py.rpartition c s = None ↔ Py.contains c s = false.
Proof.
  induction s as [|a s IH]; simpl; [done|].
  destruct (Py.rpartition c s) as [[??]|] eqn:E.
  - split; [done|]. intros [_ Hs]%orb_false_iff.
    apply IH in Hs. done.
  - destruct (Ascii.eqb a c); simpl; [done|]. tauto.
Qed.

Lemma contains_app c a b :
  Py.contains c (a +:+ b) = Py.contains c a || Py.contains c b.
Proof.
  induction a as [|x a IH]; [done|]. rewrite app_String. simpl.
  rewrite IH. by rewrite orb_assoc.
Qed.

(** With no separator in [t], the last occurrence in [h/t] is the one
    written. *)
Lemma rpartition_app c h t :
  Py.contains c t = false →
  Py.rpartition c (h +:+ String c t) = Some (h, t).
Proof.
  intros Ht. induction h as [|a h IH]; [rewrite app_empty|rewrite app_String]; simpl.
  - apply rpartition_None in Ht. rewrite Ht. by rewrite Ascii.eqb_refl.
  - by rewrite IH.
Qed.

Lemma basename_no_sep p : Py.contains OsPath.sep (OsPath.basename p) = false.
Proof.
  unfold OsPath.basename.
  destruct (Py.rpartition OsPath.sep p) as [[h t]|] eqn:E.
  - by apply rpartition_Some in E as [_ ?].
  - by apply rpartition_None.
Qed.

Lemma basename_id n : Py.contains OsPath.sep n = false → OsPath.basename n = n.
Proof.
  intros Hn. unfold OsPath.basename.
  apply rpartition_None in Hn. by rewrite Hn.
Qed.

End strings.

(** ** The usage examples against the engine *)

Section examples.

(** The names the examples import that the engine does not define. *)
Lemma missing_names :
  filter (λ n, ExampleUsage.has_attr ExampleUsage.convert_heic_module n = false)
         ExampleUsage.imported_names
  = ["convert_heic_to_image"; "convert_heic_to_pdf"; "get_heic_files"].
Proof. reflexivity. Qed.

(** The engine defines the three operations under other names. *)
Lemma renamed_operations :
  ExampleUsage.has_attr ExampleUsage.convert_heic_module "convert_image_to_format" = true
  ∧ ExampleUsage.has_attr ExampleUsage.convert_heic_module "convert_image_to_pdf" = true
  ∧ ExampleUsage.has_attr ExampleUsage.convert_heic_module "get_image_files" = true.
Proof. done. Qed.

(** C1.  For every menu choice the script stops at its import statement:
    the engine has no [convert_heic_to_image], so no example runs and no
    engine operation is called. *)
Theorem example_usage_import_fails (choice : string) :
  ExampleUsage.run_script choice
  = Raise "cannot import name 'convert_heic_to_image' from 'convert_heic'".
Proof. reflexivity. Qed.

End examples.

(** ** The command line *)

Section cli.
Context `{Host}.
Import ConvertHeic.

(** An option and its argument in the next string. *)
Lemma parse_args_format v ns :
  parse_args ["-f"; v] ns
  = if String.eqb v "--" then Exit 2
    else match parse_optional v with
         | Positional =>
             if Py.in_list v format_choices then Args (set_format v ns)
             else Exit 2
         | _ => Exit 2
         end.
Proof.
  unfold parse_args.
  change (arg_strings_pattern ["-f"; v])
    with (cons (pat_O (Some act_format) "-f" None) <$> arg_strings_pattern [v]).
  cbn [arg_strings_pattern].
  destruct (String.eqb v "--"); [reflexivity|].
  destruct (parse_optional v) as [|a s e|]; [|reflexivity|reflexivity].
  cbn -[Py.in_list]. by destruct (Py.in_list v format_choices).
Qed.

Lemma parse_args_page_size v ns :
  parse_args ["--page-size"; v] ns
  = if String.eqb v "--" then Exit 2
    else match parse_optional v with
         | Positional =>
             if Py.in_list v page_size_choices then Args (set_page_size v ns)
             else Exit 2
         | _ => Exit 2
         end.
Proof.
  unfold parse_args.
  change (arg_strings_pattern ["--page-size"; v])
    with (cons (pat_O (Some act_page_size) "--page-size" None)
            <$> arg_strings_pattern [v]).
  cbn [arg_strings_pattern].
  destruct (String.eqb v "--"); [reflexivity|].
  destruct (parse_optional v) as [|a s e|]; [|reflexivity|reflexivity].
  cbn -[Py.in_list]. by destruct (Py.in_list v page_size_choices).
Qed.

(** The values of the two lists are arguments, not options. *)
Lemma format_choice_is_value v :
  v ∈ format_choices → String.eqb v "--" = false ∧ parse_optional v = Positional.
Proof. unfold format_choices. set_unfold. intros Hv. by destruct_or!; subst. Qed.

Lemma page_size_choice_is_value v :
  v ∈ page_size_choices →
  String.eqb v "--" = false ∧ parse_optional v = Positional.
Proof. unfold page_size_choices. set_unfold. intros Hv. by destruct_or!; subst. Qed.

Lemma in_list_decide x xs : Py.in_list x xs = bool_decide (x ∈ xs).
Proof.
  destruct (Py.in_list x xs) eqn:E; symmetry.
  - apply bool_decide_eq_true. by apply in_list_elem_of.
  - apply bool_decide_eq_false. intros Hx%in_list_elem_of. congruence.
Qed.

(** C7, as the code has it.  The format option accepts exactly the eight
    spellings of its [choices] list, the page-size option exactly four:
    each value in lower case or in upper case, nothing else; an accepted
    spelling selects the same target as its lower-case form. *)
Theorem cli_choices_exact (v : string) (ns : namespace) :
  parse_args ["-f"; v] ns
    = (if bool_decide (v ∈ format_choices) then Args (set_format v ns) else Exit 2)
  ∧ parse_args ["--page-size"; v] ns
    = (if bool_decide (v ∈ page_size_choices) then Args (set_page_size v ns)
       else Exit 2)
  ∧ (v ∈ format_choices →
     (v = Py.lower v ∨ v = Py.upper v)
     ∧ Py.lower v ∈ ["pdf"; "png"; "jpg"; "jpeg"]
     ∧ output_ext v = output_ext (Py.lower v))
  ∧ (v ∈ page_size_choices →
     (v = Py.lower v ∨ v = Py.upper v)
     ∧ Py.lower v ∈ ["letter"; "a4"]
     ∧ page_size_of v = page_size_of (Py.lower v)).
Proof.
  split_and!.
  - rewrite parse_args_format, <- in_list_decide.
    destruct (Py.in_list v format_choices) eqn:E.
    + apply in_list_elem_of in E.
      destruct (format_choice_is_value v E) as [E1 E2]. by rewrite E1, E2.
    + destruct (String.eqb v "--"); [done|].
      by destruct (parse_optional v).
  - rewrite parse_args_page_size, <- in_list_decide.
    destruct (Py.in_list v page_size_choices) eqn:E.
    + apply in_list_elem_of in E.
      destruct (page_size_choice_is_value v E) as [E1 E2]. by rewrite E1, E2.
    + destruct (String.eqb v "--"); [done|].
      by destruct (parse_optional v).
  - unfold format_choices. set_unfold. intros Hv.
    destruct_or!; subst; (split_and!; [by (left + right)|by auto 10|done]).
  - unfold page_size_choices. set_unfold. intros Hv.
    destruct_or!; subst; (split_and!; [by (left + right)|by auto 10|done]).
Qed.

End cli.

(** C7, witness: the values [PDF] and [A4]. *)
Lemma cli_choices_exact_witness :
  ConvertHeic.parse_args ["-f"; "PDF"] Sample.defaults
    = ConvertHeic.Args (ConvertHeic.set_format "PDF" Sample.defaults)
  ∧ ConvertHeic.output_ext "PDF" = ConvertHeic.output_ext "pdf"
  ∧ ConvertHeic.page_size_of "A4" = ConvertHeic.page_size_of "a4".
Proof.
  destruct (cli_choices_exact "PDF" Sample.defaults) as (Hf & _ & Hc & _).
  destruct (cli_choices_exact "A4" Sample.defaults) as (_ & _ & _ & Hp).
  split_and!.
  - exact Hf.
  - apply Hc. unfold ConvertHeic.format_choices. set_solver.
  - apply Hp. unfold ConvertHeic.page_size_choices. set_solver.
Defined.

(** C7, as claimed, fails: the mixed-case spellings [Pdf] and [Letter] are
    usage errors (exit status 2), although they are [pdf] and [letter] up to
    case. *)
Lemma mixed_case_choice_rejected :
  Py.lower "Pdf" = "pdf" ∧ Py.lower "Letter" = "letter"
  ∧ ConvertHeic.main (H := Sample.posix) ["-f"; "Pdf"] (Sample.fresh Sample.fs0)
    = (2, Sample.fresh Sample.fs0)
  ∧ ConvertHeic.main (H := Sample.posix) ["--page-size"; "Letter"]
      (Sample.fresh Sample.fs0)
    = (2, Sample.fresh Sample.fs0).
Proof. done. Qed.

(** ** The monad of a run *)

Section monad.
Context `{Host}.

Lemma bind_unfold {A B} (m : M A) (f : A → M B) (w : world) :
  (m ≫= f) w
  = match m w with
    | (Ok a, w') => f a w'
    | (Raise e, w') => (Raise e, w')
    end.
Proof. reflexivity. Qed.

Lemma bind_Ok {A B} (m : M A) (f : A → M B) (w w' : world) a :
  m w = (Ok a, w') → (m ≫= f) w = f a w'.
Proof. intros E. by rewrite bind_unfold, E. Qed.

Lemma bind_Raise {A B} (m : M A) (f : A → M B) (w w' : world) e :
  m w = (Raise e, w') → (m ≫= f) w = (Raise e, w').
Proof. intros E. by rewrite bind_unfold, E. Qed.

Lemma log_eq l msg w : Logging.log l msg w = (Ok tt, logged l msg w).
Proof. reflexivity. Qed.

(** *** Text appended to the log file *)

Lemma kept_at_refl lp p fs : kept_at lp p fs fs.
Proof. by left. Qed.

Lemma kept_at_trans lp p fs1 fs2 fs3 :
  kept_at lp p fs1 fs2 → kept_at lp p fs2 fs3 → kept_at lp p fs1 fs3.
Proof.
  intros [E12|(Hlp' & d1 & m1 & E1 & E2')] [E23|(Hlp & d2 & m2 & E2 & E3)].
  - left. congruence.
  - right. split; [done|]. exists d2, m2. split; congruence.
  - right. split; [done|]. exists d1, m1. split; congruence.
  - right. split; [done|]. exists d1, (m1 +:+ m2). split; [done|].
    rewrite E3. assert (d2 = d1 +:+ m1) as -> by congruence.
    by rewrite app_assoc_str.
Qed.

Lemma kept_at_ne lp p fs fs' : kept_at lp p fs fs' → lp ≠ Some p → fs' !! p = fs !! p.
Proof. by intros [E|[? _]]. Qed.

(** A regular file that is kept holds what it held, and what was appended
    to it if it is the log file. *)
Lemma kept_at_File lp p fs fs' d :
  kept_at lp p fs fs' → fs !! p = Some (File d) →
  ∃ more, fs' !! p = Some (File (d +:+ more)) ∧ (lp ≠ Some p → more = "").
Proof.
  intros [E|(Hlp & d' & more & E1 & E2)] Hd.
  - exists "". split; [|done]. by rewrite E, Hd, app_nil_r_str.
  - exists more. split; [congruence|done].
Qed.

Lemma appended_to_refl lp fs : appended_to lp fs fs.
Proof. intros p. by left. Qed.

Lemma appended_to_trans lp fs1 fs2 fs3 :
  appended_to lp fs1 fs2 → appended_to lp fs2 fs3 → appended_to lp fs1 fs3.
Proof. intros H12 H23 p. by eapply kept_at_trans. Qed.

Lemma appended_to_lookup_ne lp fs fs' p :
  appended_to lp fs fs' → lp ≠ Some p → fs' !! p = fs !! p.
Proof. intros Ha Hne. by destruct (Ha p) as [E|[? _]]. Qed.

Lemma appended_to_no_file fs fs' : appended_to None fs fs' → fs' = fs.
Proof.
  intros Ha. apply map_eq. intros p. by destruct (Ha p) as [E|[? _]].
Qed.

Lemma appended_to_Dir lp fs fs' p :
  appended_to lp fs fs' → fs' !! p = Some Dir ↔ fs !! p = Some Dir.
Proof.
  intros Ha. destruct (Ha p) as [E|(_ & d & m & E1 & E2)].
  - by rewrite E.
  - rewrite E1, E2. done.
Qed.

Lemma appended_to_None lp fs fs' p :
  appended_to lp fs fs' → fs' !! p = None ↔ fs !! p = None.
Proof.
  intros Ha. destruct (Ha p) as [E|(_ & d & m & E1 & E2)].
  - by rewrite E.
  - rewrite E1, E2. done.
Qed.

Lemma appended_to_File lp fs fs' p d' :
  appended_to lp fs fs' → fs' !! p = Some (File d') →
  ∃ d, fs !! p = Some (File d).
Proof.
  intros Ha E'. destruct (Ha p) as [E|(_ & d & m & E1 & E2)]; [|by eauto].
  exists d'. congruence.
Qed.

Lemma appended_to_is_dir lp fs fs' p :
  appended_to lp fs fs' → FS.is_dir fs' p = FS.is_dir fs p.
Proof.
  intros Ha. unfold FS.is_dir.
  destruct (Ha p) as [E|(_ & d & m & E1 & E2)]; [by rewrite E|].
  by rewrite E1, E2.
Qed.

Lemma appended_to_exists lp fs fs' p :
  appended_to lp fs fs' → FS.exists_ fs' p = FS.exists_ fs p.
Proof.
  intros Ha. unfold FS.exists_.
  destruct (Ha p) as [E|(_ & d & m & E1 & E2)]; [by rewrite E|].
  by rewrite E1, E2.
Qed.

Lemma append_lookup_ne fs p q text : p ≠ q → FS.append fs p text !! q = fs !! q.
Proof.
  intros Hne. unfold FS.append.
  destruct (fs !! p) as [[d|]|]; [|done..]. by rewrite lookup_insert_ne.
Qed.

Lemma append_appended fs p text : appended_to (Some p) fs (FS.append fs p text).
Proof.
  intros q. destruct (decide (p = q)) as [<-|Hne].
  - unfold FS.append. destruct (fs !! p) as [[d|]|] eqn:E; [|by left..].
    right. split; [done|]. exists d, text. by rewrite lookup_insert_eq.
  - left. by apply append_lookup_ne.
Qed.

(** *** One record *)

Lemma logged_log_path l msg w : log_path (logged l msg w) = log_path w.
Proof.
  unfold logged, log_path.
  destruct (w_logging w) as [cfg|]; simpl; by destruct (_ <=? _).
Qed.

Lemma logged_appended l msg w :
  appended_to (log_path w) (w_fs w) (w_fs (logged l msg w)).
Proof.
  unfold logged, log_path, emit.
  destruct (w_logging w) as [[lv [p|]]|]; simpl;
    destruct (_ <=? _); simpl;
    try apply appended_to_refl; apply append_appended.
Qed.

Lemma logged_lookup_ne l msg w p :
  log_path w ≠ Some p → w_fs (logged l msg w) !! p = w_fs w !! p.
Proof. apply appended_to_lookup_ne, logged_appended. Qed.

(** Without a log file, logging leaves the file system as it is. *)
Lemma logged_fs l msg w : log_path w = None → w_fs (logged l msg w) = w_fs w.
Proof.
  intros Hlp. apply appended_to_no_file. rewrite <- Hlp. apply logged_appended.
Qed.

Lemma logged_is_dir l msg w p :
  FS.is_dir (w_fs (logged l msg w)) p = FS.is_dir (w_fs w) p.
Proof. eapply appended_to_is_dir, logged_appended. Qed.

Lemma logged_exists l msg w p :
  FS.exists_ (w_fs (logged l msg w)) p = FS.exists_ (w_fs w) p.
Proof. eapply appended_to_exists, logged_appended. Qed.

Lemma logged_appended_from lp fs l msg w :
  appended_to lp fs (w_fs w) → log_path w = lp →
  appended_to lp fs (w_fs (logged l msg w)).
Proof.
  intros Ha <-. eapply appended_to_trans; [done|]. apply logged_appended.
Qed.

Lemma logged_lookup_Dir l msg w p :
  w_fs (logged l msg w) !! p = Some Dir ↔ w_fs w !! p = Some Dir.
Proof. eapply appended_to_Dir, logged_appended. Qed.

Lemma logged_lookup_None l msg w p :
  w_fs (logged l msg w) !! p = None ↔ w_fs w !! p = None.
Proof. eapply appended_to_None, logged_appended. Qed.



(** An error record always passes. *)
Lemma logged_error msg w :
  w_log (logged ERROR msg w) = w_log w ++ [LogRecord ERROR msg].
Proof.
  unfold logged. simpl.
  by destruct (w_logging w) as [[[] ?]|].
Qed.

(** The line of an error record reaches the log file. *)
Lemma logged_error_line msg w p d :
  log_path w = Some p → w_fs w !! p = Some (File d) →
  w_fs (logged ERROR msg w) !! p
  = Some (File (d +:+ format_record (LogRecord ERROR msg) (length (w_log w))
                  +:+ Py.linefeed)).
Proof.
  unfold logged, log_path, emit. intros Hlp Hd.
  destruct (w_logging w) as [[lv [q|]]|]; simplify_eq/=.
  replace (level_no lv <=? 40) with true by (by destruct lv).
  simpl. unfold FS.append. rewrite Hd. by rewrite lookup_insert_eq.
Qed.

End monad.

(** Logging steps append to the log file and keep its path. *)
Ltac solve_appended :=
  repeat first
    [ apply appended_to_refl
    | apply logged_appended_from
    | rewrite logged_log_path
    | reflexivity ].

Section cli_quality.
Context `{Host}.
Import ConvertHeic.

(** The check of lines 432-435, for a parsed command line. *)
Lemma run_quality (args : namespace) (w : world) :
  match setup_logging (if ns_verbose args then DEBUG else INFO) w with
  | (Raise e, w1) => run args w = (Raise e, w1)
  | (Ok log_file, w1) =>
      if bool_decide (1 ≤ ns_quality args ≤ 100) then
        FS.is_dir (w_fs w1) (ns_source args) = true →
        run args w
        = (log_configuration args;; convert_and_report args log_file) w1
      else
        run args w
        = (Ok 1, logged ERROR [T "Quality must be between 1 and 100"] w1)
  end.
Proof.
  unfold run. rewrite bind_unfold.
  destruct (setup_logging _ w) as [[log_file|e] w1]; [|done].
  case_bool_decide as Hq.
  - intros Hdir.
    replace ((ns_quality args <? 1) || (100 <? ns_quality args)) with false
      by (symmetry; apply orb_false_iff; split; apply Z.ltb_ge; lia).
    rewrite (bind_unfold get_fs). unfold get_fs at 1. cbv beta iota.
    rewrite Hdir. unfold FS.exists_. unfold FS.is_dir in Hdir.
    by destruct (w_fs w1 !! ns_source args) as [[]|].
  - replace ((ns_quality args <? 1) || (100 <? ns_quality args)) with true
      by (symmetry; apply orb_true_iff;
          destruct (Z.ltb_spec (ns_quality args) 1); [by left|right];
          apply Z.ltb_lt; lia).
    rewrite bind_unfold. unfold Logging.error. by rewrite log_eq.
Qed.

(** C8.  Every command line, whatever the way its options are written: a
    usage error or the help ends the process before anything is done;
    otherwise the logging is set up and, when the quality is outside 1..100,
    the process ends with status 1 in the state the set-up left plus one
    error record, whose line is appended to the log file: no folder is made
    or cleared, nothing is discovered or converted.  A quality within
    1..100 (1 and 100 included) passes, and with a source directory the run
    goes on to the banner and the conversion. *)
Theorem quality_validation (argv : list string) (w : world) :
  match parse_args argv defaults with
  | Exit status => main argv w = (status, w)
  | Args args =>
      match setup_logging (if ns_verbose args then DEBUG else INFO) w with
      | (Raise _, w1) => main argv w = (1, w1)
      | (Ok log_file, w1) =>
          if bool_decide (1 ≤ ns_quality args ≤ 100) then
            FS.is_dir (w_fs w1) (ns_source args) = true →
            run args w
            = (log_configuration args;; convert_and_report args log_file) w1
          else
            ∃ w', main argv w = (1, w')
                  ∧ w' = logged ERROR [T "Quality must be between 1 and 100"] w1
                  ∧ w_log w'
                    = w_log w1
                      ++ [LogRecord ERROR [T "Quality must be between 1 and 100"]]
                  ∧ appended_to (log_path w1) (w_fs w1) (w_fs w')
                  ∧ ∀ p, log_path w1 ≠ Some p → w_fs w' !! p = w_fs w1 !! p
      end
  end.
Proof.
  unfold main.
  destruct (parse_args argv defaults) as [args|status]; [|done].
  pose proof (run_quality args w) as Hrun.
  destruct (setup_logging _ w) as [[log_file|e] w1]; [|by rewrite Hrun].
  case_bool_decide as Hq; [done|].
  rewrite Hrun. eexists. split; [done|]. split; [done|].
  split; [apply logged_error|]. split; [apply logged_appended|].
  intros p. apply logged_lookup_ne.
Qed.

End cli_quality.

(** C8, on the sample host: quality 0, written [--quality=0], is refused
    after the set-up of the logging, and the line of the error is the last
    of the log file. *)
Lemma quality_validation_witness :
  ∃ w', ConvertHeic.main (H := Sample.posix) ["--quality=0"]
          (Sample.fresh Sample.fs0) = (1, w')
        ∧ w_fs w' !! "/app/logs/convert_images_20240101_120000.log"
          = Some (File ("INFO - Log file created: "
                        +:+ "/app/logs/convert_images_20240101_120000.log"
                        +:+ Py.linefeed
                        +:+ "ERROR - Quality must be between 1 and 100"
                        +:+ Py.linefeed))
        ∧ w_fs w' !! "/app/images/output/a.png" = None.
Proof.
  pose proof (quality_validation (H := Sample.posix) ["--quality=0"]
                (Sample.fresh Sample.fs0)) as Hq.
  change (ConvertHeic.parse_args ["--quality=0"] ConvertHeic.defaults)
    with (ConvertHeic.Args (ConvertHeic.set_quality 0 Sample.defaults)) in Hq.
  cbv beta iota in Hq.
  change (if ConvertHeic.ns_verbose _ then DEBUG else INFO) with INFO in Hq.
  destruct (ConvertHeic.setup_logging (H := Sample.posix) INFO
              (Sample.fresh Sample.fs0)) as [[log_file|e] w1] eqn:Hs;
    [|by vm_compute in Hs].
  case_bool_decide as Hr; [simpl in Hr; lia|].
  destruct Hq as (w' & Hmain & -> & _). eexists. split; [exact Hmain|].
  assert (w1 = (ConvertHeic.setup_logging (H := Sample.posix) INFO
                  (Sample.fresh Sample.fs0)).2) as -> by (by rewrite Hs).
  split; vm_compute; reflexivity.
Defined.

(** The boundary values through the whole command line, the option
    written in its different ways. *)
Example quality_boundaries :
  (ConvertHeic.main (H := Sample.posix) ["-q"; "0"] (Sample.fresh Sample.fs0)).1 = 1
  ∧ (ConvertHeic.main (H := Sample.posix) ["-q0"] (Sample.fresh Sample.fs0)).1 = 1
  ∧ (ConvertHeic.main (H := Sample.posix) ["--qual"; "101"]
       (Sample.fresh Sample.fs0)).1 = 1
  ∧ (ConvertHeic.main (H := Sample.posix) ["--quality=101"]
       (Sample.fresh Sample.fs0)).1 = 1
  ∧ (ConvertHeic.main (H := Sample.posix) ["-q"; "-5"] (Sample.fresh Sample.fs0)).1 = 1
  ∧ (ConvertHeic.main (H := Sample.posix) ["-vq"; " 1_0_1 "]
       (Sample.fresh Sample.fs0)).1 = 1
  ∧ (ConvertHeic.main (H := Sample.posix) ["-q"; "1"; "-f"; "jpg"]
       (Sample.fresh Sample.fs0)).2.(w_fs) !! "/app/images/output/a.jpg"
    = Some (File "JPEG:RGBA two")
  ∧ (ConvertHeic.main (H := Sample.posix) ["--quality=100"; "-fjpg"]
       (Sample.fresh Sample.fs0)).2.(w_fs) !! "/app/images/output/a.jpg"
    = Some (File "JPEG:RGBA two").
Proof. vm_compute. done. Qed.

(** ** Operations that never raise *)

Section totality.
Context `{Host}.
Import ConvertHeic.

Lemma returns_ret {A} (a : A) : returns (mret a).
Proof. intros w. by exists a, w. Qed.

Lemma returns_bind {A B} (m : M A) (f : A → M B) :
  returns m → (∀ a, returns (f a)) → returns (m ≫= f).
Proof.
  intros Hm Hf w. destruct (Hm w) as (a & w' & E).
  rewrite (bind_Ok _ _ _ _ _ E). apply Hf.
Qed.

Lemma returns_try {A} (m : M A) (h : exn → M A) :
  (∀ e, returns (h e)) → returns (try_except m h).
Proof.
  intros Hh w. unfold try_except.
  destruct (m w) as [[a|e] w']; [by exists a, w'|apply Hh].
Qed.

Lemma returns_log l msg : returns (Logging.log l msg).
Proof. intros w. by eexists _, _. Qed.

Lemma returns_get_fs : returns get_fs.
Proof. intros w. by eexists _, _. Qed.

Lemma returns_set_fs fs : returns (set_fs fs).
Proof. intros w. by eexists _, _. Qed.

Lemma returns_if {A} (b : bool) (m1 m2 : M A) :
  returns m1 → returns m2 → returns (if b then m1 else m2).
Proof. by destruct b. Qed.

Ltac returns_step :=
  first [ apply returns_bind; [|intros ?]
        | apply returns_try; intros ?
        | apply returns_ret | apply returns_log | apply returns_get_fs
        | apply returns_set_fs
        | apply returns_if ].

Lemma returns_convert_image_to_format p f q :
  returns (convert_image_to_format p f q).
Proof.
  unfold convert_image_to_format, Logging.error. repeat returns_step.
Qed.

Lemma returns_save_as_image img p f q e : returns (save_as_image img p f q e).
Proof. unfold save_as_image, Logging.error. repeat returns_step. Qed.

Lemma returns_convert_image_to_pdf p o ps : returns (convert_image_to_pdf p o ps).
Proof. unfold convert_image_to_pdf, Logging.error. repeat returns_step. Qed.

Lemma returns_convert_one out f q ps file : returns (convert_one out f q ps file).
Proof.
  unfold convert_one, Logging.info. returns_step; [returns_step|].
  destruct (String.eqb _ _); [apply returns_convert_image_to_pdf|].
  apply returns_bind; [apply returns_convert_image_to_format|].
  intros [[img e]|]; [apply returns_save_as_image|apply returns_ret].
Qed.

Lemma returns_clear_entry out keep name n : returns (clear_entry out keep name n).
Proof.
  unfold clear_entry. apply returns_bind; [apply returns_get_fs|]. intros fs.
  destruct (FS.is_dir _ _); [apply returns_ret|].
  destruct (_ && _); [apply returns_ret|].
  destruct (has_removable_extension _); [|apply returns_ret].
  unfold Logging.warning. repeat returns_step.
Qed.

Lemma returns_clear_loop out keep names n : returns (clear_loop out keep names n).
Proof.
  revert n. induction names as [|name names IH]; intros n; simpl.
  - apply returns_ret.
  - apply returns_bind; [apply returns_clear_entry|]. intros ?. apply IH.
Qed.

(** The tally of the loop: every file adds one to exactly one counter. *)
Lemma convert_loop_tally out f q ps files s0 f0 w :
  ∃ s1 f1 w', convert_loop out f q ps files s0 f0 w = (Ok (s1, f1), w')
              ∧ (s1 + f1 = s0 + f0 + length files)%nat.
Proof.
  revert s0 f0 w. induction files as [|file files IH]; intros s0 f0 w.
  - exists s0, f0, w. split; [done|simpl; lia].
  - cbn [convert_loop].
    destruct (returns_convert_one out f q ps file w) as (b & w1 & E).
    rewrite (bind_Ok _ _ _ _ _ E).
    destruct b.
    + destruct (IH (S s0) f0 w1) as (s1 & f1 & w' & E' & Hsum).
      exists s1, f1, w'. split; [done|simpl; lia].
    + destruct (IH s0 (S f0) w1) as (s1 & f1 & w' & E' & Hsum).
      exists s1, f1, w'. split; [done|simpl; lia].
Qed.

End totality.

(** ** The batch run *)

Section batch.
Context `{Host}.
Import ConvertHeic.

(** *** Making directories *)

Lemma made_dirs_refl w : made_dirs w w.
Proof. split_and!; [done..|]. intros p. by left. Qed.

Lemma made_dirs_trans w1 w2 w3 :
  made_dirs w1 w2 → made_dirs w2 w3 → made_dirs w1 w3.
Proof.
  intros (Hc12 & Hl12 & H12) (Hc23 & Hl23 & H23).
  split_and!; [congruence..|]. intros p.
  destruct (H23 p) as [E23|[E2 E3]]; destruct (H12 p) as [E12|[E1 E2']].
  - left. congruence.
  - right. split; congruence.
  - right. split; congruence.
  - right. split; congruence.
Qed.

Lemma made_dirs_subseteq w w1 : made_dirs w w1 → w_fs w ⊆ w_fs w1.
Proof.
  intros (_ & _ & Hfs). apply map_subseteq_spec. intros p n Hn.
  destruct (Hfs p) as [E|[E _]]; congruence.
Qed.

Lemma made_dirs_log_path w w1 : made_dirs w w1 → log_path w1 = log_path w.
Proof. intros (Hc & _). unfold log_path. by rewrite Hc. Qed.

Lemma made_dirs_File w w1 p d :
  made_dirs w w1 → w_fs w1 !! p = Some (File d) ↔ w_fs w !! p = Some (File d).
Proof.
  intros (_ & _ & Hfs). destruct (Hfs p) as [E|[E E']]; [by rewrite E|].
  rewrite E, E'. done.
Qed.

Lemma os_mkdir_spec p w :
  match Os.mkdir p w with
  | (Ok _, w1) => made_dirs w w1 ∧ w_fs w !! p = None ∧ w_fs w1 !! p = Some Dir
  | (Raise _, w1) => w1 = w
  end.
Proof.
  unfold Os.mkdir. rewrite bind_unfold. unfold get_fs at 1. cbv beta iota.
  rewrite bind_unfold. unfold lift, FS.mkdir.
  destruct (negb (Py.truthy p)); [done|].
  destruct (if Py.truthy (OsPath.dirname p) then _ else _) as [[d|]|]; [done| |done].
  destruct (w_fs w !! p) as [n|] eqn:E; [done|].
  cbn [set_fs w_fs]. split_and!; [|done|by rewrite lookup_insert_eq].
  split_and!; [done..|]. intros q. cbn [w_fs].
  destruct (decide (q = p)) as [->|Hne].
  - right. by rewrite lookup_insert_eq.
  - left. by rewrite lookup_insert_ne.
Qed.

Lemma mkdir_exist_ok_spec name w :
  match Os.mkdir_exist_ok name w with
  | (Ok _, w1) => made_dirs w w1 ∧ w_fs w1 !! name = Some Dir
  | (Raise _, w1) => w1 = w ∧ w_fs w !! name ≠ Some Dir
  end.
Proof.
  unfold Os.mkdir_exist_ok, try_except.
  pose proof (os_mkdir_spec name w) as Hm.
  destruct (Os.mkdir name w) as [[[]|e] w1].
  - by destruct Hm as (? & _ & ?).
  - subst w1. rewrite bind_unfold. unfold get_fs at 1. cbv beta iota.
    unfold FS.is_dir.
    destruct (w_fs w !! name) as [[d|]|] eqn:E; try done.
    split; [apply made_dirs_refl|done].
Qed.

(** A directory that is there already is left as it is. *)
Lemma mkdir_exist_ok_existing name w :
  w_fs w !! name = Some Dir → Os.mkdir_exist_ok name w = (Ok tt, w).
Proof.
  intros Hd. unfold Os.mkdir_exist_ok, try_except.
  pose proof (os_mkdir_spec name w) as Hm.
  destruct (Os.mkdir name w) as [[[]|e] w1].
  - destruct Hm as (_ & Hn & _). congruence.
  - subst w1. rewrite bind_unfold. unfold get_fs at 1. cbv beta iota.
    unfold FS.is_dir. by rewrite Hd.
Qed.

Lemma makedirs_from_made depth name w :
  made_dirs w (Os.makedirs_from depth name w).2.
Proof.
  revert name w. induction depth as [|depth IH]; intros name w.
  { apply made_dirs_refl. }
  cbn [Os.makedirs_from].
  destruct (OsPath.split name) as [head0 tail0].
  destruct (if negb (Py.truthy tail0) then OsPath.split head0 else (head0, tail0))
    as [head tail].
  rewrite bind_unfold. unfold get_fs at 1. cbv beta iota.
  pose proof (mkdir_exist_ok_spec name) as Hleaf.
  destruct (Py.truthy head && Py.truthy tail && negb (FS.exists_ (w_fs w) head)).
  - rewrite bind_unfold. unfold try_except at 1.
    pose proof (IH head w) as Hhead.
    destruct (Os.makedirs_from depth head w) as [[[]|e] w1]; cbn [snd] in Hhead.
    + destruct (String.eqb tail "."); [done|].
      specialize (Hleaf w1).
      destruct (Os.mkdir_exist_ok name w1) as [[[]|e] w2]; cbn [snd].
      * eapply made_dirs_trans; [done|]. by destruct Hleaf.
      * by destruct Hleaf as [-> _].
    + destruct (Os.is_FileExistsError e); [|done].
      change ((mret () : M unit) w1) with (Ok (), w1). cbv beta iota.
      destruct (String.eqb tail "."); [done|].
      specialize (Hleaf w1).
      destruct (Os.mkdir_exist_ok name w1) as [[[]|e'] w2]; cbn [snd].
      * eapply made_dirs_trans; [done|]. by destruct Hleaf.
      * by destruct Hleaf as [-> _].
  - specialize (Hleaf w).
    destruct (Os.mkdir_exist_ok name w) as [[[]|e] w1]; cbn [snd].
    + by destruct Hleaf.
    + destruct Hleaf as [-> _]. apply made_dirs_refl.
Qed.

(** [os.makedirs] only makes directories, where nothing was. *)
Lemma makedirs_made name w : made_dirs w (Os.makedirs name w).2.
Proof. apply makedirs_from_made. Qed.

(** A directory whose parent is there is left as it is. *)
Lemma makedirs_existing name w :
  w_fs w !! name = Some Dir →
  Py.truthy (OsPath.split name).2 = true →
  Py.truthy (OsPath.dirname name) = false
  ∨ FS.exists_ (w_fs w) (OsPath.dirname name) = true →
  Os.makedirs name w = (Ok tt, w).
Proof.
  intros Hd Htail Hhead. unfold Os.makedirs. cbn [Os.makedirs_from].
  unfold OsPath.dirname in Hhead.
  destruct (OsPath.split name) as [head tail]. cbn [fst snd] in *.
  rewrite Htail. cbn [negb].
  rewrite bind_unfold. unfold get_fs at 1. cbv beta iota. rewrite Htail.
  replace (Py.truthy head && true && negb (FS.exists_ (w_fs w) head))
    with false.
  - by apply mkdir_exist_ok_existing.
  - destruct Hhead as [E|E]; rewrite E; [done|]. by rewrite andb_false_r.
Qed.


Lemma clear_output_folder_returns out keep w :
  w_fs w !! out = Some Dir → ∃ w', clear_output_folder out keep w = (Ok tt, w').
Proof.
  intros Hdir. unfold clear_output_folder.
  rewrite bind_unfold. unfold get_fs at 1. cbv beta iota.
  unfold FS.exists_. rewrite Hdir. cbn [negb].
  rewrite bind_unfold. unfold Os.listdir. rewrite bind_unfold.
  unfold get_fs at 1. cbv beta iota. unfold lift, FS.listdir. rewrite Hdir.
  destruct (returns_clear_loop out keep (FS.entries (w_fs w) out) 0%nat w)
    as (n & w1 & E).
  rewrite (bind_Ok _ _ _ _ _ E).
  destruct (0 <? n)%nat; unfold Logging.info; rewrite log_eq; eauto.
Qed.

(** C2.  A batch run either stops with the exception of the preparation
    of the output folder (lines 298-304, when the folder cannot be made) or
    returns statistics with [successful + failed = total], where [total] is
    the number of files the discovery returns for the source folder in the
    state the run calls it in (after the output folder is made and
    cleared).  The loop over the files never raises. *)
Theorem batch_statistics (source_folder output_folder output_format : string)
    (quality : Z) (page_size : string) (clear_output : bool) (w : world) :
  match convert_images source_folder output_folder output_format quality
                       page_size clear_output w with
  | (Ok st, _) =>
      (successful st + failed st = total st)%nat
      ∧ ∃ w1, prepare_output output_folder clear_output w = (Ok tt, w1)
              ∧ total st = length (get_image_files (w_fs w1) source_folder)
  | (Raise e, w') =>
      prepare_output output_folder clear_output w = (Raise e, w')
  end.
Proof.
  unfold convert_images. rewrite bind_unfold.
  destruct (prepare_output output_folder clear_output w) as [[[]|e] w1]; [|done].
  rewrite bind_unfold. unfold get_fs at 1. cbv beta iota.
  destruct (get_image_files (w_fs w1) source_folder) as [|file files] eqn:Hfiles.
  - rewrite bind_unfold. unfold Logging.warning. rewrite log_eq.
    split; [done|]. exists w1. by rewrite Hfiles.
  - rewrite bind_unfold. unfold Logging.info at 1. rewrite log_eq.
    rewrite bind_unfold.
    destruct (convert_loop_tally output_folder output_format quality page_size
                (file :: files) 0%nat 0%nat
                (logged INFO [T "Found "; D (Z.of_nat (length (file :: files)));
                              T " image file(s) to convert"] w1))
      as (s1 & f1 & w' & -> & Hsum).
    cbn [mret M_ret total successful failed]. split; [lia|].
    exists w1. by rewrite Hfiles.
Qed.

End batch.

(** ** Paths of directory entries *)

Section paths.

Lemma rstrip_id c s :
  Py.endswith s (String c "") = false → Py.rstrip c s = s.
Proof.
  induction s as [|a r IH]; [done|]. cbn [Py.endswith].
  destruct (String.eqb (String a r) (String c "")) eqn:E; [done|].
  intros Hr. simpl. rewrite (IH Hr). destruct r as [|b r]; [|done].
  destruct (Ascii.eqb a c) eqn:Ea; [|done].
  apply Ascii.eqb_eq in Ea as ->. by rewrite String.eqb_refl in E.
Qed.

Lemma rstrip_app_sep c s : Py.rstrip c (s +:+ String c "") = Py.rstrip c s.
Proof.
  induction s as [|a r IH].
  - rewrite app_empty. simpl. by rewrite Ascii.eqb_refl.
  - rewrite app_String. simpl. by rewrite IH.
Qed.

Lemma all_char_app c a b :
  Py.all_char c (a +:+ b) = Py.all_char c a && Py.all_char c b.
Proof.
  induction a as [|x a IH]; [done|]. rewrite app_String. simpl.
  by rewrite IH, andb_assoc.
Qed.

Lemma all_char_false c s :
  s ≠ "" → Py.endswith s (String c "") = false → Py.all_char c s = false.
Proof.
  induction s as [|a r IH]; [done|]. intros _. cbn [Py.endswith].
  destruct (String.eqb (String a r) (String c "")) eqn:E; [done|].
  intros Hr. simpl. destruct r as [|b r].
  - destruct (Ascii.eqb a c) eqn:Ea; [|done].
    apply Ascii.eqb_eq in Ea as ->. by rewrite String.eqb_refl in E.
  - rewrite IH; [apply andb_false_r|done|done].
Qed.

(** [join] of a folder written without a trailing separator. *)
Lemma join_plain src b :
  src ≠ "" → Py.endswith src "/" = false → Py.startswith b "/" = false →
  OsPath.join src b = src +:+ "/" +:+ b.
Proof.
  intros Hne He Hb. unfold OsPath.join. rewrite Hb, He.
  by destruct src.
Qed.

Lemma startswith_sep_contains b :
  Py.contains OsPath.sep b = false → Py.startswith b "/" = false.
Proof.
  destruct b as [|a b]; [done|]. simpl. intros [Ha _]%orb_false_iff.
  unfold OsPath.sep in Ha. by rewrite Ha.
Qed.

Lemma join_inj out x y :
  Py.startswith x "/" = false → Py.startswith y "/" = false →
  OsPath.join out x = OsPath.join out y → x = y.
Proof.
  intros Hx Hy. unfold OsPath.join. rewrite Hx, Hy.
  destruct (negb (Py.truthy out) || Py.endswith out "/").
  - apply app_inv_head_str.
  - intros E%app_inv_head_str. by apply app_inv_head_str in E.
Qed.

(** Splitting the joined path gives back the folder and the last part. *)
Lemma split_join src b :
  src ≠ "" → Py.endswith src "/" = false → Py.contains OsPath.sep b = false →
  OsPath.split (OsPath.join src b) = (src, b).
Proof.
  intros Hne He Hb.
  rewrite join_plain by auto using startswith_sep_contains.
  unfold OsPath.split.
  change (src +:+ "/" +:+ b) with (src +:+ String OsPath.sep b).
  rewrite rpartition_app by done.
  unfold OsPath.sep.
  rewrite all_char_app, (all_char_false "/" src Hne He). cbn [andb].
  by rewrite rstrip_app_sep, rstrip_id.
Qed.

Lemma basename_join src n :
  src ≠ "" → Py.endswith src "/" = false → Py.contains OsPath.sep n = false →
  OsPath.basename (OsPath.join src n) = n.
Proof.
  intros Hne He Hn.
  rewrite join_plain by auto using startswith_sep_contains.
  unfold OsPath.basename.
  change (src +:+ "/" +:+ n) with (src +:+ String OsPath.sep n).
  by rewrite rpartition_app.
Qed.

(** [splitext] cuts its argument in two. *)
Lemma splitext_app p : (OsPath.splitext p).1 +:+ (OsPath.splitext p).2 = p.
Proof.
  unfold OsPath.splitext.
  destruct (Py.rpartition OsPath.sep p) as [[h t]|] eqn:Ep.
  - apply rpartition_Some in Ep as [-> _].
    destruct (Py.rpartition OsPath.extsep t) as [[root e]|] eqn:Et;
      [|by rewrite app_nil_r_str].
    destruct (Py.all_char _ root); [by rewrite app_nil_r_str|].
    apply rpartition_Some in Et as [-> _]. simpl.
    by rewrite !app_assoc_str.
  - destruct (Py.rpartition OsPath.extsep p) as [[root e]|] eqn:Et;
      [|by rewrite app_nil_r_str].
    destruct (Py.all_char _ root); [by rewrite app_nil_r_str|].
    by apply rpartition_Some in Et as [-> _].
Qed.

Lemma endswith_splitext p : Py.endswith p (OsPath.splitext p).2 = true.
Proof. rewrite <- (splitext_app p) at 1. apply endswith_app. Qed.

(** A name is listed in a folder exactly when the joined path is a key. *)
Lemma elem_of_entries (fs : filesystem) folder n :
  n ∈ FS.entries fs folder ↔
  ∃ k, is_Some (fs !! k) ∧ OsPath.basename k = n ∧ n ≠ ""
       ∧ OsPath.join folder n = k.
Proof.
  unfold FS.entries. rewrite list_elem_of_omap. split.
  - intros ([k v] & Hkv & He). apply elem_of_map_to_list in Hkv.
    unfold FS.entry_name in He. simpl in He.
    destruct (Py.truthy (OsPath.basename k)) eqn:Ht; [|done].
    destruct (String.eqb _ k) eqn:Ek; [|done]. simpl in He.
    injection He as <-. apply String.eqb_eq in Ek.
    exists k. split_and!; [by exists v|done|by destruct (OsPath.basename k)|done].
  - intros (k & [v Hv] & Hb & Hne & Hj). exists (k, v). split.
    + by apply elem_of_map_to_list.
    + unfold FS.entry_name. simpl. rewrite Hb, Hj, String.eqb_refl.
      by destruct n.
Qed.

Lemma entries_lookup (fs : filesystem) folder n :
  n ∈ FS.entries fs folder → is_Some (fs !! OsPath.join folder n).
Proof. rewrite elem_of_entries. by intros (k & Hk & _ & _ & ->). Qed.

Lemma entries_no_sep (fs : filesystem) folder n :
  n ∈ FS.entries fs folder → Py.contains OsPath.sep n = false.
Proof.
  rewrite elem_of_entries. intros (k & _ & <- & _). apply basename_no_sep.
Qed.

Lemma entries_intro (fs : filesystem) folder n :
  folder ≠ "" → Py.endswith folder "/" = false →
  n ≠ "" → Py.contains OsPath.sep n = false →
  is_Some (fs !! OsPath.join folder n) → n ∈ FS.entries fs folder.
Proof.
  intros Hf He Hn Hs Hk. apply elem_of_entries.
  exists (OsPath.join folder n). split_and!; [done| |done|done].
  by apply basename_join.
Qed.

End paths.

(** ** Discovery *)

Section discovery.
Context `{Host}.
Import ConvertHeic.

Lemma elem_of_glob1 nc names pat n :
  n ∈ Glob.glob1 nc names pat ↔
  n ∈ names ∧ Glob.ishidden n = false
  ∧ Glob.fnmatch_star nc n (Glob.star_suffix pat) = true.
Proof. unfold Glob.glob1. rewrite !list_elem_of_filter. tauto. Qed.

Lemma elem_of_foldl_app {A B} (f : B → list A) (l : list B) (acc : list A) x :
  x ∈ foldl (λ a y, a ++ f y) acc l ↔ x ∈ acc ∨ ∃ y, y ∈ l ∧ x ∈ f y.
Proof.
  revert acc. induction l as [|y l IH]; intros acc; simpl.
  - split; [by left|]. intros [?|(y & Hy & _)]; [done|by apply elem_of_nil in Hy].
  - rewrite IH, elem_of_app. split.
    + intros [[?|?]|(z & Hz & Hx)]; [by left| |].
      * right. exists y. split; [left|done].
      * right. exists z. split; [by right|done].
    + intros [?|(z & Hz & Hx)]; [by left; left|].
      apply elem_of_cons in Hz as [->|Hz]; [by left; right|].
      right. by exists z.
Qed.

(** A path is globbed when one of the ten patterns yields it. *)
Lemma elem_of_globbed fs src p :
  p ∈ globbed fs src ↔
  ∃ pat, pat ∈ patterns ∧ p ∈ glob_glob fs (OsPath.join src pat).
Proof.
  unfold globbed. rewrite elem_of_foldl_app. split.
  - intros [Hp|?]; [by apply elem_of_nil in Hp|done].
  - by right.
Qed.

Lemma pattern_no_sep pat : pat ∈ patterns → Py.contains OsPath.sep pat = false.
Proof.
  unfold patterns. rewrite !elem_of_cons, elem_of_nil. intros Hp.
  by destruct_or! Hp; try done; subst pat.
Qed.

(** For a source folder written plainly, each glob call filters the names
    of the folder and joins them to it. *)
Lemma glob_glob_plain fs src pat :
  src ≠ "" → Py.endswith src "/" = false → Glob.has_magic src = false →
  fs !! src = Some Dir → pat ∈ patterns →
  glob_glob fs (OsPath.join src pat)
  = OsPath.join src <$> Glob.glob1 normcase_folds (FS.entries fs src) pat.
Proof.
  intros Hne He Hm Hd Hp. unfold glob_glob.
  rewrite split_join by auto using pattern_no_sep.
  rewrite Hm. unfold FS.listdir. rewrite Hd. by destruct src.
Qed.

(** What the set and the sort do to the globbed list. *)
Lemma get_image_files_spec fs src :
  NoDup (get_image_files fs src)
  ∧ StronglySorted String.le (get_image_files fs src)
  ∧ ∀ p, p ∈ get_image_files fs src ↔ p ∈ globbed fs src.
Proof.
  unfold get_image_files. split_and!.
  - rewrite merge_sort_Permutation. apply NoDup_elements.
  - apply (StronglySorted_merge_sort _).
  - intros p. rewrite merge_sort_Permutation, elem_of_elements.
    apply elem_of_list_to_set.
Qed.

(** An entry of the source folder that a pattern matches is discovered,
    whatever its kind. *)
Lemma matched_entry_discovered fs src n pat :
  src ≠ "" → Py.endswith src "/" = false → Glob.has_magic src = false →
  fs !! src = Some Dir →
  n ∈ FS.entries fs src → Glob.ishidden n = false → pat ∈ patterns →
  Glob.fnmatch_star normcase_folds n (Glob.star_suffix pat) = true →
  OsPath.join src n ∈ get_image_files fs src.
Proof.
  intros Hne He Hm Hd Hn Hh Hp Hf.
  apply get_image_files_spec, elem_of_globbed. exists pat. split; [done|].
  rewrite glob_glob_plain by done.
  apply list_elem_of_fmap. exists n. split; [done|]. by apply elem_of_glob1.
Qed.

(** The ten extensions of the patterns. *)
Lemma pattern_suffixes :
  Glob.star_suffix <$> patterns
  = [".heic"; ".HEIC"; ".heif"; ".HEIF"; ".jpg"; ".JPG"; ".jpeg"; ".JPEG";
     ".png"; ".PNG"].
Proof. reflexivity. Qed.

Lemma fnmatch_of_extension nc n ext :
  (OsPath.splitext n).2 = ext → Glob.fnmatch_star nc n ext = true.
Proof.
  intros <-. unfold Glob.fnmatch_star. destruct nc; [|apply endswith_splitext].
  rewrite <- (splitext_app n) at 1. rewrite lower_app. apply endswith_app.
Qed.

(** C3, as the code has it.  The discovered list has no duplicates, is
    sorted in ascending order of character codes, and holds exactly the paths
    the ten glob calls return.  For a source directory written plainly
    (non-empty path, no trailing separator, no glob metacharacter), every
    entry with one of the ten extensions whose name does not begin with a
    dot is in the list (hence exactly once); names beginning with a dot are
    skipped by the patterns. *)
Theorem discovery_sorted_unique (fs : filesystem) (source_folder : string) :
  NoDup (get_image_files fs source_folder)
  ∧ StronglySorted String.le (get_image_files fs source_folder)
  ∧ (∀ p, p ∈ get_image_files fs source_folder ↔ p ∈ globbed fs source_folder)
  ∧ (source_folder ≠ "" → Py.endswith source_folder "/" = false →
     Glob.has_magic source_folder = false → fs !! source_folder = Some Dir →
     ∀ n, n ∈ FS.entries fs source_folder →
          (OsPath.splitext n).2 ∈ Glob.star_suffix <$> patterns →
          Glob.ishidden n = false →
          OsPath.join source_folder n ∈ get_image_files fs source_folder).
Proof.
  destruct (get_image_files_spec fs source_folder) as (Hnd & Hs & Hin).
  split_and!; [done..|].
  intros Hne He Hm Hd n Hn Hext Hh.
  apply list_elem_of_fmap in Hext as (pat & Hpat & Hp).
  eapply matched_entry_discovered; eauto.
  by apply fnmatch_of_extension.
Qed.



End discovery.

(** C3, witness: the two sources of the sample folder. *)
Lemma discovery_sorted_unique_witness :
  NoDup (ConvertHeic.get_image_files (H := Sample.posix) Sample.fs0
           "/app/images/source")
  ∧ "/app/images/source/a.heic"
    ∈ ConvertHeic.get_image_files (H := Sample.posix) Sample.fs0
        "/app/images/source".
Proof.
  destruct (discovery_sorted_unique (H := Sample.posix) Sample.fs0
              "/app/images/source") as (Hnd & _ & _ & Hall).
  split; [exact Hnd|].
  apply (Hall ltac:(done) eq_refl eq_refl eq_refl "a.heic").
  - apply (bool_decide_unpack _). by vm_compute.
  - apply (bool_decide_unpack _). by vm_compute.
  - reflexivity.
Defined.

(** C3, as claimed, fails: [.hidden.png] is a regular file with a supported
    extension directly inside the source folder, and discovery does not
    return its path. *)
Lemma hidden_file_not_discovered :
  Sample.fs0 !! "/app/images/source/.hidden.png" = Some (File "RGB three")
  ∧ ".hidden.png" ∈ FS.entries Sample.fs0 "/app/images/source"
  ∧ (OsPath.splitext ".hidden.png").2 = ".png"
  ∧ "/app/images/source/.hidden.png"
    ∉ ConvertHeic.get_image_files (H := Sample.posix) Sample.fs0
        "/app/images/source".
Proof.
  split_and!; [reflexivity| |reflexivity|];
    apply (bool_decide_unpack _); by vm_compute.
Qed.


(** C10, as claimed, fails: the directory [.album.png] lies directly inside
    the source folder and its name matches the pattern [*.png], but
    discovery does not return it, because [glob] skips the names that begin
    with a dot. *)
Lemma hidden_directory_not_discovered :
  SampleEdge.fs4 !! "/app/images/source/.album.png" = Some Dir
  ∧ ".album.png" ∈ FS.entries SampleEdge.fs4 "/app/images/source"
  ∧ "*.png" ∈ ConvertHeic.patterns
  ∧ Glob.fnmatch_star false ".album.png" (Glob.star_suffix "*.png") = true
  ∧ ConvertHeic.get_image_files (H := Sample.posix) SampleEdge.fs4
      "/app/images/source"
    = ["/app/images/source/b.png"].
Proof.
  split_and!; [reflexivity| | |reflexivity|by vm_compute];
    apply (bool_decide_unpack _); by vm_compute.
Qed.

(** The sample run: the directory is one of three jobs, and the failed one. *)
Example sample_batch :
  (ConvertHeic.convert_images (H := Sample.posix) "/app/images/source"
     "/app/images/output" "png" 95 "letter" true (Sample.fresh Sample.fs0)).1
  = Ok (ConvertHeic.Stats 3 2 1).
Proof. by vm_compute. Qed.

(** Where [normcase] folds case, two patterns yield the same path; the set
    keeps one. *)
Example duplicates_removed :
  let fs : filesystem := list_to_map [("pics", Dir); ("pics/A.PNG", File "RGB")] in
  ConvertHeic.globbed (H := Sample.host true []) fs "pics"
  = ["pics/A.PNG"; "pics/A.PNG"]
  ∧ ConvertHeic.get_image_files (H := Sample.host true []) fs "pics"
    = ["pics/A.PNG"].
Proof. by vm_compute. Qed.

(** ** Normalisation and PDF placement *)

Section raster.
Context `{Host}.
Import ConvertHeic.

Lemma blend_transparent b : PIL.blend 0 255 b = 255.
Proof. unfold PIL.blend. by rewrite Z.mul_0_r. Qed.

Lemma blend_opaque a b : 0 ≤ b ≤ 255 → PIL.blend 255 a b = b.
Proof.
  intros Hb. unfold PIL.blend, PIL.div255. rewrite Z.sub_diag, Z.mul_0_r.
  rewrite !Z.shiftr_div_pow2 by lia.
  change (2 ^ 8) with 256.
  destruct (Z_le_gt_dec b 128) as [Hs|Hs].
  - assert ((0 + b * 255 + 128) `div` 256 = b) as ->.
    { symmetry. apply Z.div_unique with (r := 128 - b); lia. }
    symmetry. apply Z.div_unique with (r := 128); lia.
  - assert ((0 + b * 255 + 128) `div` 256 = b - 1) as ->.
    { symmetry. apply Z.div_unique with (r := 384 - b); lia. }
    symmetry. apply Z.div_unique with (r := 127); lia.
Qed.

(** A fully transparent pixel leaves the white background. *)
Lemma paste_transparent m p :
  length (PIL.rgb_bands m p) = 3%nat →
  PIL.paste_pixel m white p (Some 0) = white.
Proof.
  unfold PIL.paste_pixel, white. intros Hl.
  destruct (PIL.rgb_bands m p) as [|r [|g [|b [|??]]]]; try done.
  simpl. by rewrite !blend_transparent.
Qed.

Lemma rgb_bands_length m p :
  m ∈ [M_RGBA; M_LA] → length p = PIL.bands m →
  length (PIL.rgb_bands m p) = 3%nat.
Proof.
  rewrite !elem_of_cons, elem_of_nil. intros [->|[->|[]]] Hl.
  - by destruct p as [|r [|g [|b [|a [|??]]]]].
  - by destruct p as [|l [|a [|??]]].
Qed.

(** The raster [paste] builds over a white background. *)
Lemma composite_lookup m (px : list pixel) n i p :
  px !! i = Some p → (i < n)%nat →
  zip_with (λ d sm, PIL.paste_pixel m d sm.1 sm.2) (replicate n white)
           (zip px (Some <$> ((λ p, default 0 (last p)) <$> px))) !! i
  = Some (PIL.paste_pixel m white p (Some (default 0 (last p)))).
Proof.
  intros Hp Hi. apply lookup_zip_with_Some.
  exists white, (p, Some (default 0 (last p))). split_and!; [done| |].
  - by apply lookup_replicate_2.
  - apply lookup_zip_Some. split; [done|].
    by rewrite !list_lookup_fmap, Hp.
Qed.

Lemma composite_length m (px : list pixel) n :
  length px = n →
  length (zip_with (λ d sm, PIL.paste_pixel m d sm.1 sm.2) (replicate n white)
            (zip px (Some <$> ((λ p, default 0 (last p)) <$> px)))) = n.
Proof.
  intros Hn. rewrite !length_zip_with, length_replicate, !length_fmap. lia.
Qed.

(** Lines 153-159 on an image with an alpha band or a palette. *)
Lemma normalize_rgb_alpha img px :
  im_mode img ∈ [M_RGBA; M_LA; M_P] → im_data img = Ok px →
  normalize_rgb img
  = Ok {| im_mode := M_RGB; im_size := im_size img; im_exif := None;
          im_palette := λ _, [];
          im_data :=
            Ok (zip_with (λ d sm, PIL.paste_pixel (PIL.alpha_mode (im_mode img))
                                                  d sm.1 sm.2)
                  (replicate (Z.to_nat ((im_size img).1 * (im_size img).2)) white)
                  (zip (PIL.with_alpha img <$> px)
                       (Some <$> ((λ p, default 0 (last p))
                                  <$> (PIL.with_alpha img <$> px))))) |}.
Proof.
  intros Hm Hd. unfold normalize_rgb.
  rewrite bool_decide_eq_true_2 by done.
  rewrite !elem_of_cons, elem_of_nil in Hm.
  destruct Hm as [Hm|[Hm|[Hm|[]]]].
  - rewrite (bool_decide_eq_false_2 (im_mode img = M_P)) by congruence.
    rewrite bool_decide_eq_true_2 by (rewrite Hm; set_solver).
    unfold PIL.last_band, PIL.paste, PIL.new, PIL.with_alpha. rewrite Hd, Hm.
    simpl. by rewrite list_fmap_id.
  - rewrite (bool_decide_eq_false_2 (im_mode img = M_P)) by congruence.
    rewrite bool_decide_eq_true_2 by (rewrite Hm; set_solver).
    unfold PIL.last_band, PIL.paste, PIL.new, PIL.with_alpha. rewrite Hd, Hm.
    simpl. by rewrite list_fmap_id.
  - rewrite (bool_decide_eq_true_2 (im_mode img = M_P)) by done.
    unfold PIL.convert. rewrite Hd, Hm. simpl.
    unfold PIL.with_alpha. by rewrite Hm.
Qed.

End raster.

Section conversions.
Context `{Host}.
Import ConvertHeic.

(** C6.  With a JPEG-family target, an image that opens in mode RGBA, LA
    or P and whose raster loads is returned as an RGB image of the same
    size: every pixel is the white background blended with the source pixel
    (a palette pixel first replaced by its RGBA palette entry) through the
    pixel's alpha, and a pixel of alpha 0 comes out white.  The image is the
    one line 147 opens, after the loading is announced in the log; the call
    writes nothing but its lines of the log. *)
Theorem jpeg_normalization (image_path output_format : string) (quality : Z)
    (w : world) (img : image) (px : list pixel) :
  is_jpeg_family output_format = true →
  PIL.open (w_fs (logged INFO [T "Loading image file: ";
                               T (OsPath.basename image_path)] w))
           image_path = Ok img →
  im_mode img ∈ [M_RGBA; M_LA; M_P] →
  im_data img = Ok px →
  length px = Z.to_nat ((im_size img).1 * (im_size img).2) →
  ∃ out opx w',
    convert_image_to_format image_path output_format quality w
    = (Ok (Some (out, im_exif img)), w')
    ∧ appended_to (log_path w) (w_fs w) (w_fs w')
    ∧ (∀ p, log_path w ≠ Some p → w_fs w' !! p = w_fs w !! p)
    ∧ im_mode out = M_RGB ∧ PIL.bands (im_mode out) = 3%nat
    ∧ im_size out = im_size img
    ∧ im_data out = Ok opx ∧ length opx = length px
    ∧ ∀ i p, px !! i = Some p →
        let e := PIL.with_alpha img p in
        opx !! i
        = Some (PIL.paste_pixel (PIL.alpha_mode (im_mode img)) white e
                  (Some (default 0 (last e))))
        ∧ (length e = PIL.bands (PIL.alpha_mode (im_mode img)) →
           default 0 (last e) = 0 → opx !! i = Some white).
Proof.
  intros Hjpeg Hopen Hmode Hdata Hlen.
  pose proof (normalize_rgb_alpha img px Hmode Hdata) as Hnorm.
  unfold convert_image_to_format, try_except.
  rewrite bind_unfold. unfold Logging.info at 1. rewrite log_eq.
  rewrite bind_unfold. unfold get_fs at 1. cbv beta iota.
  rewrite bind_unfold. unfold lift at 1. rewrite Hopen.
  rewrite bind_unfold.
  set (w1 := logged INFO _ w).
  assert (∃ w2, match im_exif img with
                | Some b =>
                    if Py.truthy b
                    then Logging.debug [T "Extracted EXIF metadata (";
                                        D (Z.of_nat (String.length b)); T " bytes)"]
                    else mret ()
                | None => mret ()
                end w1 = (Ok tt, w2)
                ∧ log_path w2 = log_path w
                ∧ appended_to (log_path w) (w_fs w) (w_fs w2))
    as (w2 & -> & Hlp2 & Hfs2).
  { destruct (im_exif img) as [b|]; [destruct (Py.truthy b)|];
      eexists; (split; [reflexivity|]); unfold w1;
      (split; [by rewrite ?logged_log_path|solve_appended]). }
  rewrite Hjpeg, bind_unfold. unfold lift. rewrite Hnorm.
  rewrite bind_unfold. unfold Logging.info. rewrite log_eq.
  assert (appended_to (log_path w) (w_fs w)
            (w_fs (logged INFO
                     [T "Successfully loaded image: ";
                      D (im_size img).1; T "x"; D (im_size img).2;
                      T " pixels, mode: "; T (mode_name M_RGB)] w2))) as Hfs
    by (by apply logged_appended_from).
  eexists _, _, _. split; [reflexivity|]. split_and!; try done.
  - intros p Hp. by eapply appended_to_lookup_ne.
  - rewrite composite_length; [done|by rewrite length_fmap].
  - intros i p Hp. set (e := PIL.with_alpha img p).
    assert ((PIL.with_alpha img <$> px) !! i = Some e) as He
      by (by rewrite list_lookup_fmap, Hp).
    assert (i < Z.to_nat ((im_size img).1 * (im_size img).2))%nat as Hi
      by (rewrite <- Hlen; by eapply lookup_lt_Some).
    split; [by apply composite_lookup|].
    intros Hbands Ha. rewrite (composite_lookup _ _ _ _ _ He Hi), Ha.
    f_equal. apply paste_transparent, rgb_bands_length; [|done].
    rewrite !elem_of_cons, elem_of_nil in Hmode.
    destruct Hmode as [->|[->|[->|[]]]]; set_solver.
Qed.

Lemma paste_size bg img a out :
  PIL.paste bg img a = Ok out → im_size out = im_size bg.
Proof.
  unfold PIL.paste. destruct (im_data bg), (im_data img); try done.
  by intros [= <-].
Qed.

Lemma convert_size img m out :
  PIL.convert img m = Ok out → im_size out = im_size img.
Proof. unfold PIL.convert. destruct (im_data img); [|done]. by intros [= <-]. Qed.

(** The normalisation keeps the pixel dimensions. *)
Lemma normalize_rgb_size img out :
  normalize_rgb img = Ok out → im_size out = im_size img.
Proof.
  unfold normalize_rgb. case_bool_decide.
  - destruct (if bool_decide (im_mode img = M_P) then _ else _)
      as [img'|] eqn:E; [|done].
    destruct (bool_decide (im_mode img' ∈ [M_RGBA; M_LA])).
    + destruct (PIL.last_band img'); [|done]. by intros ?%paste_size.
    + by intros ?%paste_size.
  - case_bool_decide; [apply convert_size|by intros [= <-]].
Qed.

(** C5.  For an image of width [W] and height [Ht] (both non-zero) and the
    page [(PW, PH)] of the requested size, the call of [drawImage] gets the
    scale [min(PW / W, PH / Ht) * 0.9], the size [W * scale] by
    [Ht * scale] and the offsets [(PW - W * scale) / 2] and
    [(PH - Ht * scale) / 2], in binary64 arithmetic as Python computes
    them; the conversion hands exactly this request to the canvas.  The
    file system [fs] is the one in which line 234 opens the image, after
    the conversion is announced in the log; besides the output file, only
    the log file changes. *)
Theorem pdf_placement (fs : filesystem) (image_path page_size : string)
    (img out : image) (W Ht : Z) :
  PIL.open fs image_path = Ok img → normalize_rgb img = Ok out →
  im_size img = (W, Ht) → W ≠ 0 → Ht ≠ 0 →
  let PW := (page_size_of page_size).1 in
  let PH := (page_size_of page_size).2 in
  let scale :=
    (float_min (PW / float_of_int W) (PH / float_of_int Ht) * 0.9)%float in
  let request :=
    {| dr_pagesize := page_size_of page_size; dr_image := out;
       dr_x := ((PW - float_of_int W * scale) / 2)%float;
       dr_y := ((PH - float_of_int Ht * scale) / 2)%float;
       dr_width := (float_of_int W * scale)%float;
       dr_height := (float_of_int Ht * scale)%float |} in
  pdf_request fs image_path page_size = Ok request
  ∧ ∀ output_path w,
      w_fs (logged INFO [T "Converting to PDF: ";
                         T (OsPath.basename image_path)] w) = fs →
      ∃ w', convert_image_to_pdf image_path output_path page_size w
            = (Ok (match canvas_save fs request output_path with
                   | Saved _ => true
                   | SaveFailed _ _ => false
                   end), w')
            ∧ ∀ p, p ≠ output_path → log_path w ≠ Some p →
                   w_fs w' !! p = fs !! p.
Proof.
  intros Hopen Hnorm Hsize HW HH PW PH scale request.
  assert (pdf_request fs image_path page_size = Ok request) as Hreq.
  { unfold pdf_request. rewrite Hopen, Hnorm.
    rewrite (normalize_rgb_size _ _ Hnorm), Hsize.
    unfold pdf_layout, truediv.
    destruct (page_size_of page_size) as [pw ph] eqn:Hps.
    apply Z.eqb_neq in HW, HH. by rewrite HW, HH. }
  split; [done|]. intros output_path w Hfs.
  unfold convert_image_to_pdf, try_except.
  rewrite bind_unfold. unfold Logging.info at 1. rewrite log_eq.
  set (w0 := logged INFO _ w) in *.
  assert (log_path w0 = log_path w) as Hlp0 by apply logged_log_path.
  rewrite bind_unfold. unfold get_fs at 1. cbv beta iota.
  rewrite bind_unfold. unfold lift at 1. rewrite Hfs, Hreq.
  rewrite bind_unfold. unfold Os.commit. rewrite bind_unfold.
  unfold get_fs at 1. cbv beta iota. rewrite Hfs.
  destruct (canvas_save fs request output_path) as [d|e left].
  - unfold set_fs at 1. rewrite bind_unfold. unfold get_fs at 1.
    cbv beta iota. rewrite bind_unfold. unfold Logging.info. rewrite log_eq.
    eexists. split; [done|]. intros p Hp Hlp.
    rewrite logged_lookup_ne by (by rewrite <- Hlp0 in Hlp).
    simpl. by rewrite lookup_insert_ne.
  - rewrite bind_unfold. unfold set_fs at 1. unfold raise.
    rewrite bind_unfold. unfold Logging.error. rewrite log_eq.
    eexists. split; [done|]. intros p Hp Hlp.
    rewrite logged_lookup_ne by (by rewrite <- Hlp0 in Hlp).
    simpl.
    destruct left; [by rewrite lookup_insert_ne|by rewrite lookup_delete_ne].
Qed.

End conversions.

(** C6, witness: the sample RGBA image, whose first pixel is transparent. *)
Lemma jpeg_normalization_witness :
  ∃ out opx w',
    ConvertHeic.convert_image_to_format (H := Sample.posix)
      "/app/images/source/a.png" "jpg" 95 (Sample.fresh Sample.fs0)
    = (Ok (Some (out, Some "RGBA two")), w')
    ∧ im_mode out = M_RGB ∧ im_size out = (2, 1)
    ∧ im_data out = Ok opx ∧ opx !! 0%nat = Some ConvertHeic.white.
Proof.
  destruct (jpeg_normalization (H := Sample.posix) "/app/images/source/a.png"
              "jpg" 95 (Sample.fresh Sample.fs0) (Sample.rgba_image "RGBA two")
              [[10; 20; 30; 0]; [200; 100; 50; 255]])
    as (out & opx & w' & E & _ & _ & Hmode & _ & Hsize & Hdata & _ & Hpix);
    try reflexivity.
  - apply (bool_decide_unpack _). by vm_compute.
  - exists out, opx, w'. split_and!; try done.
    by apply (Hpix 0%nat [10; 20; 30; 0] eq_refl).
Defined.

(** The sample raster after normalisation: the transparent pixel is white,
    the opaque one keeps its colour. *)
Example normalize_sample :
  ∃ out, ConvertHeic.normalize_rgb (H := Sample.posix) (Sample.rgba_image "x")
         = Ok out
         ∧ im_data out = Ok [[255; 255; 255]; [200; 100; 50]].
Proof. by eexists. Qed.

(** C5, witness: a 1000 x 500 image on a Letter page. *)
Lemma pdf_placement_witness :
  ConvertHeic.pdf_request (H := Sample.posix) Sample.fs0
    "/app/images/source/a.heic" "letter"
  = Ok {| dr_pagesize := (612, 792)%float;
          dr_image := Sample.rgb_image "RGB one";
          dr_x := 30.600000000000023%float; dr_y := 258.30000000000001%float;
          dr_width := 550.79999999999995%float;
          dr_height := 275.39999999999998%float |}.
Proof.
  destruct (pdf_placement (H := Sample.posix) Sample.fs0
              "/app/images/source/a.heic" "letter"
              (Sample.rgb_image "RGB one") (Sample.rgb_image "RGB one")
              1000 500) as [Hreq _]; try reflexivity; try done.
Defined.

(** A zero width stops the conversion with the division error. *)
Example pdf_layout_zero_width :
  ConvertHeic.pdf_layout ReportLab.A4 0 4032 = Raise "float division by zero".
Proof. reflexivity. Qed.

(** ** Clearing the output folder *)

Section clearing.
Context `{Host}.
Import ConvertHeic.

(** A README is never selected by its extension. *)
Lemma readme_not_removable n :
  Py.lower n = "readme.md" → has_removable_extension n = false.
Proof. unfold has_removable_extension. by intros ->. Qed.

(** A name whose extension is one of the four, in any case, is selected by
    the test of line 88. *)
Lemma extension_removable n :
  Py.lower (OsPath.splitext n).2 ∈ [".png"; ".jpg"; ".jpeg"; ".pdf"] →
  has_removable_extension n = true.
Proof.
  intros He. unfold has_removable_extension. apply existsb_exists.
  exists (Py.lower (OsPath.splitext n).2). split.
  - apply list_elem_of_In. unfold extensions_to_remove.
    rewrite !elem_of_cons, elem_of_nil in He. rewrite !elem_of_cons.
    destruct He as [->|[->|[->|[->|[]]]]]; auto 10.
  - assert (Py.lower (Py.lower (OsPath.splitext n).2)
            = Py.lower (OsPath.splitext n).2) as ->.
    { rewrite !elem_of_cons, elem_of_nil in He.
      by destruct He as [->|[->|[->|[->|[]]]]]. }
    rewrite <- (splitext_app n) at 1. rewrite lower_app. apply endswith_app.
Qed.

(** *** Removals and lines of the log *)

Lemma cleared_at_refl lp R p fs : cleared_at lp R p fs fs.
Proof. by left. Qed.

Lemma kept_cleared_at lp R p fs fs' : kept_at lp p fs fs' → cleared_at lp R p fs fs'.
Proof. intros [?|?]; [by left|by right; right]. Qed.

Lemma cleared_at_weaken lp (R R' : Prop) p fs fs' :
  (R → R') → cleared_at lp R p fs fs' → cleared_at lp R' p fs fs'.
Proof.
  intros HR [?|[(? & d & ? & ?)|?]]; [by left| |by right; right].
  right; left. split; [done|]. exists d. auto.
Qed.

Lemma cleared_at_trans lp R p fs1 fs2 fs3 :
  cleared_at lp R p fs1 fs2 → cleared_at lp R p fs2 fs3 →
  cleared_at lp R p fs1 fs3.
Proof.
  intros [E12|[(E2 & d1 & E1 & HR)|(Hlp & d1 & m1 & E1 & E2)]]
         [E23|[(E3 & d2 & E2' & HR')|(Hlp' & d2 & m2 & E2' & E3)]].
  - left. congruence.
  - right; left. split; [done|]. exists d2. split; [congruence|done].
  - right; right. split; [done|]. exists d2, m2. split; congruence.
  - right; left. split; [congruence|]. by exists d1.
  - congruence.
  - congruence.
  - right; right. split; [done|]. exists d1, m1. split; congruence.
  - right; left. split; [done|]. by exists d1.
  - right; right. split; [done|]. exists d1, (m1 +:+ m2). split; [done|].
    rewrite E3. assert (d2 = d1 +:+ m1) as -> by congruence.
    by rewrite app_assoc_str.
Qed.

Lemma kept_at_Dir lp p fs fs' :
  kept_at lp p fs fs' → fs !! p = Some Dir → fs' !! p = Some Dir.
Proof. intros [E|(_ & d & m & E1 & _)] Hd; congruence. Qed.

Lemma cleared_at_Dir lp R p fs fs' :
  cleared_at lp R p fs fs' → fs !! p = Some Dir → fs' !! p = Some Dir.
Proof.
  intros [E|[(_ & d & E1 & _)|(_ & d & m & E1 & _)]] Hd; congruence.
Qed.

Lemma cleared_at_eq_l lp R p fs0 fs fs' :
  fs !! p = fs0 !! p → cleared_at lp R p fs fs' → cleared_at lp R p fs0 fs'.
Proof. unfold cleared_at. by intros ->. Qed.

Lemma cleared_refl lp R fs : cleared lp R fs fs.
Proof. intros p. apply cleared_at_refl. Qed.

Lemma appended_cleared lp R fs fs' : appended_to lp fs fs' → cleared lp R fs fs'.
Proof. intros Ha p. apply kept_cleared_at, Ha. Qed.

Lemma cleared_weaken lp (R R' : string → Prop) fs fs' :
  (∀ p, R p → R' p) → cleared lp R fs fs' → cleared lp R' fs fs'.
Proof. intros HR Hc p. eapply cleared_at_weaken; [apply HR|apply Hc]. Qed.

Lemma cleared_trans lp R fs1 fs2 fs3 :
  cleared lp R fs1 fs2 → cleared lp R fs2 fs3 → cleared lp R fs1 fs3.
Proof. intros H12 H23 p. by eapply cleared_at_trans. Qed.

(** One entry: nothing changes, or a selected regular file is deleted and
    counted, or the failure of its removal is logged. *)
Lemma clear_entry_spec out keep n count w :
  ∃ count' w',
    clear_entry out keep n count w = (Ok count', w')
    ∧ log_path w' = log_path w
    ∧ cleared (log_path w)
        (λ p, p = OsPath.join out n ∧ selected keep n = true)
        (w_fs w) (w_fs w')
    ∧ (selected keep n = true →
       os_remove_ok (w_fs w) (OsPath.join out n) = true →
       ∀ d, w_fs w' !! OsPath.join out n ≠ Some (File d))
    ∧ (FS.is_dir (w_fs w) (OsPath.join out n) = true
       ∨ selected keep n = false → count' = count ∧ w' = w).
Proof.
  unfold clear_entry, selected. rewrite bind_unfold.
  unfold get_fs at 1. cbv beta iota. unfold FS.is_dir.
  destruct (w_fs w !! OsPath.join out n) as [[d|]|] eqn:Hn.
  - destruct (keep && String.eqb (Py.lower n) "readme.md") eqn:Hr;
      cbn [negb andb].
    { exists count, w. split_and!; [done|done|apply cleared_refl|done|done]. }
    destruct (has_removable_extension n) eqn:Hx.
    2:{ exists count, w. split_and!; [done|done|apply cleared_refl|done|done]. }
    unfold try_except, Os.remove. rewrite bind_unfold, bind_unfold.
    unfold get_fs at 1. cbv beta iota. rewrite Hn.
    destruct (os_remove_ok (w_fs w) (OsPath.join out n)) eqn:Hok.
    + unfold set_fs at 1. rewrite bind_unfold.
      unfold Logging.debug. rewrite log_eq.
      set (w0 := {| w_fs := delete (OsPath.join out n) (w_fs w);
                    w_logging := w_logging w; w_log := w_log w |}).
      assert (cleared (log_path w)
                (λ p, p = OsPath.join out n ∧ true = true)
                (w_fs w) (w_fs w0)) as Hdel.
      { intros p. destruct (decide (p = OsPath.join out n)) as [->|Hne].
        - right; left. cbn. rewrite lookup_delete_eq. split; [done|].
          by exists d.
        - left. cbn. by rewrite lookup_delete_ne. }
      eexists _, _. split; [reflexivity|]. split_and!.
      * by rewrite logged_log_path.
      * eapply cleared_trans; [exact Hdel|].
        apply appended_cleared.
        apply (logged_appended DEBUG _ w0).
      * intros _ _ d'.
        rewrite (proj2 (logged_lookup_None _ _ w0 _)); [done|].
        cbn. by rewrite lookup_delete_eq.
      * by intros [?|?].
    + unfold raise at 1. rewrite bind_unfold.
      unfold Logging.warning. rewrite log_eq.
      eexists _, _. split; [reflexivity|]. split_and!.
      * by rewrite logged_log_path.
      * apply appended_cleared, logged_appended.
      * done.
      * by intros [?|?].
  - exists count, w. split_and!; [done|done|apply cleared_refl| |done].
    intros _ _ d. by rewrite Hn.
  - destruct (keep && String.eqb (Py.lower n) "readme.md") eqn:Hr;
      cbn [negb andb].
    { exists count, w. split_and!; [done|done|apply cleared_refl|done|done]. }
    destruct (has_removable_extension n) eqn:Hx.
    2:{ exists count, w. split_and!; [done|done|apply cleared_refl|done|done]. }
    unfold try_except, Os.remove. rewrite bind_unfold, bind_unfold.
    unfold get_fs at 1. cbv beta iota. rewrite Hn.
    unfold raise at 1. rewrite bind_unfold.
    unfold Logging.warning. rewrite log_eq.
    eexists _, _. split; [reflexivity|]. split_and!.
    + by rewrite logged_log_path.
    + apply appended_cleared, logged_appended.
    + intros _ _ d. by rewrite (proj2 (logged_lookup_None _ _ _ _) Hn).
    + by intros [?|?].
Qed.

(** The loop deletes selected regular files of the listing and appends to
    the log file, nothing else; when every removal succeeds, no selected
    regular file is left. *)
Lemma clear_loop_frame out keep names count w :
  ∃ count' w',
    clear_loop out keep names count w = (Ok count', w')
    ∧ log_path w' = log_path w
    ∧ cleared (log_path w)
        (λ p, ∃ n, n ∈ names ∧ p = OsPath.join out n ∧ selected keep n = true)
        (w_fs w) (w_fs w')
    ∧ ((∀ fs' n, n ∈ names → os_remove_ok fs' (OsPath.join out n) = true) →
       ∀ n, n ∈ names → selected keep n = true →
            ∀ d, w_fs w' !! OsPath.join out n ≠ Some (File d)).
Proof.
  revert count w. induction names as [|n names IH]; intros count w.
  - exists count, w. split_and!; [done|done|apply cleared_refl|].
    intros _ n Hn. by apply elem_of_nil in Hn.
  - destruct (clear_entry_spec out keep n count w)
      as (c1 & w1 & E1 & Hlp1 & Hch & Hsel & _).
    destruct (IH c1 w1) as (c' & w' & E' & Hlp' & Hframe & Hall).
    rewrite Hlp1 in Hframe.
    exists c', w'. split_and!.
    + cbn [clear_loop]. by rewrite (bind_Ok _ _ _ _ _ E1).
    + congruence.
    + eapply cleared_trans.
      * eapply cleared_weaken; [|exact Hch].
        intros p [-> Hs]. exists n. split_and!; [left|done|done].
      * eapply cleared_weaken; [|exact Hframe].
        intros p (m & Hm & -> & Hs). exists m. split_and!; [by right|done|done].
    + intros Hok m Hm Hs d. apply elem_of_cons in Hm as [->|Hm].
      * assert (∀ d, w_fs w1 !! OsPath.join out n ≠ Some (File d)) as Hgone.
        { apply Hsel; [done|]. apply Hok. left. }
        destruct (Hframe (OsPath.join out n))
          as [->|[[-> _]|(_ & d' & ? & Hd' & _)]];
          [apply Hgone|done|by destruct (Hgone d')].
      * apply Hall; [|done|done]. intros fs' k Hk. apply Hok. by right.
Qed.

(** A listing with nothing to remove leaves the state as it is. *)
Lemma clear_loop_nothing out keep names count w :
  (∀ n, n ∈ names →
        FS.is_dir (w_fs w) (OsPath.join out n) = true ∨ selected keep n = false) →
  clear_loop out keep names count w = (Ok count, w).
Proof.
  induction names as [|n names IH]; intros Hn; [done|].
  destruct (clear_entry_spec out keep n count w)
    as (c1 & w1 & E1 & _ & _ & _ & Hno).
  destruct Hno as [-> ->]; [apply Hn; left|].
  cbn [clear_loop]. rewrite (bind_Ok _ _ _ _ _ E1).
  apply IH. intros m Hm. apply Hn. by right.
Qed.

(** An entry is determined by its path. *)
Lemma entries_join_inj (fs : filesystem) out n m :
  n ∈ FS.entries fs out → m ∈ FS.entries fs out →
  OsPath.join out n = OsPath.join out m → n = m.
Proof.
  rewrite !elem_of_entries.
  intros (k & _ & Hb & _ & Hj) (k' & _ & Hb' & _ & Hj') E.
  rewrite Hj, Hj' in E. congruence.
Qed.

Lemma entries_mono (fs fs' : filesystem) out n :
  n ∈ FS.entries fs' out →
  is_Some (fs !! OsPath.join out n) →
  n ∈ FS.entries fs out.
Proof.
  rewrite !elem_of_entries. intros (k & Hk & Hb & Hne & Hj) E.
  exists k. split_and!; try done. by rewrite <- Hj.
Qed.

(** The first run, with its listing. *)
Lemma clear_output_folder_run out w :
  w_fs w !! out = Some Dir →
  ∃ count w1,
    clear_loop out true (FS.entries (w_fs w) out) 0%nat w = (Ok count, w1)
    ∧ clear_output_folder out true w
      = (Ok tt,
         if (0 <? count)%nat
         then logged INFO [T "Cleared "; D (Z.of_nat count);
                           T " file(s) from output folder"] w1
         else logged INFO [T "Output folder is already clean"] w1).
Proof.
  intros Hdir.
  destruct (returns_clear_loop out true (FS.entries (w_fs w) out) 0%nat w)
    as (count & w1 & E).
  unfold clear_output_folder.
  rewrite bind_unfold. unfold get_fs at 1. cbv beta iota.
  unfold FS.exists_. rewrite Hdir. cbn [negb].
  rewrite bind_unfold. unfold Os.listdir. rewrite bind_unfold.
  unfold get_fs at 1. cbv beta iota. unfold lift, FS.listdir. rewrite Hdir.
  rewrite (bind_Ok _ _ _ _ _ E).
  exists count, w1. split; [done|].
  destruct (0 <? count)%nat; unfold Logging.info; by rewrite log_eq.
Qed.

(** C9, as the code has it.  When the folder exists and every removal the
    first run attempts succeeds, the first run deletes only regular files
    of the folder that the extension test selects (never a directory,
    never a [readme.md] in any case) and otherwise only appends its lines
    to the log file; after it no regular file with one of the four
    extensions is left, so the loop of the second run removes nothing and
    changes nothing, and the second run reports a clean folder. *)
Theorem clearing_idempotent (output_folder : string) (w : world) :
  w_fs w !! output_folder = Some Dir →
  (∀ fs' n, n ∈ FS.entries (w_fs w) output_folder →
            os_remove_ok fs' (OsPath.join output_folder n) = true) →
  ∃ w1,
    clear_output_folder output_folder true w = (Ok tt, w1)
    ∧ (∀ p, w_fs w1 !! p = w_fs w !! p
            ∨ (w_fs w1 !! p = None
               ∧ ∃ d n, w_fs w !! p = Some (File d)
                        ∧ n ∈ FS.entries (w_fs w) output_folder
                        ∧ p = OsPath.join output_folder n
                        ∧ Py.lower n ≠ "readme.md"
                        ∧ has_removable_extension n = true)
            ∨ (log_path w = Some p
               ∧ ∃ d more, w_fs w !! p = Some (File d)
                           ∧ w_fs w1 !! p = Some (File (d +:+ more))))
    ∧ (∀ n, n ∈ FS.entries (w_fs w1) output_folder →
            FS.is_dir (w_fs w1) (OsPath.join output_folder n) = false →
            has_removable_extension n = false
            ∧ Py.lower (OsPath.splitext n).2 ∉ [".png"; ".jpg"; ".jpeg"; ".pdf"])
    ∧ clear_loop output_folder true (FS.entries (w_fs w1) output_folder) 0%nat w1
      = (Ok 0%nat, w1)
    ∧ clear_output_folder output_folder true w1
      = (Ok tt, logged INFO [T "Output folder is already clean"] w1).
Proof.
  intros Hdir Hok.
  destruct (clear_output_folder_run output_folder w Hdir)
    as (count & w0 & Eloop & Erun).
  destruct (clear_loop_frame output_folder true (FS.entries (w_fs w) output_folder)
              0%nat w) as (c' & w0' & Eloop' & Hlp0 & Hframe0 & Hall0).
  rewrite Eloop in Eloop'. injection Eloop' as <- <-.
  specialize (Hall0 Hok).
  set (w1 := if (0 <? count)%nat
             then logged INFO [T "Cleared "; D (Z.of_nat count);
                               T " file(s) from output folder"] w0
             else logged INFO [T "Output folder is already clean"] w0) in *.
  assert (appended_to (log_path w) (w_fs w0) (w_fs w1)) as Happ.
  { rewrite <- Hlp0. unfold w1. destruct (0 <? count)%nat; apply logged_appended. }
  assert (cleared (log_path w)
            (λ p, ∃ n, n ∈ FS.entries (w_fs w) output_folder
                       ∧ p = OsPath.join output_folder n ∧ selected true n = true)
            (w_fs w) (w_fs w1)) as Hframe.
  { eapply cleared_trans; [exact Hframe0|by apply appended_cleared]. }
  assert (∀ n, n ∈ FS.entries (w_fs w) output_folder → selected true n = true →
               ∀ d, w_fs w1 !! OsPath.join output_folder n ≠ Some (File d))
    as Hall.
  { intros n Hn Hs d Hd.
    destruct (appended_to_File _ _ _ _ _ Happ Hd) as [d0 Hd0].
    by destruct (Hall0 n Hn Hs d0). }
  assert (w_fs w1 !! output_folder = Some Dir) as Hdir1.
  { destruct (Hframe output_folder)
      as [->|[(_ & d & Hd & _)|(_ & d & ? & Hd & _)]]; [done|congruence..]. }
  assert (∀ n, n ∈ FS.entries (w_fs w1) output_folder →
               FS.is_dir (w_fs w1) (OsPath.join output_folder n) = true
               ∨ selected true n = false) as Hclean.
  { intros n Hn. pose proof (entries_lookup _ _ _ Hn) as [x Hx].
    assert (n ∈ FS.entries (w_fs w) output_folder) as Hn0.
    { apply (entries_mono _ _ _ _ Hn).
      destruct (Hframe (OsPath.join output_folder n))
        as [Heq|[[Hnone _]|(_ & d & ? & Hd & _)]]; [|congruence|by rewrite Hd].
      by rewrite <- Heq, Hx. }
    destruct (selected true n) eqn:Hs; [left|by right].
    unfold FS.is_dir. rewrite Hx. destruct x as [d|]; [|done].
    by destruct (Hall n Hn0 Hs d). }
  assert (clear_loop output_folder true (FS.entries (w_fs w1) output_folder)
            0%nat w1 = (Ok 0%nat, w1)) as Eloop2
    by (by apply clear_loop_nothing).
  exists w1. split_and!; [done| | |done|].
  - intros p.
    destruct (Hframe p) as [?|[(Hnone & d & Hd & n & Hn & -> & Hs)|?]];
      [by left|right; left|by right; right].
    split; [done|]. exists d, n. split_and!; try done.
    + intros Hr. unfold selected in Hs. rewrite Hr in Hs. done.
    + unfold selected in Hs. by apply andb_true_iff in Hs as [_ ?].
  - intros n Hn Hnd.
    assert (has_removable_extension n = false) as Hx.
    { destruct (Hclean n Hn) as [?|Hs]; [congruence|].
      unfold selected in Hs. apply andb_false_iff in Hs as [Hs|Hs]; [|done].
      apply negb_false_iff in Hs. cbn [andb] in Hs.
      apply String.eqb_eq in Hs. by apply readme_not_removable. }
    split; [done|]. intros He%extension_removable. congruence.
  - destruct (clear_output_folder_run output_folder w1 Hdir1)
      as (count2 & w2 & Eloop3 & Erun3).
    rewrite Eloop2 in Eloop3. injection Eloop3 as <- <-.
    by rewrite Erun3.
Qed.

End clearing.

(** C9, witness: the sample output folder, on a host where every removal
    succeeds. *)
Lemma clearing_idempotent_witness :
  ∃ w1,
    ConvertHeic.clear_output_folder (H := Sample.posix) "/app/images/output" true
      (Sample.configured Sample.fs1) = (Ok tt, w1)
    ∧ ConvertHeic.clear_output_folder (H := Sample.posix) "/app/images/output"
        true w1
      = (Ok tt, logged (H := Sample.posix) INFO
                  [T "Output folder is already clean"] w1).
Proof.
  destruct (clearing_idempotent (H := Sample.posix) "/app/images/output"
              (Sample.configured Sample.fs1))
    as (w1 & E1 & _ & _ & _ & E2); [reflexivity|intros; reflexivity|].
  exists w1. split; [exact E1|exact E2].
Defined.

(** C9, as claimed, fails.  On a host where [a.png] is held while [b.png]
    exists, the first run removes [b.png] only: [a.png], a regular file with
    extension [.png], is still there after it (as is the directory
    [keep.PNG]); the second run then removes [a.png] and reports one file
    cleared. *)
Lemma held_file_is_removed_by_second_run :
  let run := ConvertHeic.clear_output_folder (H := Sample.busy)
               "/app/images/output" true in
  let w1 := (run (Sample.configured Sample.fs1)).2 in
  let w2 := (run w1).2 in
  (run (Sample.configured Sample.fs1)).1 = Ok tt
  ∧ FS.entries (w_fs w1) "/app/images/output" = ["keep.PNG"; "a.png"; "README.md"]
  ∧ w_fs w1 !! "/app/images/output/a.png" = Some (File "old a")
  ∧ Py.lower (OsPath.splitext "a.png").2 = ".png"
  ∧ w_fs w1 !! "/app/images/output/keep.PNG" = Some Dir
  ∧ Py.lower (OsPath.splitext "keep.PNG").2 = ".png"
  ∧ (run w1).1 = Ok tt
  ∧ w_fs w2 !! "/app/images/output/a.png" = None
  ∧ last (w_log w2)
    = Some (LogRecord INFO [T "Cleared "; D 1; T " file(s) from output folder"]).
Proof. by vm_compute. Qed.

(** ** Jobs and their output files *)

Section jobs.
Context `{Host}.
Import ConvertHeic.

(** Decoding reads the file system and logs; it writes nothing but its
    lines of the log.  The image is opened after the first of them. *)
Lemma convert_image_to_format_spec p fmt q w :
  ∃ w',
    convert_image_to_format p fmt q w
    = (Ok (match PIL.open (w_fs (logged INFO [T "Loading image file: ";
                                              T (OsPath.basename p)] w)) p with
           | Ok img =>
               match (if is_jpeg_family fmt then normalize_rgb img else Ok img) with
               | Ok img' => Some (img', im_exif img)
               | Raise _ => None
               end
           | Raise _ => None
           end), w')
    ∧ log_path w' = log_path w
    ∧ appended_to (log_path w) (w_fs w) (w_fs w').
Proof.
  unfold convert_image_to_format, try_except.
  rewrite bind_unfold. unfold Logging.info at 1. rewrite log_eq.
  rewrite bind_unfold. unfold get_fs at 1. cbv beta iota.
  rewrite bind_unfold. unfold lift at 1.
  set (w1 := logged INFO _ w).
  assert (log_path w1 = log_path w) as Hlp1 by apply logged_log_path.
  assert (appended_to (log_path w) (w_fs w) (w_fs w1)) as Hfs1
    by apply logged_appended.
  destruct (PIL.open (w_fs w1) p) as [img|e].
  2:{ rewrite bind_unfold. unfold Logging.error. rewrite log_eq.
      eexists. split; [done|].
      split; [by rewrite logged_log_path|by apply logged_appended_from]. }
  rewrite bind_unfold.
  assert (∃ w2, match im_exif img with
                | Some b =>
                    if Py.truthy b
                    then Logging.debug [T "Extracted EXIF metadata (";
                                        D (Z.of_nat (String.length b)); T " bytes)"]
                    else mret ()
                | None => mret ()
                end w1 = (Ok tt, w2)
                ∧ log_path w2 = log_path w
                ∧ appended_to (log_path w) (w_fs w) (w_fs w2))
    as (w2 & -> & Hlp2 & Hfs2).
  { destruct (im_exif img) as [b|]; [destruct (Py.truthy b)|];
      eexists; (split; [reflexivity|]);
      (split; [by rewrite ?logged_log_path|]);
      try done; by apply logged_appended_from. }
  rewrite bind_unfold.
  destruct (is_jpeg_family fmt).
  - unfold lift. destruct (normalize_rgb img) as [img'|e].
    + rewrite bind_unfold. unfold Logging.info. rewrite log_eq.
      eexists. split; [done|].
      split; [by rewrite logged_log_path|by apply logged_appended_from].
    + rewrite bind_unfold. unfold Logging.error. rewrite log_eq.
      eexists. split; [done|].
      split; [by rewrite logged_log_path|by apply logged_appended_from].
  - unfold mret at 1, M_ret at 1.
    rewrite bind_unfold. unfold Logging.info. rewrite log_eq.
    eexists. split; [done|].
    split; [by rewrite logged_log_path|by apply logged_appended_from].
Qed.

(** What a save does to the file system. *)
Lemma commit_spec path o w :
  match Os.commit path o w with
  | (Ok _, w') => ∃ d, o = Saved d ∧ w_fs w' !! path = Some (File d)
                       ∧ log_path w' = log_path w
                       ∧ ∀ p, p ≠ path → w_fs w' !! p = w_fs w !! p
  | (Raise _, w') => (∃ e r, o = SaveFailed e r)
                     ∧ log_path w' = log_path w
                     ∧ ∀ p, p ≠ path → w_fs w' !! p = w_fs w !! p
  end.
Proof.
  unfold Os.commit. rewrite bind_unfold. unfold get_fs at 1. cbv beta iota.
  destruct o as [d|e r].
  - unfold set_fs. exists d.
    split_and!; [done|by simpl; rewrite lookup_insert_eq|done|].
    intros p Hp. simpl. by rewrite lookup_insert_ne.
  - rewrite bind_unfold. unfold set_fs, raise.
    split_and!; [by eexists _, _|done|].
    intros p Hp. simpl.
    destruct r; [by rewrite lookup_insert_ne|by rewrite lookup_delete_ne].
Qed.

(** After a step that keeps every path but [path], a logging step keeps
    them too. *)
Lemma logged_kept_from w w1 l msg p :
  log_path w1 = log_path w → w_fs w1 !! p = w_fs w !! p →
  kept_at (log_path w) p (w_fs w) (w_fs (logged l msg w1)).
Proof.
  intros Hlp E. pose proof (logged_appended l msg w1 p) as Hk.
  rewrite Hlp in Hk. destruct Hk as [E'|(? & d & more & E1 & E2)].
  - left. congruence.
  - right. split; [done|]. exists d, more. split; congruence.
Qed.

Lemma logged_File_from w1 l msg p d lp :
  log_path w1 = lp → w_fs w1 !! p = Some (File d) →
  ∃ more, w_fs (logged l msg w1) !! p = Some (File (d +:+ more))
          ∧ (lp ≠ Some p → more = "").
Proof.
  intros <- Hd. eapply kept_at_File; [|done]. apply logged_appended.
Qed.

Lemma save_as_image_spec img path fmt q exif w :
  ∃ w',
    save_as_image img path fmt q exif w
    = (Ok (match image_save (w_fs w) img path (save_kwargs_for fmt q exif) with
           | Saved _ => true
           | SaveFailed _ _ => false
           end), w')
    ∧ log_path w' = log_path w
    ∧ (∀ p, p ≠ path → kept_at (log_path w) p (w_fs w) (w_fs w'))
    ∧ (∀ d, image_save (w_fs w) img path (save_kwargs_for fmt q exif) = Saved d →
            ∃ more, w_fs w' !! path = Some (File (d +:+ more))
                    ∧ (log_path w ≠ Some path → more = "")).
Proof.
  unfold save_as_image, try_except.
  rewrite bind_unfold. unfold get_fs at 1. cbv beta iota. rewrite bind_unfold.
  pose proof (commit_spec path
                (image_save (w_fs w) img path (save_kwargs_for fmt q exif)) w) as Hc.
  destruct (Os.commit path _ w) as [[[]|e] w1].
  - destruct Hc as (d & -> & Hd & Hlp & Hframe).
    rewrite bind_unfold. unfold get_fs at 1. cbv beta iota.
    rewrite bind_unfold. unfold Logging.info. rewrite log_eq.
    eexists. split_and!; [done|by rewrite logged_log_path| |].
    + intros p Hp. apply logged_kept_from; auto.
    + intros ? [= <-]. by eapply logged_File_from.
  - destruct Hc as ((e' & r & ->) & Hlp & Hframe).
    rewrite bind_unfold. unfold Logging.error. rewrite log_eq.
    eexists. split_and!; [done|by rewrite logged_log_path| |done].
    intros p Hp. apply logged_kept_from; auto.
Qed.

Lemma convert_image_to_pdf_spec p path ps w :
  let w0 := logged INFO [T "Converting to PDF: "; T (OsPath.basename p)] w in
  ∃ w',
    convert_image_to_pdf p path ps w
    = (Ok (match pdf_request (w_fs w0) p ps with
           | Ok request =>
               match canvas_save (w_fs w0) request path with
               | Saved _ => true
               | SaveFailed _ _ => false
               end
           | Raise _ => false
           end), w')
    ∧ log_path w' = log_path w
    ∧ (∀ p', p' ≠ path → kept_at (log_path w) p' (w_fs w) (w_fs w'))
    ∧ (∀ request d, pdf_request (w_fs w0) p ps = Ok request →
                    canvas_save (w_fs w0) request path = Saved d →
                    ∃ more, w_fs w' !! path = Some (File (d +:+ more))
                            ∧ (log_path w ≠ Some path → more = "")).
Proof.
  intros w0. unfold convert_image_to_pdf, try_except.
  rewrite bind_unfold. unfold Logging.info at 1. rewrite log_eq.
  fold w0.
  assert (log_path w0 = log_path w) as Hlp0 by apply logged_log_path.
  assert (appended_to (log_path w) (w_fs w) (w_fs w0)) as Hfs0
    by apply logged_appended.
  rewrite bind_unfold. unfold get_fs at 1. cbv beta iota.
  rewrite bind_unfold. unfold lift at 1.
  destruct (pdf_request (w_fs w0) p ps) as [request|e].
  2:{ rewrite bind_unfold. unfold Logging.error. rewrite log_eq.
      eexists. split_and!; [done|by rewrite logged_log_path| |done].
      intros p' _. by apply logged_appended_from. }
  rewrite bind_unfold.
  pose proof (commit_spec path (canvas_save (w_fs w0) request path) w0) as Hc.
  destruct (Os.commit path _ w0) as [[[]|e] w2].
  - destruct Hc as (d & Hs & Hd & Hlp & Hframe). rewrite Hs.
    rewrite bind_unfold. unfold get_fs at 1. cbv beta iota.
    rewrite bind_unfold. unfold Logging.info. rewrite log_eq.
    eexists. split_and!; [done|by rewrite logged_log_path, Hlp| |].
    + intros p' Hp'. eapply kept_at_trans; [apply Hfs0|].
      rewrite <- Hlp0. apply logged_kept_from; auto.
    + intros r d0 [= <-] Hs'. rewrite Hs in Hs'. injection Hs' as <-.
      rewrite <- Hlp0, <- Hlp. by eapply logged_File_from.
  - destruct Hc as ((e' & r & Hs) & Hlp & Hframe). rewrite Hs.
    rewrite bind_unfold. unfold Logging.error. rewrite log_eq.
    eexists. split_and!; [done|by rewrite logged_log_path, Hlp| |].
    + intros p' Hp'. eapply kept_at_trans; [apply Hfs0|].
      rewrite <- Hlp0. apply logged_kept_from; auto.
    + intros r0 d0 [= <-] Hs'. by rewrite Hs in Hs'.
Qed.

(** One job: besides the log file, it touches its own output path only; it
    succeeds exactly when it has an output, which is then what the path
    holds (before the line that reports it, should the path be the log
    file). *)
Lemma convert_one_spec out fmt q ps file w :
  ∃ b w',
    convert_one out fmt q ps file w = (Ok b, w')
    ∧ log_path w' = log_path w
    ∧ (∀ p, p ≠ output_path_of out fmt file →
            kept_at (log_path w) p (w_fs w) (w_fs w'))
    ∧ (b = true ↔ is_Some (job_output out fmt q ps w file))
    ∧ (∀ d, job_output out fmt q ps w file = Some d →
            ∃ more, w_fs w' !! output_path_of out fmt file
                    = Some (File (d +:+ more))
                    ∧ (log_path w ≠ Some (output_path_of out fmt file) →
                       more = "")).
Proof.
  unfold convert_one, job_output. rewrite bind_unfold.
  unfold Logging.info at 1. rewrite log_eq.
  set (w1 := logged INFO _ w).
  assert (log_path w1 = log_path w) as Hlp1 by apply logged_log_path.
  assert (appended_to (log_path w) (w_fs w) (w_fs w1)) as Hfs1
    by apply logged_appended.
  destruct (String.eqb (Py.upper fmt) "PDF").
  - destruct (convert_image_to_pdf_spec file (output_path_of out fmt file) ps w1)
      as (w' & -> & Hlp & Hframe & Hdata).
    rewrite Hlp1 in Hframe, Hdata.
    cbv zeta.
    eexists _, w'. split_and!; [done|congruence| | |].
    + intros p Hp. eapply kept_at_trans; [apply Hfs1|by apply Hframe].
    + destruct (pdf_request _ file ps) as [request|e];
        [|split; [done|by intros [??]]].
      destruct (canvas_save _ request _);
        split; try done; by intros [??].
    + intros d Hd.
      destruct (pdf_request _ file ps) as [request|e]; [|done].
      destruct (canvas_save _ request _) eqn:Es; [|done].
      injection Hd as ->. by eapply Hdata.
  - rewrite bind_unfold.
    destruct (convert_image_to_format_spec file fmt q w1)
      as (w2 & E2 & Hlp2 & Hfs2).
    rewrite Hlp1 in Hlp2, Hfs2.
    rewrite E2.
    destruct (match PIL.open _ file with Ok _ => _ | Raise _ => _ end)
      as [[img' exif]|].
    2:{ eexists _, _. split_and!; [done|done| | |done].
        - intros p _. eapply kept_at_trans; [apply Hfs1|apply Hfs2].
        - split; [done|by intros [??]]. }
    destruct (save_as_image_spec img' (output_path_of out fmt file) fmt q
                exif w2) as (w' & -> & Hlp & Hframe & Hdata).
    rewrite Hlp2 in Hframe, Hdata.
    eexists _, w'. split_and!; [done|congruence| | |].
    + intros p Hp. eapply kept_at_trans; [apply Hfs1|].
      eapply kept_at_trans; [apply Hfs2|by apply Hframe].
    + destruct (image_save (w_fs w2) img' _ _); split; try done; by intros [??].
    + intros d Hd. destruct (image_save (w_fs w2) img' _ _) eqn:Es; [|done].
      injection Hd as ->. by apply Hdata.
Qed.

End jobs.

(** ** Output paths and collisions *)

Section collisions.
Context `{Host}.
Import ConvertHeic.

Lemma base_name_no_sep file : Py.contains OsPath.sep (base_name_of file) = false.
Proof.
  unfold base_name_of.
  pose proof (basename_no_sep file) as Hb.
  rewrite <- (splitext_app (OsPath.basename file)), contains_app in Hb.
  by apply orb_false_iff in Hb as [? _].
Qed.

Lemma output_name_not_absolute file fmt :
  Py.startswith (base_name_of file +:+ output_ext fmt) "/" = false.
Proof.
  pose proof (base_name_no_sep file) as Hb.
  destruct (base_name_of file) as [|a b].
  - rewrite app_empty. unfold output_ext.
    destruct (String.eqb _ _); [done|]. by case_bool_decide.
  - rewrite app_String. simpl in *.
    apply orb_false_iff in Hb as [Ha _]. unfold OsPath.sep in Ha. by rewrite Ha.
Qed.

(** Two sources have the same output path exactly when they have the same
    base name. *)
Lemma output_path_eq out fmt f g :
  output_path_of out fmt g = output_path_of out fmt f ↔
  base_name_of g = base_name_of f.
Proof.
  unfold output_path_of. split; [|by intros ->].
  intros E%join_inj; [|apply output_name_not_absolute..].
  by apply app_inv_tail_str in E.
Qed.

Lemma convert_loop_app out fmt q ps pre post s0 f0 w :
  convert_loop out fmt q ps (pre ++ post) s0 f0 w
  = match convert_loop out fmt q ps pre s0 f0 w with
    | (Ok (s1, f1), w1) => convert_loop out fmt q ps post s1 f1 w1
    | (Raise e, w1) => (Raise e, w1)
    end.
Proof.
  revert s0 f0 w. induction pre as [|g pre IH]; intros s0 f0 w; [done|].
  cbn [app convert_loop]. rewrite !bind_unfold.
  destruct (convert_one out fmt q ps g w) as [[[]|e] w1]; [apply IH..|done].
Qed.

(** The loop keeps the path of the log file. *)
Lemma convert_loop_log_path out fmt q ps files s0 f0 w :
  log_path (convert_loop out fmt q ps files s0 f0 w).2 = log_path w.
Proof.
  revert s0 f0 w. induction files as [|g files IH]; intros s0 f0 w; [done|].
  destruct (convert_one_spec out fmt q ps g w) as (b & w1 & E & Hlp & _).
  cbn [convert_loop]. rewrite (bind_Ok _ _ _ _ _ E).
  destruct b; by rewrite IH.
Qed.

(** Jobs with other output paths leave a path as it is, but for what they
    append to it when it is the log file. *)
Lemma convert_loop_frame out fmt q ps files s0 f0 w p :
  (∀ g, g ∈ files → output_path_of out fmt g ≠ p) →
  ∃ s1 f1 w',
    convert_loop out fmt q ps files s0 f0 w = (Ok (s1, f1), w')
    ∧ log_path w' = log_path w
    ∧ kept_at (log_path w) p (w_fs w) (w_fs w').
Proof.
  revert s0 f0 w. induction files as [|g files IH]; intros s0 f0 w Hp.
  - exists s0, f0, w. split_and!; [done|done|apply kept_at_refl].
  - destruct (convert_one_spec out fmt q ps g w)
      as (b & w1 & E & Hlp & Hframe & _).
    cbn [convert_loop]. rewrite (bind_Ok _ _ _ _ _ E).
    assert (kept_at (log_path w) p (w_fs w) (w_fs w1)) as Hk.
    { apply Hframe. intros ->. by apply (Hp g); [left|]. }
    assert (∀ g', g' ∈ files → output_path_of out fmt g' ≠ p) as Hp'
      by (intros g' Hg'; apply Hp; by right).
    destruct b.
    + destruct (IH (S s0) f0 w1 Hp') as (s1 & f1 & w' & -> & Hlp' & Hk').
      rewrite Hlp in Hk'. exists s1, f1, w'.
      split_and!; [done|congruence|by eapply kept_at_trans].
    + destruct (IH s0 (S f0) w1 Hp') as (s1 & f1 & w' & -> & Hlp' & Hk').
      rewrite Hlp in Hk'. exists s1, f1, w'.
      split_and!; [done|congruence|by eapply kept_at_trans].
Qed.

(** C4, as the code has it.  Let [f] be the last discovered file with its
    base name.  The discovered files with that base name share the output
    path of [f] and sort before it; nothing after the job of [f] touches that
    path (unless the path is the log file itself, which the later jobs
    append to); and when the job of [f] succeeds, the path holds at the end
    of the run the output of [f]. *)
Theorem collision_last_wins (fs : filesystem)
    (source_folder output_folder output_format : string) (quality : Z)
    (page_size : string) (pre : list string) (f : string) (post : list string)
    (s0 f0 : nat) (w : world) :
  get_image_files fs source_folder = pre ++ f :: post →
  (∀ g, g ∈ post → base_name_of g ≠ base_name_of f) →
  (∀ g, g ∈ get_image_files fs source_folder →
        base_name_of g = base_name_of f →
        output_path_of output_folder output_format g
        = output_path_of output_folder output_format f
        ∧ String.le g f)
  ∧ ∃ s1 f1 w1 b w2 s2 f2 w3,
      convert_loop output_folder output_format quality page_size pre s0 f0 w
      = (Ok (s1, f1), w1)
      ∧ convert_one output_folder output_format quality page_size f w1
        = (Ok b, w2)
      ∧ convert_loop output_folder output_format quality page_size
          (get_image_files fs source_folder) s0 f0 w
        = (Ok (s2, f2), w3)
      ∧ kept_at (log_path w) (output_path_of output_folder output_format f)
          (w_fs w2) (w_fs w3)
      ∧ (log_path w ≠ Some (output_path_of output_folder output_format f) →
         w_fs w3 !! output_path_of output_folder output_format f
         = w_fs w2 !! output_path_of output_folder output_format f)
      ∧ (b = true ↔
         is_Some (job_output output_folder output_format quality page_size
                    w1 f))
      ∧ ∀ d, job_output output_folder output_format quality page_size
               w1 f = Some d →
             ∃ more,
               w_fs w3 !! output_path_of output_folder output_format f
               = Some (File (d +:+ more))
               ∧ (log_path w
                  ≠ Some (output_path_of output_folder output_format f) →
                  more = "").
Proof.
  intros Hfiles Hlast. split.
  - intros g Hg Hbase. split; [by apply output_path_eq|].
    destruct (get_image_files_spec fs source_folder) as (_ & Hsorted & _).
    rewrite Hfiles in Hg, Hsorted.
    apply StronglySorted_app in Hsorted as (Hle & _ & _).
    apply elem_of_app in Hg as [Hg|Hg]; [apply Hle; [done|left]|].
    apply elem_of_cons in Hg as [->|Hg]; [done|].
    by destruct (Hlast g Hg).
  - destruct (convert_loop_tally output_folder output_format quality page_size
                pre s0 f0 w) as (s1 & f1 & w1 & Epre & _).
    assert (log_path w1 = log_path w) as Hlp1.
    { pose proof (convert_loop_log_path output_folder output_format quality
                    page_size pre s0 f0 w) as Hl. by rewrite Epre in Hl. }
    destruct (convert_one_spec output_folder output_format quality page_size
                f w1) as (b & w2 & Eone & Hlp2 & _ & Hb & Hdata).
    destruct (convert_loop_frame output_folder output_format quality page_size
                post (if b then S s1 else s1) (if b then f1 else S f1) w2
                (output_path_of output_folder output_format f))
      as (s2 & f2 & w3 & Epost & Hlp3 & Hkeep).
    { intros g Hg E. apply output_path_eq in E. by apply (Hlast g). }
    rewrite Hlp2, Hlp1 in Hkeep.
    exists s1, f1, w1, b, w2, s2, f2, w3. split_and!; try done.
    + rewrite Hfiles, convert_loop_app, Epre. cbn [convert_loop].
      rewrite (bind_Ok _ _ _ _ _ Eone). by destruct b.
    + intros Hne. by eapply kept_at_ne.
    + intros d Hd. destruct (Hdata d Hd) as (m1 & E1 & Hm1).
      destruct (kept_at_File _ _ _ _ _ Hkeep E1) as (m2 & E2 & Hm2).
      exists (m1 +:+ m2). split; [by rewrite E2, app_assoc_str|].
      intros Hne. rewrite Hm2 by done. rewrite Hm1 by (by rewrite Hlp1).
      done.
Qed.

End collisions.

(** C4, witness: [a.heic] and [a.png] of the sample folder, to PNG. *)
Lemma collision_last_wins_witness :
  ∃ s2 f2 w3,
    ConvertHeic.convert_loop (H := Sample.posix) "/app/images/output" "png" 95
      "letter"
      (ConvertHeic.get_image_files (H := Sample.posix) Sample.fs0
         "/app/images/source") 0%nat 0%nat (Sample.fresh Sample.fs0)
    = (Ok (s2, f2), w3)
    ∧ w_fs w3 !! "/app/images/output/a.png" = Some (File "PNG:RGBA two").
Proof.
  destruct (collision_last_wins (H := Sample.posix) Sample.fs0
              "/app/images/source" "/app/images/output" "png" 95 "letter"
              ["/app/images/source/a.heic"] "/app/images/source/a.png"
              ["/app/images/source/album.png"] 0%nat 0%nat
              (Sample.fresh Sample.fs0))
    as (_ & s1 & f1 & w1 & b & w2 & s2 & f2 & w3 & E1 & _ & E3 & _ & _ & _ & Hd).
  - by vm_compute.
  - intros g Hg. apply list_elem_of_singleton in Hg as ->. by vm_compute.
  - exists s2, f2, w3. split; [exact E3|].
    destruct (Hd "PNG:RGBA two") as (more & Hw3 & Hmore).
    + vm_compute in E1. injection E1 as <- <- <-. by vm_compute.
    + rewrite Hmore in Hw3 by done. exact Hw3.
Defined.

(** C4, as claimed, fails.  [a.heic] and [a.png] share the base name and
    [a.png] sorts last, but it does not decode: its job fails, and the
    shared output path holds the result of [a.heic]. *)
Lemma failed_last_source_leaves_earlier_output :
  let run := ConvertHeic.convert_images (H := Sample.posix) "/app/images/source"
               "/app/images/output" "png" 95 "letter" true
               (Sample.fresh Sample.fs2) in
  ConvertHeic.get_image_files (H := Sample.posix) Sample.fs2 "/app/images/source"
  = ["/app/images/source/a.heic"; "/app/images/source/a.png"]
  ∧ ConvertHeic.base_name_of "/app/images/source/a.heic"
    = ConvertHeic.base_name_of "/app/images/source/a.png"
  ∧ run.1 = Ok (ConvertHeic.Stats 2 1 1)
  ∧ w_fs run.2 !! "/app/images/output/a.png" = Some (File "PNG:RGB one")
  ∧ ConvertHeic.job_output (H := Sample.posix) "/app/images/output" "png" 95
      "letter" (Sample.fresh Sample.fs2) "/app/images/source/a.heic"
    = Some "PNG:RGB one"
  ∧ ConvertHeic.job_output (H := Sample.posix) "/app/images/output" "png" 95
      "letter" (Sample.fresh Sample.fs2) "/app/images/source/a.png" = None.
Proof. by vm_compute. Qed.
(** ** Further properties of the clearing *)

Section clearing_more.
Context `{Host}.
Import ConvertHeic.

Lemma clear_entry_keep out keep n count w :
  clear_entry out keep n count w = clear_entry out true n count w.
Proof.
  destruct keep; [done|]. unfold clear_entry. rewrite !bind_unfold.
  unfold get_fs. cbv beta iota.
  destruct (FS.is_dir (w_fs w) (OsPath.join out n)); [done|].
  cbn [andb]. destruct (String.eqb (Py.lower n) "readme.md") eqn:E; [|done].
  apply String.eqb_eq in E. by rewrite (readme_not_removable n E).
Qed.

Lemma clear_loop_keep out keep names count w :
  clear_loop out keep names count w = clear_loop out true names count w.
Proof.
  revert count w. induction names as [|n names IH]; intros count w; [done|].
  cbn [clear_loop]. rewrite !bind_unfold, clear_entry_keep.
  destruct (clear_entry out true n count w) as [[c|e] w1]; [apply IH|done].
Qed.

(** X1.  The [keep_readme] argument changes nothing: a name that is [readme.md]
    up to case never ends in one of the extensions to remove, so the run
    with [keep_readme=False] is the run with [keep_readme=True]. *)
Theorem keep_readme_is_redundant (output_folder : string) (keep_readme : bool)
    (w : world) :
  clear_output_folder output_folder keep_readme w
  = clear_output_folder output_folder true w.
Proof.
  unfold clear_output_folder. rewrite !bind_unfold.
  unfold get_fs. cbv beta iota.
  destruct (negb (FS.exists_ (w_fs w) output_folder)); [done|].
  rewrite !bind_unfold.
  destruct (Os.listdir output_folder w) as [[names|e] w1]; [|done].
  by rewrite !bind_unfold, clear_loop_keep.
Qed.

Lemma selected_inv keep n :
  selected keep n = true →
  has_removable_extension n = true ∧ Py.lower n ≠ "readme.md".
Proof.
  unfold selected. intros [_ Hx]%andb_true_iff. split; [done|].
  intros Hr%readme_not_removable. congruence.
Qed.

(** The three outcomes of a clearing, by what the output path is. *)
Lemma clear_output_folder_cases out keep w :
  match w_fs w !! out with
  | Some (File d) =>
      ∃ e, clear_output_folder out keep w = (Raise e, w)
  | None => clear_output_folder out keep w = (Ok tt, w)
  | Some Dir =>
      ∃ count w1 w',
        clear_loop out keep (FS.entries (w_fs w) out) 0%nat w = (Ok count, w1)
        ∧ clear_output_folder out keep w = (Ok tt, w')
        ∧ log_path w' = log_path w1
        ∧ appended_to (log_path w1) (w_fs w1) (w_fs w')
  end.
Proof.
  destruct (w_fs w !! out) as [[d|]|] eqn:Hout;
    unfold clear_output_folder; rewrite bind_unfold;
    unfold get_fs at 1; cbv beta iota; unfold FS.exists_; rewrite Hout;
    cbn [negb]; [| |reflexivity].
  - rewrite bind_unfold. unfold Os.listdir. rewrite bind_unfold.
    unfold get_fs at 1. cbv beta iota. unfold lift, FS.listdir. rewrite Hout.
    by eexists.
  - rewrite bind_unfold. unfold Os.listdir. rewrite bind_unfold.
    unfold get_fs at 1. cbv beta iota. unfold lift, FS.listdir. rewrite Hout.
    destruct (returns_clear_loop out keep (FS.entries (w_fs w) out) 0%nat w)
      as (count & w1 & E).
    rewrite (bind_Ok _ _ _ _ _ E).
    exists count, w1. destruct (0 <? count)%nat; unfold Logging.info;
      rewrite log_eq; eexists; (split; [done|]); (split; [done|]);
      (split; [apply logged_log_path|apply logged_appended]).
Qed.

(** A clearing only deletes selected regular files of the folder, and
    appends its lines to the log file. *)
Lemma clear_output_folder_frame out keep w r w' :
  clear_output_folder out keep w = (r, w') →
  log_path w' = log_path w
  ∧ cleared (log_path w)
      (λ p, ∃ n, n ∈ FS.entries (w_fs w) out ∧ p = OsPath.join out n
                 ∧ has_removable_extension n = true
                 ∧ Py.lower n ≠ "readme.md")
      (w_fs w) (w_fs w').
Proof.
  intros E. pose proof (clear_output_folder_cases out keep w) as Hc.
  destruct (w_fs w !! out) as [[d|]|] eqn:Hout.
  - destruct Hc as (e & Hc). rewrite Hc in E. injection E as <- <-.
    split; [done|apply cleared_refl].
  - destruct Hc as (count & w1 & w2 & Eloop & Hc & Hlp & Hfs).
    rewrite Hc in E. injection E as <- <-.
    destruct (clear_loop_frame out keep (FS.entries (w_fs w) out) 0%nat w)
      as (c' & w1' & Eloop' & Hlp1 & Hframe & _).
    rewrite Eloop in Eloop'. injection Eloop' as <- <-.
    split; [congruence|]. rewrite Hlp1 in Hfs.
    eapply cleared_trans; [|by apply appended_cleared].
    eapply cleared_weaken; [|exact Hframe].
    intros p (n & Hn & -> & Hs). exists n.
    destruct (selected_inv keep n Hs). by split_and!.
  - rewrite Hc in E. injection E as <- <-. split; [done|apply cleared_refl].
Qed.


End clearing_more.

(** ** Further properties of the discovery *)

Section discovery_more.
Context `{Host}.
Import ConvertHeic.

(** For a source folder written plainly, whether it is a directory or not. *)
Lemma glob_glob_plain_any fs src pat :
  src ≠ "" → Py.endswith src "/" = false → Glob.has_magic src = false →
  pat ∈ patterns →
  glob_glob fs (OsPath.join src pat)
  = OsPath.join src
    <$> Glob.glob1 normcase_folds
          (match FS.listdir fs src with Ok ns => ns | Raise _ => [] end) pat.
Proof.
  intros Hne He Hm Hp. unfold glob_glob.
  rewrite split_join by auto using pattern_no_sep.
  rewrite Hm. by destruct src.
Qed.

Lemma discovered_inv fs src p :
  src ≠ "" → Py.endswith src "/" = false → Glob.has_magic src = false →
  p ∈ get_image_files fs src →
  fs !! src = Some Dir
  ∧ ∃ n pat,
      p = OsPath.join src n ∧ n ∈ FS.entries fs src
      ∧ Glob.ishidden n = false ∧ pat ∈ patterns
      ∧ Glob.fnmatch_star normcase_folds n (Glob.star_suffix pat) = true.
Proof.
  intros Hne He Hm Hp.
  apply get_image_files_spec, elem_of_globbed in Hp as (pat & Hpat & Hp).
  rewrite glob_glob_plain_any in Hp by done.
  apply list_elem_of_fmap in Hp as (n & -> & Hn).
  apply elem_of_glob1 in Hn as (Hn & Hh & Hf).
  unfold FS.listdir in Hn.
  destruct (fs !! src) as [[d|]|] eqn:Hd;
    [by apply elem_of_nil in Hn| |by apply elem_of_nil in Hn].
  split; [done|]. by exists n, pat.
Qed.

(** X3.  Discovery returns nothing else than matched entries: every discovered
    path is the source folder joined with the name of one of its direct
    entries, a name without separator that does not begin with a dot and
    that one of the ten patterns matches (ends with its extension, where
    matching is case-sensitive); the source folder is then a directory.
    Entries of sub-folders and names with other extensions are never
    returned. *)
Theorem discovery_returns_matched_entries (fs : filesystem)
    (source_folder p : string) :
  source_folder ≠ "" → Py.endswith source_folder "/" = false →
  Glob.has_magic source_folder = false →
  p ∈ get_image_files fs source_folder →
  fs !! source_folder = Some Dir
  ∧ ∃ n pat,
      p = OsPath.join source_folder n
      ∧ n ∈ FS.entries fs source_folder
      ∧ Py.contains OsPath.sep n = false
      ∧ is_Some (fs !! p)
      ∧ Glob.ishidden n = false
      ∧ pat ∈ patterns
      ∧ Glob.fnmatch_star normcase_folds n (Glob.star_suffix pat) = true
      ∧ (normcase_folds = false →
         Py.endswith n (Glob.star_suffix pat) = true).
Proof.
  intros Hne He Hm Hp.
  destruct (discovered_inv _ _ _ Hne He Hm Hp)
    as (Hd & n & pat & -> & Hn & Hh & Hpat & Hf).
  split; [done|]. exists n, pat. split_and!; try done.
  - by eapply entries_no_sep.
  - by apply entries_lookup.
  - intros Hnc. unfold Glob.fnmatch_star in Hf. by rewrite Hnc in Hf.
Qed.


End discovery_more.

(** ** Further properties of the conversions *)

Section conversions_more.
Context `{Host}.
Import ConvertHeic.

Lemma jpeg_family_decide fmt :
  is_jpeg_family fmt = bool_decide (Py.upper fmt ∈ ["JPG"; "JPEG"]).
Proof.
  unfold is_jpeg_family. symmetry.
  destruct (String.eqb (Py.upper fmt) "JPG") eqn:E1.
  { apply String.eqb_eq in E1. apply bool_decide_eq_true. rewrite E1. set_solver. }
  destruct (String.eqb (Py.upper fmt) "JPEG") eqn:E2.
  { apply String.eqb_eq in E2. apply bool_decide_eq_true. rewrite E2. set_solver. }
  apply String.eqb_neq in E1, E2. apply bool_decide_eq_false.
  rewrite !elem_of_cons, elem_of_nil. tauto.
Qed.

(** X5.  The three places that look at the format agree.  For a format other
    than PDF (in any case), either it is JPG or JPEG up to case, the raster
    is normalised to RGB, the encoder is JPEG with the given quality,
    optimisation, no subsampling and progressive scans, and the file is
    named [.jpg]; or it is any other string, nothing is normalised, the
    encoder is PNG with compression level 6, and the file is named [.png]. *)
Theorem format_dispatch_agrees (output_format : string) (quality : Z)
    (exif_data : option string) :
  String.eqb (Py.upper output_format) "PDF" = false →
  (is_jpeg_family output_format = true
   ∧ output_ext output_format = ".jpg"
   ∧ save_kwargs_for output_format quality exif_data
     = {| kw_format := JPEG; kw_quality := Some quality; kw_optimize := true;
          kw_subsampling := Some 0; kw_progressive := true;
          kw_compress_level := None; kw_exif := exif_kwarg exif_data |})
  ∨ (is_jpeg_family output_format = false
     ∧ output_ext output_format = ".png"
     ∧ save_kwargs_for output_format quality exif_data
       = {| kw_format := PNG; kw_quality := None; kw_optimize := true;
            kw_subsampling := None; kw_progressive := false;
            kw_compress_level := Some 6; kw_exif := exif_kwarg exif_data |}).
Proof.
  intros Hpdf. unfold output_ext, save_kwargs_for.
  rewrite Hpdf, jpeg_family_decide.
  case_bool_decide; [by left|by right].
Qed.

(** X6.  Whatever the mode of the image, a successful normalisation gives an RGB
    image of the same pixel dimensions. *)
Theorem normalize_rgb_gives_rgb (img out : image) :
  normalize_rgb img = Ok out →
  im_mode out = M_RGB ∧ im_size out = im_size img.
Proof.
  intros Hn. split; [|by apply normalize_rgb_size].
  revert Hn. unfold normalize_rgb. case_bool_decide as Ha.
  - destruct (if bool_decide (im_mode img = M_P) then _ else _)
      as [img'|] eqn:E; [|done].
    assert (∀ a, PIL.paste (PIL.new M_RGB (im_size img) white) img' a = Ok out →
                 im_mode out = M_RGB) as Hp.
    { intros a. unfold PIL.paste, PIL.new. simpl.
      destruct (im_data img'); [|done]. by intros [= <-]. }
    destruct (bool_decide (im_mode img' ∈ [M_RGBA; M_LA])); [|apply Hp].
    destruct (PIL.last_band img'); [apply Hp|done].
  - case_bool_decide as Hr.
    + unfold PIL.convert. destruct (im_data img); [|done]. by intros [= <-].
    + intros [= <-]. destruct (decide (im_mode img = M_RGB)); [done|by destruct Hr].
Qed.

(** X7.  A fully opaque pixel keeps its colour: in an RGBA image whose raster
    has as many pixels as its size says, a pixel [[r; g; b; 255]] with bands
    in 0..255 comes out as [[r; g; b]]. *)
Theorem normalize_rgb_keeps_opaque (img : image) (px : list pixel) (i : nat)
    (r g b : Z) :
  im_mode img = M_RGBA → im_data img = Ok px →
  length px = Z.to_nat ((im_size img).1 * (im_size img).2) →
  px !! i = Some [r; g; b; 255] →
  0 ≤ r ≤ 255 → 0 ≤ g ≤ 255 → 0 ≤ b ≤ 255 →
  ∃ out opx, normalize_rgb img = Ok out ∧ im_data out = Ok opx
             ∧ opx !! i = Some [r; g; b].
Proof.
  intros Hm Hd Hlen Hp Hr Hg Hb.
  assert (im_mode img ∈ [M_RGBA; M_LA; M_P]) as Hin by (rewrite Hm; set_solver).
  rewrite (normalize_rgb_alpha img px Hin Hd).
  eexists _, _. split; [done|]. split; [done|].
  assert (PIL.with_alpha img <$> px = px) as ->.
  { unfold PIL.with_alpha. rewrite Hm. apply list_fmap_id. }
  assert (i < Z.to_nat ((im_size img).1 * (im_size img).2))%nat as Hi
    by (rewrite <- Hlen; by eapply lookup_lt_Some).
  rewrite (composite_lookup _ _ _ _ _ Hp Hi), Hm. simpl.
  by rewrite !blend_opaque.
Qed.





End conversions_more.

(** ** Further properties of the batch run and the command line *)

Section batch_more.
Context `{Host}.
Import ConvertHeic.

Lemma log_bind {A} l msg (f : unit → M A) w :
  (Logging.log l msg ≫= f) w = f tt (logged l msg w).
Proof. reflexivity. Qed.

Lemma ret_bind {A B} (a : A) (f : A → M B) w : (mret a ≫= f) w = f a w.
Proof. reflexivity. Qed.

Lemma info_bind {A} msg (f : unit → M A) w :
  (Logging.info msg ≫= f) w = f tt (logged INFO msg w).
Proof. reflexivity. Qed.

Lemma warning_bind {A} msg (f : unit → M A) w :
  (Logging.warning msg ≫= f) w = f tt (logged WARNING msg w).
Proof. reflexivity. Qed.



(** The loop changes output paths only, and appends to the log file. *)
Lemma convert_loop_footprint out fmt q ps files s0 f0 w :
  ∃ s1 f1 w',
    convert_loop out fmt q ps files s0 f0 w = (Ok (s1, f1), w')
    ∧ log_path w' = log_path w
    ∧ ∀ p, (∀ g, g ∈ files → output_path_of out fmt g ≠ p) →
           kept_at (log_path w) p (w_fs w) (w_fs w').
Proof.
  destruct (convert_loop_tally out fmt q ps files s0 f0 w)
    as (s1 & f1 & w' & E & _).
  exists s1, f1, w'. split; [done|]. split.
  - pose proof (convert_loop_log_path out fmt q ps files s0 f0 w) as Hl.
    by rewrite E in Hl.
  - intros p Hp.
    destruct (convert_loop_frame out fmt q ps files s0 f0 w p Hp)
      as (s2 & f2 & w2 & E2 & _ & Hkeep).
    rewrite E in E2. by injection E2 as <- <- <-.
Qed.

(** What the preparation of the output folder does to a path: a directory
    is made there, or, when clearing is asked for, a regular file of the
    folder with one of the four extensions is removed, or lines are
    appended to it as the log file. *)
Lemma prepare_output_frame out clear w r w1 :
  prepare_output out clear w = (r, w1) →
  log_path w1 = log_path w
  ∧ ∀ p, (w_fs w !! p = None ∧ w_fs w1 !! p = Some Dir)
         ∨ cleared_at (log_path w)
             (clear = true
              ∧ ∃ n, p = OsPath.join out n
                     ∧ Py.contains OsPath.sep n = false
                     ∧ has_removable_extension n = true
                     ∧ Py.lower n ≠ "readme.md")
             p (w_fs w) (w_fs w1).
Proof.
  unfold prepare_output. rewrite bind_unfold.
  pose proof (makedirs_made out w) as Hm.
  destruct (Os.makedirs out w) as [[[]|e] w0]; cbn [snd] in Hm.
  2:{ intros [= <- <-]. split; [by apply made_dirs_log_path|].
      intros p. destruct Hm as (_ & _ & Hm).
      destruct (Hm p) as [?|?]; [right; by left|by left]. }
  pose proof (made_dirs_log_path _ _ Hm) as Hlp0.
  destruct Hm as (_ & _ & Hm).
  cbv beta iota. rewrite info_bind.
  set (w0' := logged INFO _ w0).
  assert (log_path w0' = log_path w) as Hlp0'
    by (unfold w0'; by rewrite logged_log_path).
  assert (appended_to (log_path w) (w_fs w0) (w_fs w0')) as Happ
    by (rewrite <- Hlp0; apply logged_appended).
  intros E.
  assert (log_path w1 = log_path w
          ∧ cleared (log_path w)
              (λ p, clear = true
                    ∧ ∃ n, p = OsPath.join out n
                           ∧ Py.contains OsPath.sep n = false
                           ∧ has_removable_extension n = true
                           ∧ Py.lower n ≠ "readme.md")
              (w_fs w0') (w_fs w1)) as [Hlp1 Hcl].
  { destruct clear.
    - destruct (clear_output_folder_frame _ _ _ _ _ E) as [Hl Hc].
      split; [congruence|]. rewrite Hlp0' in Hc.
      eapply cleared_weaken; [|exact Hc].
      intros p (n & Hn & ? & ? & ?). split; [done|]. exists n.
      apply entries_no_sep in Hn. by split_and!.
    - injection E as <- <-. split; [done|apply cleared_refl]. }
  split; [done|]. intros p.
  destruct (Hm p) as [E0|[E0 E0']].
  - right. eapply cleared_at_eq_l; [exact E0|].
    eapply cleared_at_trans; [apply kept_cleared_at, Happ|apply Hcl].
  - left. split; [done|].
    eapply cleared_at_Dir; [apply Hcl|].
    eapply kept_at_Dir; [apply Happ|done].
Qed.

(** The frame of a batch run that returns. *)
Lemma convert_images_frame src out fmt q ps clear w w' st :
  convert_images src out fmt q ps clear w = (Ok st, w') →
  ∃ w1,
    prepare_output out clear w = (Ok tt, w1)
    ∧ log_path w' = log_path w
    ∧ ∀ p, (∃ g, g ∈ get_image_files (w_fs w1) src
                 ∧ p = output_path_of out fmt g)
           ∨ (w_fs w !! p = None ∧ w_fs w' !! p = Some Dir)
           ∨ cleared_at (log_path w)
               (clear = true
                ∧ ∃ n, p = OsPath.join out n
                       ∧ Py.contains OsPath.sep n = false
                       ∧ has_removable_extension n = true
                       ∧ Py.lower n ≠ "readme.md")
               p (w_fs w) (w_fs w').
Proof.
  unfold convert_images. rewrite bind_unfold.
  destruct (prepare_output out clear w) as [[[]|e] w1] eqn:Ep; [|done].
  destruct (prepare_output_frame _ _ _ _ _ Ep) as [Hlp1 Hprep].
  rewrite bind_unfold. unfold get_fs at 1. cbv beta iota.
  intros E. exists w1. split; [done|].
  assert (log_path w' = log_path w1
          ∧ ∀ p, (∃ g, g ∈ get_image_files (w_fs w1) src
                       ∧ p = output_path_of out fmt g)
                 ∨ kept_at (log_path w1) p (w_fs w1) (w_fs w')) as [Hlp Hjobs].
  { destruct (get_image_files (w_fs w1) src) as [|g files] eqn:Hfiles.
    - rewrite warning_bind in E. injection E as <- <-.
      split; [apply logged_log_path|]. intros p. right. apply logged_appended.
    - rewrite info_bind in E. rewrite bind_unfold in E.
      set (w2 := logged INFO _ w1) in E.
      destruct (convert_loop_footprint out fmt q ps (g :: files) 0%nat 0%nat w2)
        as (s1 & f1 & w3 & El & Hlp3 & Hfoot).
      rewrite El in E. injection E as <- <-.
      assert (log_path w2 = log_path w1) as Hlp2 by apply logged_log_path.
      split; [congruence|]. intros p.
      destruct (decide (p ∈ output_path_of out fmt <$> g :: files))
        as [Hin|Hnin].
      + left. apply list_elem_of_fmap in Hin as (g' & -> & Hg'). by exists g'.
      + right. apply (kept_at_trans _ _ _ (w_fs w2));
          [apply logged_appended|].
        rewrite <- Hlp2. apply Hfoot. intros g' Hg' <-. apply Hnin.
        apply list_elem_of_fmap. by exists g'. }
  split; [congruence|]. intros p.
  destruct (Hjobs p) as [?|Hk]; [by left|right].
  rewrite Hlp1 in Hk.
  destruct (Hprep p) as [[E0 E1]|Hc].
  - left. split; [done|]. by eapply kept_at_Dir.
  - right. eapply cleared_at_trans; [exact Hc|by apply kept_cleared_at].
Qed.

(** A batch run returns when the preparation of the output folder does. *)
Lemma convert_images_returns src out fmt q ps clear w w1 :
  prepare_output out clear w = (Ok tt, w1) →
  ∃ st w', convert_images src out fmt q ps clear w = (Ok st, w').
Proof.
  intros Hp. unfold convert_images. rewrite (bind_Ok _ _ _ _ _ Hp).
  rewrite bind_unfold. unfold get_fs at 1. cbv beta iota.
  destruct (get_image_files (w_fs w1) src) as [|g files].
  - rewrite warning_bind. by eexists _, _.
  - rewrite info_bind, bind_unfold.
    destruct (convert_loop_tally out fmt q ps (g :: files) 0%nat 0%nat
                (logged INFO [T "Found "; D (Z.of_nat (length (g :: files)));
                              T " image file(s) to convert"] w1))
      as (s1 & f1 & w2 & -> & _).
    by eexists _, _.
Qed.

(** The preparation returns for an output folder that is there, with its
    parent. *)
Lemma prepare_output_returns out clear w :
  w_fs w !! out = Some Dir →
  Py.truthy (OsPath.split out).2 = true →
  Py.truthy (OsPath.dirname out) = false
  ∨ FS.exists_ (w_fs w) (OsPath.dirname out) = true →
  ∃ w1, prepare_output out clear w = (Ok tt, w1).
Proof.
  intros Hd Ht Hh. unfold prepare_output.
  rewrite (bind_Ok _ _ _ _ _ (makedirs_existing out w Hd Ht Hh)).
  rewrite info_bind. destruct clear; [|by eexists].
  apply clear_output_folder_returns. by apply logged_lookup_Dir.
Qed.


(** X12.  Every output file lies directly in the output folder and is named by
    the base name of its source and the extension of the format. *)
Theorem output_path_in_folder (output_folder output_format image_file : string) :
  output_folder ≠ "" → Py.endswith output_folder "/" = false →
  OsPath.split (output_path_of output_folder output_format image_file)
  = (output_folder, base_name_of image_file +:+ output_ext output_format)
  ∧ output_ext output_format ∈ [".pdf"; ".jpg"; ".png"]
  ∧ base_name_of image_file +:+ (OsPath.splitext (OsPath.basename image_file)).2
    = OsPath.basename image_file.
Proof.
  intros Hne He. split_and!.
  - unfold output_path_of. apply split_join; [done|done|].
    rewrite contains_app, base_name_no_sep. unfold output_ext.
    destruct (String.eqb _ _); [done|]. by case_bool_decide.
  - unfold output_ext. destruct (String.eqb _ _); [set_solver|].
    case_bool_decide; set_solver.
  - apply splitext_app.
Qed.



Lemma join_longer a b :
  Py.startswith b "/" = false → b ≠ "" → OsPath.join a b ≠ a.
Proof.
  intros Hs Hb E. apply (f_equal String.length) in E. unfold OsPath.join in E.
  rewrite Hs in E. destruct b as [|c b]; [done|].
  destruct (negb (Py.truthy a) || Py.endswith a "/");
    rewrite ?length_app_str in E; simpl in E; lia.
Qed.



End batch_more.

(** ** Sample runs of the further properties *)

Lemma discovery_returns_matched_entries_witness :
  Sample.fs0 !! "/app/images/source" = Some Dir
  ∧ ∃ n pat,
      "/app/images/source/a.heic" = OsPath.join "/app/images/source" n
      ∧ n ∈ FS.entries Sample.fs0 "/app/images/source"
      ∧ Py.contains OsPath.sep n = false
      ∧ is_Some (Sample.fs0 !! "/app/images/source/a.heic")
      ∧ Glob.ishidden n = false
      ∧ pat ∈ ConvertHeic.patterns
      ∧ Glob.fnmatch_star false n (Glob.star_suffix pat) = true
      ∧ (false = false → Py.endswith n (Glob.star_suffix pat) = true).
Proof.
  apply (discovery_returns_matched_entries (H := Sample.posix) Sample.fs0
           "/app/images/source" "/app/images/source/a.heic").
  - done.
  - reflexivity.
  - reflexivity.
  - apply (bool_decide_unpack _). by vm_compute.
Defined.


Lemma format_dispatch_agrees_witness :
  ConvertHeic.output_ext "JpEg" = ".jpg"
  ∧ ConvertHeic.output_ext "webp" = ".png".
Proof.
  split.
  - destruct (format_dispatch_agrees "JpEg" 95 None eq_refl)
      as [(_ & E & _)|(Hj & _)]; [exact E|discriminate Hj].
  - destruct (format_dispatch_agrees "webp" 95 None eq_refl)
      as [(Hj & _)|(_ & E & _)]; [discriminate Hj|exact E].
Defined.

Lemma normalize_rgb_gives_rgb_witness :
  ∃ out, ConvertHeic.normalize_rgb (H := Sample.posix) (Sample.rgba_image "x")
         = Ok out
         ∧ im_mode out = M_RGB ∧ im_size out = (2, 1).
Proof.
  eexists. split; [reflexivity|].
  apply (normalize_rgb_gives_rgb (H := Sample.posix) (Sample.rgba_image "x")).
  reflexivity.
Defined.

Lemma normalize_rgb_keeps_opaque_witness :
  ∃ out opx,
    ConvertHeic.normalize_rgb (H := Sample.posix) (Sample.rgba_image "x") = Ok out
    ∧ im_data out = Ok opx ∧ opx !! 1%nat = Some [200; 100; 50].
Proof.
  apply (normalize_rgb_keeps_opaque (H := Sample.posix) (Sample.rgba_image "x")
           [[10; 20; 30; 0]; [200; 100; 50; 255]] 1%nat 200 100 50);
    try reflexivity; lia.
Defined.





Lemma output_path_in_folder_witness :
  OsPath.split (ConvertHeic.output_path_of "/app/images/output" "jpeg"
                  "/app/images/source/IMG_1.tar.HEIC")
  = ("/app/images/output", "IMG_1.tar.jpg").
Proof.
  destruct (output_path_in_folder "/app/images/output" "jpeg"
              "/app/images/source/IMG_1.tar.HEIC") as (E & _).
  - done.
  - reflexivity.
  - exact E.
Defined.


(** ** Further properties of a single job *)

Section jobs_more.
Context `{Host}.
Import ConvertHeic.






End jobs_more.


(** ** The set-up script *)

Section setup_monad.
Import Setup.

Lemma setup_bind {A B} (m : P A) (f : A → P B) (s : state) :
  (m ≫= f) s
  = match m s with
    | (Done a, s') => f a s'
    | (SysExit n, s') => (SysExit n, s')
    | (Error e, s') => (Error e, s')
    end.
Proof. reflexivity. Qed.

Lemma setup_bind_Done {A B} (m : P A) (f : A → P B) (s s' : state) a :
  m s = (Done a, s') → (m ≫= f) s = f a s'.
Proof. intros E. by rewrite setup_bind, E. Qed.

Lemma setup_print {A} line (f : unit → P A) s :
  (print line ≫= f) s = f tt (printed line s).
Proof. reflexivity. Qed.

Lemma setup_ret {A B} (a : A) (f : A → P B) s : (mret a ≫= f) s = f a s.
Proof. reflexivity. Qed.

Lemma setup_get_fs {A} (f : filesystem → P A) s :
  (get_fs ≫= f) s = f (s_fs s) s.
Proof. reflexivity. Qed.

Lemma printed_fs line s : s_fs (printed line s) = s_fs s.
Proof. reflexivity. Qed.

Lemma print_all_eq lines s :
  print_all lines s
  = (Done tt, {| s_fs := s_fs s; s_out := s_out s ++ lines |}).
Proof.
  revert s. induction lines as [|l lines IH]; intros s.
  - simpl. rewrite app_nil_r. by destruct s.
  - cbn [print_all]. rewrite setup_print, IH. simpl.
    by rewrite <- app_assoc.
Qed.

(** [mkdir] adds one directory or fails without a change. *)
Lemma mkdir_spec p s :
  match mkdir p s with
  | (Done _, s') =>
      s_fs s !! OsPath.dirname p = Some Dir ∧ s_fs s !! p = None
      ∧ s' = {| s_fs := <[p := Dir]> (s_fs s); s_out := s_out s |}
  | (Error e, s') =>
      s' = s
      ∧ (is_FileExistsError e = true ∧ is_Some (s_fs s !! p)
         ∨ is_FileExistsError e = false
           ∧ s_fs s !! OsPath.dirname p ≠ Some Dir)
  | (SysExit _, _) => False
  end.
Proof.
  unfold mkdir.
  destruct (s_fs s !! OsPath.dirname p) as [[d|]|] eqn:Hp.
  - split; [done|]. right. split; [reflexivity|done].
  - destruct (s_fs s !! p) as [n|] eqn:Hn.
    + split; [done|]. left. split; [reflexivity|done].
    + done.
  - split; [done|]. right. split; [reflexivity|done].
Qed.

End setup_monad.

Section setup_paths.

Lemma endswith_sep_app a b :
  b ≠ "" → Py.endswith (a +:+ b) "/" = Py.endswith b "/".
Proof.
  intros Hb. induction a as [|c a IH]; [done|].
  rewrite app_String. cbn [Py.endswith]. rewrite IH.
  destruct (String.eqb (String c (a +:+ b)) "/") eqn:E; [|done].
  apply String.eqb_eq in E. injection E as _ E.
  destruct a; [by rewrite app_empty in E|by rewrite app_String in E].
Qed.

Lemma endswith_sep_contains b :
  Py.contains OsPath.sep b = false → Py.endswith b "/" = false.
Proof.
  intros Hb. destruct (Py.endswith b "/") eqn:E; [|done].
  apply endswith_inv in E as [pre ->].
  rewrite contains_app in Hb. apply orb_false_iff in Hb as [_ Hb]. done.
Qed.

(** A name joined to a directory path gives a path of the same kind. *)
Lemma join_name a b :
  a ≠ "" → Py.endswith a "/" = false →
  b ≠ "" → Py.contains OsPath.sep b = false →
  OsPath.join a b = a +:+ "/" +:+ b
  ∧ OsPath.join a b ≠ ""
  ∧ Py.endswith (OsPath.join a b) "/" = false
  ∧ OsPath.split (OsPath.join a b) = (a, b)
  ∧ OsPath.dirname (OsPath.join a b) = a
  ∧ OsPath.join a b ≠ a.
Proof.
  intros Ha He Hb Hs.
  assert (OsPath.join a b = a +:+ "/" +:+ b) as Hj
    by (apply join_plain; auto using startswith_sep_contains).
  split_and!; [done| | |by apply split_join| |].
  - rewrite Hj. by destruct a.
  - rewrite Hj, endswith_sep_app by done.
    rewrite app_String, app_empty. cbn [Py.endswith].
    destruct (String.eqb _ _) eqn:E.
    + apply String.eqb_eq in E. injection E as E. by subst b.
    + by apply endswith_sep_contains.
  - unfold OsPath.dirname. by rewrite split_join.
  - apply join_longer; [by apply startswith_sep_contains|done].
Qed.

End setup_paths.

Section setup_makedirs.
Import Setup.

Lemma length_join_name a b :
  a ≠ "" → Py.endswith a "/" = false →
  b ≠ "" → Py.contains OsPath.sep b = false →
  ∃ n, String.length (OsPath.join a b) = S (S n).
Proof.
  intros Ha He Hb Hs. destruct (join_name a b Ha He Hb Hs) as (-> & _).
  rewrite !length_app_str. destruct a; [done|]. simpl. eauto.
Qed.

(** [makedirs] below a path that exists is [mkdir]. *)
Lemma makedirs_join_exists a b s :
  a ≠ "" → Py.endswith a "/" = false →
  b ≠ "" → Py.contains OsPath.sep b = false →
  is_Some (s_fs s !! a) →
  makedirs (OsPath.join a b) s = mkdir (OsPath.join a b) s.
Proof.
  intros Ha He Hb Hs [n Hn].
  destruct (length_join_name a b Ha He Hb Hs) as [k Hk].
  destruct (join_name a b Ha He Hb Hs) as (_ & _ & _ & Hsplit & _).
  unfold makedirs. rewrite Hk. cbn [makedirs_from]. rewrite Hsplit.
  destruct b; [done|]. cbn [Py.truthy negb]. rewrite setup_get_fs.
  unfold FS.exists_. rewrite Hn. cbn [negb]. by rewrite andb_false_r.
Qed.

(** [makedirs] two levels below a directory, the level between missing. *)
Lemma makedirs_join_missing a b c s :
  a ≠ "" → Py.endswith a "/" = false →
  b ≠ "" → Py.contains OsPath.sep b = false →
  c ≠ "" → Py.contains OsPath.sep c = false → c ≠ "." →
  s_fs s !! a = Some Dir →
  s_fs s !! OsPath.join a b = None →
  s_fs s !! OsPath.join (OsPath.join a b) c = None →
  makedirs (OsPath.join (OsPath.join a b) c) s
  = (Done tt,
     {| s_fs := <[OsPath.join (OsPath.join a b) c := Dir]>
                  (<[OsPath.join a b := Dir]> (s_fs s));
        s_out := s_out s |}).
Proof.
  intros Ha He Hb Hs Hc Hcs Hdot Hdir Hmid Hleaf.
  destruct (join_name a b Ha He Hb Hs) as (_ & Hab & Heab & Hsplit & Hdn & Hne).
  destruct (join_name _ c Hab Heab Hc Hcs) as (_ & _ & _ & Hsplit2 & Hdn2 & Hne2).
  destruct (length_join_name _ c Hab Heab Hc Hcs) as [k Hk].
  assert (Py.truthy c = true) as Htc by (by destruct c).
  assert (Py.truthy b = true) as Htb by (by destruct b).
  assert (Py.truthy (OsPath.join a b) = true) as Htab
    by (by destruct (OsPath.join a b)).
  assert (String.eqb c "." = false) as Hdot' by (by apply String.eqb_neq).
  unfold makedirs. rewrite Hk. cbn [makedirs_from]. rewrite Hsplit2, Htc.
  cbn [negb]. cbv beta iota zeta. rewrite Htab, Htc. cbn [andb].
  rewrite setup_get_fs. unfold FS.exists_ at 1.
  rewrite Hmid. cbn [negb]. rewrite setup_bind. unfold try_except.
  rewrite Hsplit, Htb. cbn [negb]. cbv beta iota zeta.
  rewrite setup_get_fs. unfold FS.exists_. rewrite Hdir.
  cbn [negb]. rewrite andb_false_r.
  unfold mkdir at 1. rewrite Hdn, Hdir, Hmid. rewrite Hdot'.
  unfold mkdir. cbn [s_fs s_out]. rewrite Hdn2, lookup_insert_eq.
  by rewrite lookup_insert_ne, Hleaf by done.
Qed.

(** [makedirs] only adds directories. *)
Lemma makedirs_from_mono depth name s :
  s_fs s ⊆ s_fs (makedirs_from depth name s).2
  ∧ s_out (makedirs_from depth name s).2 = s_out s.
Proof.
  assert (∀ p s, s_fs s ⊆ s_fs (mkdir p s).2
                 ∧ s_out (mkdir p s).2 = s_out s) as Hmk.
  { intros p s0. pose proof (mkdir_spec p s0) as Hm.
    destruct (mkdir p s0) as [[[]|n|e] s1]; simpl.
    - destruct Hm as (_ & Hn & ->). simpl. split; [|done].
      by apply insert_subseteq.
    - done.
    - by destruct Hm as [-> _]. }
  revert name s. induction depth as [|depth IH]; intros name s; [done|].
  cbn [makedirs_from].
  destruct (OsPath.split name) as [head tail].
  destruct (if negb (Py.truthy tail) then OsPath.split head else (head, tail))
    as [head' tail'].
  rewrite setup_get_fs.
  destruct (Py.truthy head' && Py.truthy tail' && negb (FS.exists_ (s_fs s) head'));
    [|apply Hmk].
  rewrite setup_bind. unfold try_except.
  specialize (IH head' s).
  destruct (makedirs_from depth head' s) as [[[]|n|e] s1]; simpl in IH.
  - destruct (String.eqb tail' "."); [done|].
    destruct (Hmk name s1) as [Hsub Hout]. destruct IH as [Hsub1 Hout1].
    split; [by etrans|congruence].
  - done.
  - destruct (is_FileExistsError e); [|done].
    change ((mret () : P unit) s1) with (Done (), s1). cbv beta iota.
    destruct (String.eqb tail' "."); [done|].
    destruct (Hmk name s1) as [Hsub Hout]. destruct IH as [Hsub1 Hout1].
    split; [by etrans|congruence].
Qed.

End setup_makedirs.

Section setup_steps.
Context `{Setup.Env}.
Import Setup.

Lemma mkdir_mono p s :
  s_fs s ⊆ s_fs (mkdir p s).2.
Proof.
  pose proof (mkdir_spec p s) as Hm.
  destruct (mkdir p s) as [[[]|n|e] s1]; simpl.
  - destruct Hm as (_ & Hn & ->). by apply insert_subseteq.
  - done.
  - by destruct Hm as [-> _].
Qed.

Lemma ensure_directory_mono d s :
  s_fs s ⊆ s_fs (ensure_directory d s).2.
Proof.
  unfold ensure_directory. rewrite setup_get_fs.
  destruct (negb (FS.exists_ (s_fs s) d)); [|done].
  rewrite setup_bind. unfold makedirs.
  destruct (makedirs_from_mono (String.length d) d s) as [Hsub _].
  by destruct (makedirs_from (String.length d) d s) as [[[]|n|e] s1].
Qed.

Lemma makedirs_from_S depth name :
  makedirs_from (S depth) name
  = (let '(head, tail) := OsPath.split name in
     let '(head, tail) :=
       if negb (Py.truthy tail) then OsPath.split head else (head, tail) in
     fs ← get_fs;
     if Py.truthy head && Py.truthy tail && negb (FS.exists_ fs head) then
       try_except (makedirs_from depth head)
                  (λ e, if is_FileExistsError e then mret tt else raise e);;
       if String.eqb tail "." then mret tt else mkdir name
     else mkdir name).
Proof. reflexivity. Qed.

(** When [makedirs] returns, the leaf is there. *)
Lemma makedirs_from_done depth name h t s s' :
  OsPath.split name = (h, t) → t ≠ "" → t ≠ "." →
  makedirs_from depth name s = (Done tt, s') →
  is_Some (s_fs s' !! name).
Proof.
  intros Hsplit Ht Hdot.
  assert (Py.truthy t = true) as Htt by (by destruct t).
  assert (String.eqb t "." = false) as Hdot' by (by apply String.eqb_neq).
  assert (∀ s0 s1, mkdir name s0 = (Done tt, s1) →
                   is_Some (s_fs s1 !! name)) as Hmk.
  { intros s0 s1 E. pose proof (mkdir_spec name s0) as Hm.
    rewrite E in Hm. destruct Hm as (_ & _ & ->). simpl.
    by rewrite lookup_insert_eq. }
  destruct depth as [|depth]; [done|].
  rewrite makedirs_from_S, Hsplit, Htt. cbn [negb]. cbv beta iota zeta.
  rewrite setup_get_fs. cbv beta. rewrite Htt, Hdot'.
  destruct (Py.truthy h && true && negb (FS.exists_ (s_fs s) h));
    [|apply Hmk].
  rewrite setup_bind. unfold try_except.
  destruct (makedirs_from depth h s) as [[[]|n|e] s1]; [apply Hmk|done|].
  destruct (is_FileExistsError e); [apply Hmk|done].
Qed.

(** A directory step that returns leaves the directory in place. *)
Lemma ensure_directory_done a b s s' :
  a ≠ "" → Py.endswith a "/" = false →
  b ≠ "" → Py.contains OsPath.sep b = false → b ≠ "." →
  ensure_directory (OsPath.join a b) s = (Done tt, s') →
  is_Some (s_fs s' !! OsPath.join a b).
Proof.
  intros Ha He Hb Hs Hdot. unfold ensure_directory. rewrite setup_get_fs.
  unfold FS.exists_.
  destruct (s_fs s !! OsPath.join a b) as [n|] eqn:Hn; cbn [negb].
  { intros [= <-]. by rewrite printed_fs, Hn. }
  rewrite setup_bind.
  destruct (join_name a b Ha He Hb Hs) as (_ & _ & _ & Hsplit & _).
  destruct (makedirs (OsPath.join a b) s) as [[[]|n|e] s1] eqn:E; [|done..].
  unfold print. intros [= <-]. rewrite printed_fs.
  by eapply makedirs_from_done.
Qed.

(** A directory step on a path that exists only reports it. *)
Lemma ensure_directory_exists d s :
  is_Some (s_fs s !! d) →
  ensure_directory d s
  = (Done tt, printed [T "✓ Directory exists: "; T d] s).
Proof.
  intros [n Hn]. unfold ensure_directory. rewrite setup_get_fs.
  unfold FS.exists_. by rewrite Hn.
Qed.

(** One level below a directory. *)
Lemma ensure_directory_below a b s :
  a ≠ "" → Py.endswith a "/" = false →
  b ≠ "" → Py.contains OsPath.sep b = false →
  s_fs s !! a = Some Dir → s_fs s !! OsPath.join a b = None →
  ensure_directory (OsPath.join a b) s
  = (Done tt,
     printed [T "✓ Created directory: "; T (OsPath.join a b)]
       {| s_fs := <[OsPath.join a b := Dir]> (s_fs s); s_out := s_out s |}).
Proof.
  intros Ha He Hb Hs Hdir Hn. unfold ensure_directory. rewrite setup_get_fs.
  unfold FS.exists_. rewrite Hn. cbn [negb]. rewrite setup_bind.
  rewrite makedirs_join_exists by (by rewrite ?Hdir).
  destruct (join_name a b Ha He Hb Hs) as (_ & _ & _ & _ & Hdn & _).
  unfold mkdir. by rewrite Hdn, Hdir, Hn.
Qed.

(** Two levels below a directory: the level between is made when it is
    missing, and the step fails when it is a regular file. *)
Lemma ensure_directory_two a b c s :
  a ≠ "" → Py.endswith a "/" = false →
  b ≠ "" → Py.contains OsPath.sep b = false →
  c ≠ "" → Py.contains OsPath.sep c = false → c ≠ "." →
  s_fs s !! a = Some Dir →
  s_fs s !! OsPath.join (OsPath.join a b) c = None →
  match s_fs s !! OsPath.join a b with
  | Some (File _) =>
      ∃ e, ensure_directory (OsPath.join (OsPath.join a b) c) s = (Error e, s)
  | _ =>
      ensure_directory (OsPath.join (OsPath.join a b) c) s
      = (Done tt,
         printed [T "✓ Created directory: ";
                  T (OsPath.join (OsPath.join a b) c)]
           {| s_fs := <[OsPath.join (OsPath.join a b) c := Dir]>
                        (<[OsPath.join a b := Dir]> (s_fs s));
              s_out := s_out s |})
  end.
Proof.
  intros Ha He Hb Hs Hc Hcs Hdot Hdir Hleaf.
  destruct (join_name a b Ha He Hb Hs) as (_ & Hab & Heab & _).
  destruct (join_name _ c Hab Heab Hc Hcs) as (_ & _ & _ & _ & Hdn & _).
  destruct (s_fs s !! OsPath.join a b) as [[d|]|] eqn:Hmid.
  - unfold ensure_directory. rewrite setup_get_fs.
    unfold FS.exists_. rewrite Hleaf. cbn [negb]. rewrite setup_bind.
    rewrite makedirs_join_exists by (by rewrite ?Hmid).
    unfold mkdir. rewrite Hdn, Hmid. by eexists.
  - unfold ensure_directory. rewrite setup_get_fs.
    unfold FS.exists_. rewrite Hleaf. cbn [negb]. rewrite setup_bind.
    rewrite makedirs_join_exists by (by rewrite ?Hmid).
    unfold mkdir. rewrite Hdn, Hmid, Hleaf. unfold print.
    by rewrite (insert_id (s_fs s) _ _ Hmid).
  - unfold ensure_directory. rewrite setup_get_fs.
    unfold FS.exists_. rewrite Hleaf. cbn [negb]. rewrite setup_bind.
    by rewrite makedirs_join_missing.
Qed.

(** The two-level step, by its effect. *)
Lemma ensure_directory_two_spec a b c s :
  a ≠ "" → Py.endswith a "/" = false →
  b ≠ "" → Py.contains OsPath.sep b = false →
  c ≠ "" → Py.contains OsPath.sep c = false → c ≠ "." →
  s_fs s !! a = Some Dir →
  match ensure_directory (OsPath.join (OsPath.join a b) c) s with
  | (Done _, s') =>
      (is_Some (s_fs s !! OsPath.join (OsPath.join a b) c)
       ∨ is_file (s_fs s) (OsPath.join a b) = false)
      ∧ is_Some (s_fs s' !! OsPath.join (OsPath.join a b) c)
      ∧ (s_fs s !! OsPath.join (OsPath.join a b) c = None →
         s_fs s' !! OsPath.join (OsPath.join a b) c = Some Dir)
      ∧ s_fs s ⊆ s_fs s'
      ∧ (∀ p, p ≠ OsPath.join a b → p ≠ OsPath.join (OsPath.join a b) c →
              s_fs s' !! p = s_fs s !! p)
      ∧ is_file (s_fs s') (OsPath.join a b) = is_file (s_fs s) (OsPath.join a b)
  | (Error _, s') =>
      s' = s ∧ s_fs s !! OsPath.join (OsPath.join a b) c = None
      ∧ is_file (s_fs s) (OsPath.join a b) = true
  | (SysExit _, _) => False
  end.
Proof.
  intros Ha He Hb Hs Hc Hcs Hdot Hdir.
  destruct (join_name a b Ha He Hb Hs) as (_ & Hab & Heab & _).
  destruct (join_name _ c Hab Heab Hc Hcs) as (_ & _ & _ & _ & _ & Hne).
  destruct (s_fs s !! OsPath.join (OsPath.join a b) c) as [n|] eqn:Hleaf.
  { rewrite ensure_directory_exists by (by rewrite Hleaf).
    rewrite printed_fs, Hleaf. split_and!; [by left|done..]. }
  pose proof (ensure_directory_two a b c s Ha He Hb Hs Hc Hcs Hdot Hdir Hleaf)
    as Ht.
  unfold is_file.
  destruct (s_fs s !! OsPath.join a b) as [[d|]|] eqn:Hmid.
  - destruct Ht as [e ->]. done.
  - rewrite Ht. cbn [s_fs printed]. rewrite (insert_id _ _ _ Hmid).
    split_and!; [by right|by rewrite lookup_insert_eq|
                 by rewrite lookup_insert_eq|by apply insert_subseteq| |].
    + intros p _ Hp. by rewrite lookup_insert_ne.
    + by rewrite lookup_insert_ne, Hmid by done.
  - rewrite Ht. cbn [s_fs printed].
    split_and!; [by right|by rewrite lookup_insert_eq|
                 by rewrite lookup_insert_eq| | |].
    + etrans; [apply (insert_subseteq _ (OsPath.join a b) Dir Hmid)|].
      apply insert_subseteq. by rewrite lookup_insert_ne.
    + intros p Hp1 Hp2. by rewrite !lookup_insert_ne.
    + by rewrite lookup_insert_ne, lookup_insert_eq by done.
Qed.

(** The one-level step, by its effect. *)
Lemma ensure_directory_below_spec a b s :
  a ≠ "" → Py.endswith a "/" = false →
  b ≠ "" → Py.contains OsPath.sep b = false →
  s_fs s !! a = Some Dir →
  ∃ s', ensure_directory (OsPath.join a b) s = (Done tt, s')
        ∧ is_Some (s_fs s' !! OsPath.join a b)
        ∧ s_fs s ⊆ s_fs s'
        ∧ ∀ p, p ≠ OsPath.join a b → s_fs s' !! p = s_fs s !! p.
Proof.
  intros Ha He Hb Hs Hdir.
  destruct (s_fs s !! OsPath.join a b) as [n|] eqn:Hleaf.
  - rewrite ensure_directory_exists by (by rewrite Hleaf).
    eexists. split; [done|]. rewrite printed_fs, Hleaf. by split_and!.
  - rewrite ensure_directory_below by done.
    eexists. split; [done|]. cbn [s_fs printed].
    split_and!; [by rewrite lookup_insert_eq|by apply insert_subseteq|].
    intros p Hp. by rewrite lookup_insert_ne.
Qed.

Lemma create_readme_spec readme chunks s :
  match s_fs s !! readme with
  | Some _ =>
      create_readme readme chunks s
      = (Done tt, printed [T "✓ README exists: "; T readme] s)
  | None =>
      match s_fs s !! OsPath.dirname readme with
      | Some Dir =>
          create_readme readme chunks s
          = (Done tt,
             printed [T "✓ Created "; T readme]
               {| s_fs := <[readme := File (String.concat "" chunks)]> (s_fs s);
                  s_out := s_out s |})
      | _ => ∃ e, create_readme readme chunks s = (Error e, s)
      end
  end.
Proof.
  unfold create_readme. rewrite setup_get_fs. unfold FS.exists_.
  destruct (s_fs s !! readme) as [n|] eqn:Hn; cbn [negb]; [done|].
  rewrite setup_bind. unfold write_file. rewrite Hn.
  destruct (s_fs s !! OsPath.dirname readme) as [[d|]|]; [|done|];
    by eexists.
Qed.

Lemma create_readme_mono readme chunks s :
  s_fs s ⊆ s_fs (create_readme readme chunks s).2.
Proof.
  pose proof (create_readme_spec readme chunks s) as Hc.
  destruct (s_fs s !! readme) as [n|] eqn:Hn; [by rewrite Hc|].
  destruct (s_fs s !! OsPath.dirname readme) as [[d|]|].
  - destruct Hc as [e ->]. done.
  - rewrite Hc. simpl. by apply insert_subseteq.
  - destruct Hc as [e ->]. done.
Qed.

End setup_steps.

Section setup_layout.
Context `{Setup.Env}.
Import Setup.

Hypothesis Hroot : script_dir ≠ "".
Hypothesis Hslash : Py.endswith script_dir "/" = false.

Lemma layout_paths :
  images_dir = script_dir +:+ "/images"
  ∧ source_dir = script_dir +:+ "/images/source"
  ∧ output_dir = script_dir +:+ "/images/output"
  ∧ logs_dir = script_dir +:+ "/logs"
  ∧ source_readme = script_dir +:+ "/images/source/README.md"
  ∧ output_readme = script_dir +:+ "/images/output/README.md".
Proof.
  destruct (join_name script_dir "images" Hroot Hslash) as (HI & HIne & HIe & _);
    [done..|].
  destruct (join_name script_dir "logs" Hroot Hslash) as (HL & _); [done..|].
  destruct (join_name images_dir "source" HIne HIe) as (HS & HSne & HSe & _);
    [done..|].
  destruct (join_name images_dir "output" HIne HIe) as (HO & HOne & HOe & _);
    [done..|].
  destruct (join_name source_dir "README.md" HSne HSe) as (HSR & _); [done..|].
  destruct (join_name output_dir "README.md" HOne HOe) as (HOR & _); [done..|].
  unfold source_readme, output_readme, source_dir, output_dir, logs_dir,
    images_dir in *.
  rewrite HSR, HOR, HS, HO, HI, HL. rewrite !app_assoc_str.
  by split_and!.
Qed.

Lemma layout_dirname :
  OsPath.dirname images_dir = script_dir
  ∧ OsPath.dirname source_dir = images_dir
  ∧ OsPath.dirname output_dir = images_dir
  ∧ OsPath.dirname logs_dir = script_dir
  ∧ OsPath.dirname source_readme = source_dir
  ∧ OsPath.dirname output_readme = output_dir.
Proof.
  destruct (join_name script_dir "images" Hroot Hslash)
    as (_ & HIne & HIe & _ & HId & _); [done..|].
  destruct (join_name script_dir "logs" Hroot Hslash)
    as (_ & _ & _ & _ & HLd & _); [done..|].
  destruct (join_name images_dir "source" HIne HIe)
    as (_ & HSne & HSe & _ & HSd & _); [done..|].
  destruct (join_name images_dir "output" HIne HIe)
    as (_ & HOne & HOe & _ & HOd & _); [done..|].
  destruct (join_name source_dir "README.md" HSne HSe)
    as (_ & _ & _ & _ & HSRd & _); [done..|].
  destruct (join_name output_dir "README.md" HOne HOe)
    as (_ & _ & _ & _ & HORd & _); [done..|].
  by split_and!.
Qed.

Lemma app_literal_neq (r x y : string) : x ≠ y → r +:+ x ≠ r +:+ y.
Proof. intros Hxy E. by apply app_inv_head_str in E. Qed.

Lemma app_literal_neq_root (r x : string) : x ≠ "" → r +:+ x ≠ r ∧ r ≠ r +:+ x.
Proof.
  intros Hx. split; intros E; apply Hx.
  - rewrite <- (app_nil_r_str r) in E at 2. by apply app_inv_head_str in E.
  - rewrite <- (app_nil_r_str r) in E at 1. by apply app_inv_head_str in E.
Qed.


Ltac layout_neq :=
  let HI := fresh in let HS := fresh in let HO := fresh in
  let HL := fresh in let HSR := fresh in let HOR := fresh in
  destruct layout_paths as (HI & HS & HO & HL & HSR & HOR);
  unfold source_readme, output_readme, source_dir, output_dir, logs_dir,
    images_dir in *;
  rewrite ?HSR, ?HOR, ?HS, ?HO, ?HI, ?HL;
  first [ by apply app_literal_neq
        | by apply app_literal_neq_root ].

Lemma layout_distinct :
  images_dir ≠ source_dir ∧ images_dir ≠ output_dir ∧ images_dir ≠ logs_dir
  ∧ source_dir ≠ output_dir ∧ source_dir ≠ logs_dir ∧ output_dir ≠ logs_dir
  ∧ source_readme ≠ output_readme
  ∧ source_readme ∉ [images_dir; source_dir; output_dir; logs_dir]
  ∧ output_readme ∉ [images_dir; source_dir; output_dir; logs_dir].
Proof.
  split_and!; try layout_neq.
  - rewrite !not_elem_of_cons. split_and!; try layout_neq. apply not_elem_of_nil.
  - rewrite !not_elem_of_cons. split_and!; try layout_neq. apply not_elem_of_nil.
Qed.

(** The three directory steps. *)
Lemma directories_phase s :
  s_fs s !! script_dir = Some Dir →
  match directories_loop directories s with
  | (Done _, s1) =>
      s_fs s ⊆ s_fs s1
      ∧ is_Some (s_fs s1 !! source_dir)
      ∧ is_Some (s_fs s1 !! output_dir)
      ∧ is_Some (s_fs s1 !! logs_dir)
      ∧ (s_fs s !! source_dir = None → s_fs s1 !! source_dir = Some Dir)
      ∧ (s_fs s !! output_dir = None → s_fs s1 !! output_dir = Some Dir)
      ∧ (∀ p, p ∉ [images_dir; source_dir; output_dir; logs_dir] →
              s_fs s1 !! p = s_fs s !! p)
      ∧ (is_file (s_fs s) images_dir = false
         ∨ is_Some (s_fs s !! source_dir) ∧ is_Some (s_fs s !! output_dir))
      ∧ is_file (s_fs s1) images_dir = is_file (s_fs s) images_dir
  | (Error _, s1) =>
      s_fs s ⊆ s_fs s1
      ∧ is_file (s_fs s) images_dir = true
      ∧ (s_fs s !! source_dir = None ∨ s_fs s !! output_dir = None)
  | (SysExit _, _) => False
  end.
Proof.
  intros Hdir.
  destruct layout_distinct as (HIS & HIO & HIL & HSO & HSL & HOL & _).
  unfold directories. fold images_dir. fold source_dir. fold output_dir.
  fold logs_dir. cbn [directories_loop]. rewrite setup_bind.
  pose proof (ensure_directory_two_spec script_dir "images" "source" s
                Hroot Hslash) as H1.
  fold images_dir in H1. fold source_dir in H1.
  destruct (ensure_directory source_dir s) as [[[]|n|e] s1].
  2:{ by apply H1. }
  2:{ destruct H1 as (-> & Hn & Hf); [done..|]. split_and!; [done|done|by left]. }
  destruct H1 as (Hor1 & HS1 & HSn & Hsub1 & Hfr1 & Hfile1); [done..|].
  rewrite setup_bind.
  pose proof (ensure_directory_two_spec script_dir "images" "output" s1
                Hroot Hslash) as H2.
  fold images_dir in H2. fold output_dir in H2.
  assert (s_fs s1 !! script_dir = Some Dir) as Hdir1
    by (by eapply lookup_weaken).
  assert (s_fs s1 !! output_dir = s_fs s !! output_dir) as HO1
    by (by apply Hfr1).
  destruct (ensure_directory output_dir s1) as [[[]|n|e] s2].
  2:{ by apply H2. }
  2:{ destruct H2 as (-> & Hn & Hf); [done..|].
      split_and!; [done|by rewrite <- Hfile1|right; by rewrite <- HO1]. }
  destruct H2 as (Hor2 & HO2 & HOn & Hsub2 & Hfr2 & Hfile2); [done..|].
  rewrite setup_bind.
  assert (s_fs s2 !! script_dir = Some Dir) as Hdir2
    by (by eapply lookup_weaken).
  destruct (ensure_directory_below_spec script_dir "logs" s2 Hroot Hslash)
    as (s3 & E3 & HL3 & Hsub3 & Hfr3); [done..|].
  fold logs_dir in E3, HL3, Hfr3. rewrite E3.
  change ((mret () : P unit) s3) with (Done (), s3).
  split_and!.
  - by etrans; [|etrans].
  - eapply lookup_weaken_is_Some; [|done]. by eapply lookup_weaken_is_Some.
  - by eapply lookup_weaken_is_Some.
  - done.
  - intros Hn. eapply lookup_weaken; [|done]. eapply lookup_weaken; [|done]. auto.
  - intros Hn. eapply lookup_weaken; [|done]. apply HOn. by rewrite HO1.
  - intros p Hp. rewrite !not_elem_of_cons in Hp.
    destruct Hp as (? & ? & ? & ? & _).
    rewrite Hfr3, Hfr2, Hfr1 by done. done.
  - destruct Hor1 as [HS0|?]; [|by left].
    destruct Hor2 as [HO0|Hf]; [right|left].
    + split; [done|]. by rewrite <- HO1.
    + by rewrite <- Hfile1.
  - rewrite <- Hfile1, <- Hfile2. unfold is_file. by rewrite Hfr3.
Qed.

(** The two README steps. *)
Lemma readmes_phase s :
  match create_readme_files s with
  | (Done _, s2) =>
      s_fs s ⊆ s_fs s2
      ∧ is_Some (s_fs s2 !! source_readme)
      ∧ is_Some (s_fs s2 !! output_readme)
      ∧ (s_fs s !! source_readme = None →
         s_fs s !! source_dir = Some Dir
         ∧ s_fs s2 !! source_readme
           = Some (File (String.concat "" source_readme_chunks)))
      ∧ (s_fs s !! output_readme = None →
         s_fs s !! output_dir = Some Dir
         ∧ s_fs s2 !! output_readme
           = Some (File (String.concat "" output_readme_chunks)))
      ∧ (∀ p, p ≠ source_readme → p ≠ output_readme →
              s_fs s2 !! p = s_fs s !! p)
  | (Error _, s2) =>
      s_fs s ⊆ s_fs s2
      ∧ (s_fs s !! source_readme = None ∧ s_fs s !! source_dir ≠ Some Dir
         ∨ s_fs s !! output_readme = None ∧ s_fs s !! output_dir ≠ Some Dir)
  | (SysExit _, _) => False
  end.
Proof.
  destruct layout_dirname as (_ & _ & _ & _ & HdS & HdO).
  destruct layout_distinct as (_ & _ & _ & _ & _ & _ & Hrr & HSR & HOR).
  rewrite !not_elem_of_cons in HSR, HOR.
  destruct HSR as (_ & _ & HSRO & _), HOR as (_ & HORS & HORO & _).
  unfold create_readme_files. rewrite setup_bind.
  pose proof (create_readme_spec source_readme source_readme_chunks s) as H1.
  rewrite HdS in H1.
  assert (∀ s1 : state,
    s_fs s ⊆ s_fs s1 →
    is_Some (s_fs s1 !! source_readme) →
    (s_fs s !! source_readme = None →
     s_fs s !! source_dir = Some Dir
     ∧ s_fs s1 !! source_readme
       = Some (File (String.concat "" source_readme_chunks))) →
    (∀ p, p ≠ source_readme → s_fs s1 !! p = s_fs s !! p) →
    match create_readme output_readme output_readme_chunks s1 with
    | (Done _, s2) =>
        s_fs s ⊆ s_fs s2
        ∧ is_Some (s_fs s2 !! source_readme)
        ∧ is_Some (s_fs s2 !! output_readme)
        ∧ (s_fs s !! source_readme = None →
           s_fs s !! source_dir = Some Dir
           ∧ s_fs s2 !! source_readme
             = Some (File (String.concat "" source_readme_chunks)))
        ∧ (s_fs s !! output_readme = None →
           s_fs s !! output_dir = Some Dir
           ∧ s_fs s2 !! output_readme
             = Some (File (String.concat "" output_readme_chunks)))
        ∧ (∀ p, p ≠ source_readme → p ≠ output_readme →
                s_fs s2 !! p = s_fs s !! p)
    | (Error _, s2) =>
        s_fs s ⊆ s_fs s2
        ∧ (s_fs s !! source_readme = None ∧ s_fs s !! source_dir ≠ Some Dir
           ∨ s_fs s !! output_readme = None ∧ s_fs s !! output_dir ≠ Some Dir)
    | (SysExit _, _) => False
    end) as Hsecond.
  { intros s1 Hsub HSR1 HSRn Hfr.
    pose proof (create_readme_spec output_readme output_readme_chunks s1) as H2.
    rewrite HdO in H2. rewrite !Hfr in H2 by done.
    destruct (s_fs s !! output_readme) as [n|] eqn:HORn.
    - rewrite H2. rewrite printed_fs.
      split_and!; [done|done|by rewrite Hfr, HORn|done|done|].
      intros p Hp _. by apply Hfr.
    - destruct (s_fs s !! output_dir) as [[d|]|] eqn:HOn.
      + destruct H2 as [e ->]. split; [done|]. by right.
      + rewrite H2. cbn [s_fs printed].
        split_and!.
        * etrans; [done|]. apply insert_subseteq. by rewrite Hfr.
        * by rewrite lookup_insert_ne.
        * by rewrite lookup_insert_eq.
        * intros Hn. destruct (HSRn Hn) as [? ?]. split; [done|].
          by rewrite lookup_insert_ne.
        * intros _. split; [done|]. by rewrite lookup_insert_eq.
        * intros p Hp1 Hp2. rewrite lookup_insert_ne by done. by apply Hfr.
      + destruct H2 as [e ->]. split; [done|]. by right. }
  destruct (s_fs s !! source_readme) as [n|] eqn:HSRn.
  - rewrite H1. apply Hsecond; rewrite ?printed_fs; done.
  - destruct (s_fs s !! source_dir) as [[d|]|] eqn:HSn.
    + destruct H1 as [e ->]. split; [done|]. by left.
    + rewrite H1. apply Hsecond; cbn [s_fs printed].
      * by apply insert_subseteq.
      * by rewrite lookup_insert_eq.
      * intros _. split; [done|]. by rewrite lookup_insert_eq.
      * intros p Hp. by rewrite lookup_insert_ne.
    + destruct H1 as [e ->]. split; [done|]. by left.
Qed.


(** *** The whole script *)

Lemma check_python_version_ok s :
  3 < major sys_version_info
  ∨ major sys_version_info = 3 ∧ 7 ≤ minor sys_version_info →
  check_python_version s
  = (Done true,
     printed [T "✓ Python "; D (major sys_version_info); T ".";
              D (minor sys_version_info); T "."; D (micro sys_version_info);
              T " is compatible"] s).
Proof.
  intros Hv. unfold check_python_version.
  replace ((major sys_version_info <? 3)
           || ((major sys_version_info =? 3) && (minor sys_version_info <? 7)))
    with false; [done|].
  symmetry. apply orb_false_iff. split; [apply Z.ltb_ge; lia|].
  destruct Hv as [Hv|[Hv1 Hv2]].
  - apply andb_false_iff. left. apply Z.eqb_neq. lia.
  - apply andb_false_iff. right. apply Z.ltb_ge. lia.
Qed.


(** The missing packages are those that do not import, in order. *)
Lemma check_loop_spec packages missing s :
  ∃ out,
    check_loop packages missing s
    = (Done (missing
             ++ (fst <$> filter (λ pi, importable pi.2 = false) packages)),
       {| s_fs := s_fs s; s_out := s_out s ++ out |})
    ∧ length out = length packages.
Proof.
  revert missing s. induction packages as [|[pkg imp] packages IH];
    intros missing s.
  - exists []. simpl. rewrite !app_nil_r. by destruct s.
  - cbn [check_loop]. rewrite filter_cons. cbn [snd].
    destruct (importable imp) eqn:Hi.
    + rewrite setup_print. destruct (IH missing (printed [T "✓ "; T pkg;
                                        T " is already installed"] s))
        as (out & -> & Hlen).
      rewrite decide_False by done. eexists (_ :: out).
      cbn [printed s_fs s_out]. rewrite <- app_assoc. split; [done|].
      simpl. by rewrite Hlen.
    + rewrite setup_print.
      destruct (IH (missing ++ [pkg]) (printed [T "✗ "; T pkg;
                                         T " is not installed"] s))
        as (out & -> & Hlen).
      rewrite decide_True by done. eexists (_ :: out).
      cbn [printed s_fs s_out]. rewrite <- !app_assoc. split; [done|].
      simpl. by rewrite Hlen.
Qed.

Lemma check_dependencies_spec s :
  ∃ out,
    check_dependencies s
    = (let missing :=
         fst <$> filter (λ pi, importable pi.2 = false) required_packages in
       (Done (bool_decide (length missing = 0%nat), missing),
        {| s_fs := s_fs s; s_out := s_out s ++ out |})).
Proof.
  unfold check_dependencies.
  destruct (check_loop_spec required_packages [] s) as (out & E & _).
  exists out. by rewrite (setup_bind_Done _ _ _ _ _ E).
Qed.

Lemma nothing_missing :
  (∀ pkg imp, (pkg, imp) ∈ required_packages → importable imp = true) →
  filter (λ pi, importable pi.2 = false) required_packages = [].
Proof.
  intros Hi. unfold required_packages.
  rewrite !filter_cons, filter_nil. cbn [snd].
  rewrite (Hi "pillow-heif" "pillow_heif"), (Hi "Pillow" "PIL"),
    (Hi "reportlab" "reportlab") by (unfold required_packages; set_solver).
  by rewrite !decide_False.
Qed.

(** With a current Python and nothing to install, the script is its banner
    followed by the two phases. *)
Lemma main_bootstrap s :
  3 < major sys_version_info
  ∨ major sys_version_info = 3 ∧ 7 ≤ minor sys_version_info →
  (∀ pkg imp, (pkg, imp) ∈ required_packages → importable imp = true) →
  ∃ out0 out1,
    main s
    = match directories_loop directories
              {| s_fs := s_fs s; s_out := out0 |} with
      | (Done _, s1) =>
          match create_readme_files (printed [] s1) with
          | (Done _, s2) =>
              (Done tt, {| s_fs := s_fs s2; s_out := s_out s2 ++ out1 |})
          | (SysExit n, s2) => (SysExit n, s2)
          | (Error e, s2) => (Error e, s2)
          end
      | (SysExit n, s1) => (SysExit n, s1)
      | (Error e, s1) => (Error e, s1)
      end.
Proof.
  intros Hv Hi. unfold main. rewrite !setup_print.
  rewrite (setup_bind_Done _ _ _ _ _ (check_python_version_ok _ Hv)).
  cbn [negb]. rewrite setup_ret, setup_print.
  destruct (check_dependencies_spec
              (printed [] (printed [T "✓ Python "; D (major sys_version_info);
                 T "."; D (minor sys_version_info); T ".";
                 D (micro sys_version_info); T " is compatible"]
                 (printed [] (printed [T rule]
                   (printed [T "Image Converter Tool - Setup"]
                      (printed [T rule] s)))))))
    as (out & E).
  rewrite (setup_bind_Done _ _ _ _ _ E). clear E.
  rewrite (nothing_missing Hi). cbn [fmap list_fmap length bool_decide negb].
  rewrite bool_decide_eq_true_2 by done. cbn [negb].
  rewrite setup_ret, !setup_print. unfold setup_directories.
  rewrite setup_bind, setup_bind. cbn [printed s_fs s_out].
  match goal with
  | |- context [directories_loop directories (printed ?a ?st)] =>
      exists (s_out (printed a st)),
             ([[T nl; T rule]; [T "Setup Complete!"]; [T rule]] ++ next_steps);
      change (printed a st)
        with {| s_fs := s_fs s; s_out := s_out (printed a st) |}
  end.
  destruct (directories_loop directories _) as [[[]|n|e] s1]; [|done..].
  change ((mret true : P bool) s1) with (Done true, s1). cbv beta iota.
  rewrite setup_print, setup_bind.
  destruct (create_readme_files (printed [] s1)) as [[[]|n|e] s2]; [|done..].
  rewrite !setup_print, print_all_eq. cbn [printed s_fs s_out].
  by rewrite <- !app_assoc.
Qed.

Lemma consistent_inside fs p d :
  consistent fs → fs !! OsPath.dirname p = Some (File d) → fs !! p = None.
Proof.
  intros Hc Hd. destruct (fs !! p) as [n|] eqn:Hp; [|done].
  specialize (Hc p n Hp). cbv beta in Hc. unfold inside_file in Hc.
  by rewrite Hd in Hc.
Qed.

(** The outcome of the script on a machine that needs no installation. *)
Lemma main_spec s :
  3 < major sys_version_info
  ∨ major sys_version_info = 3 ∧ 7 ≤ minor sys_version_info →
  (∀ pkg imp, (pkg, imp) ∈ required_packages → importable imp = true) →
  s_fs s !! script_dir = Some Dir →
  consistent (s_fs s) →
  match main s with
  | (Done _, s') =>
      is_file (s_fs s) images_dir = false
      ∧ is_file (s_fs s) source_dir = false
      ∧ is_file (s_fs s) output_dir = false
      ∧ s_fs s ⊆ s_fs s'
      ∧ s_fs s' !! source_dir = Some Dir
      ∧ s_fs s' !! output_dir = Some Dir
      ∧ is_Some (s_fs s' !! logs_dir)
      ∧ is_Some (s_fs s' !! source_readme)
      ∧ is_Some (s_fs s' !! output_readme)
      ∧ (s_fs s !! source_readme = None →
         s_fs s' !! source_readme
         = Some (File (String.concat "" source_readme_chunks)))
      ∧ (s_fs s !! output_readme = None →
         s_fs s' !! output_readme
         = Some (File (String.concat "" output_readme_chunks)))
      ∧ (∀ p, p ∉ [images_dir; source_dir; output_dir; logs_dir;
                   source_readme; output_readme] →
              s_fs s' !! p = s_fs s !! p)
  | (Error _, s') =>
      s_fs s ⊆ s_fs s'
      ∧ is_file (s_fs s) images_dir || is_file (s_fs s) source_dir
        || is_file (s_fs s) output_dir = true
  | (SysExit _, _) => False
  end.
Proof.
  intros Hv Hi Hdir Hc.
  destruct (main_bootstrap s Hv Hi) as (out0 & out1 & ->).
  destruct layout_dirname as (_ & HdS & HdO & _ & HdSR & HdOR).
  destruct layout_distinct as (_ & _ & _ & _ & _ & _ & _ & HSR & HOR).
  pose proof (directories_phase {| s_fs := s_fs s; s_out := out0 |} Hdir) as H1.
  cbn [s_fs] in H1.
  destruct (directories_loop directories _) as [[[]|n|e] s1]; [|done|].
  2:{ destruct H1 as (Hsub & Hf & _). split; [done|]. by rewrite Hf. }
  destruct H1 as (Hsub1 & HS1 & HO1 & HL1 & HSn & HOn & Hfr1 & Hor & Hfile).
  pose proof (readmes_phase (printed [] s1)) as H2. rewrite printed_fs in H2.
  assert (is_file (s_fs s) images_dir = false) as HfI.
  { destruct Hor as [?|[[n Hn] _]]; [done|].
    specialize (Hc _ _ Hn). cbv beta in Hc. unfold inside_file in Hc.
    rewrite HdS in Hc. unfold is_file.
    by destruct (s_fs s !! images_dir) as [[]|]. }
  assert (∀ dir readme d,
            OsPath.dirname readme = dir →
            readme ∉ [images_dir; source_dir; output_dir; logs_dir] →
            s_fs s !! dir = Some (File d) →
            s_fs s1 !! readme = None ∧ s_fs s1 !! dir = Some (File d)) as Hfile_dir.
  { intros dir readme d Hdn Hnot Hd. split.
    - rewrite Hfr1 by done. apply (consistent_inside _ _ d Hc). by rewrite Hdn.
    - by eapply lookup_weaken. }
  destruct (create_readme_files (printed [] s1)) as [[[]|n|e] s2]; [|done|].
  - destruct H2 as (Hsub2 & HSR2 & HOR2 & HSRn & HORn & Hfr2).
    assert (is_file (s_fs s) source_dir = false) as HfS.
    { unfold is_file. destruct (s_fs s !! source_dir) as [[d|]|] eqn:HS0; [|done..].
      destruct (Hfile_dir _ _ d HdSR HSR HS0) as [Hn Hd].
      destruct (HSRn Hn) as [Hd' _]. congruence. }
    assert (is_file (s_fs s) output_dir = false) as HfO.
    { unfold is_file. destruct (s_fs s !! output_dir) as [[d|]|] eqn:HO0; [|done..].
      destruct (Hfile_dir _ _ d HdOR HOR HO0) as [Hn Hd].
      destruct (HORn Hn) as [Hd' _]. congruence. }
    cbn [s_fs].
    assert (∀ dir, is_file (s_fs s) dir = false →
                   is_Some (s_fs s1 !! dir) →
                   (s_fs s !! dir = None → s_fs s1 !! dir = Some Dir) →
                   s_fs s2 !! dir = Some Dir) as Hkind.
    { intros dir Hf [n Hn] Hnew. eapply lookup_weaken; [|done].
      unfold is_file in Hf.
      destruct (s_fs s !! dir) as [[d|]|] eqn:Hd0; [done| |by apply Hnew].
      by eapply lookup_weaken. }
    split_and!; try done.
    + by etrans.
    + by apply Hkind.
    + by apply Hkind.
    + by eapply lookup_weaken_is_Some.
    + intros Hn. apply HSRn. by rewrite Hfr1.
    + intros Hn. apply HORn. by rewrite Hfr1.
    + intros p Hp. rewrite !not_elem_of_cons in Hp.
      destruct Hp as (? & ? & ? & ? & ? & ? & _).
      rewrite Hfr2 by done. apply Hfr1. rewrite !not_elem_of_cons.
      by split_and!; [..|apply not_elem_of_nil].
  - destruct H2 as (Hsub2 & Hwhy). split; [by etrans|].
    assert (∀ dir, is_Some (s_fs s1 !! dir) →
                   (s_fs s !! dir = None → s_fs s1 !! dir = Some Dir) →
                   s_fs s1 !! dir ≠ Some Dir →
                   is_file (s_fs s) dir = true) as Hfile_of.
    { intros dir [n Hn] Hnew Hnd. unfold is_file.
      destruct (s_fs s !! dir) as [[d|]|] eqn:Hd0; [done| |].
      - exfalso. apply Hnd. by eapply lookup_weaken.
      - exfalso. by apply Hnd, Hnew. }
    destruct Hwhy as [[_ Hnd]|[_ Hnd]].
    + rewrite (Hfile_of source_dir) by done. by rewrite orb_true_r.
    + rewrite (Hfile_of output_dir) by done. by rewrite orb_true_r.
Qed.


(** X18.  The exit status of the set-up.  On a machine with a current Python
    and the three packages, for a script in an existing directory of a
    consistent file system: the status is 1 exactly when [images],
    [images/source] or [images/output] is a regular file, and 0 otherwise;
    in both cases every entry that was there is still there, unchanged. *)
Theorem setup_exit_status (s : state) :
  3 < major sys_version_info
  ∨ major sys_version_info = 3 ∧ 7 ≤ minor sys_version_info →
  (∀ pkg imp, (pkg, imp) ∈ required_packages → importable imp = true) →
  s_fs s !! script_dir = Some Dir →
  consistent (s_fs s) →
  (run s).1
  = (if is_file (s_fs s) images_dir || is_file (s_fs s) source_dir
        || is_file (s_fs s) output_dir
     then 1 else 0)
  ∧ s_fs s ⊆ s_fs (run s).2.
Proof.
  intros Hv Hi Hdir Hc. pose proof (main_spec s Hv Hi Hdir Hc) as Hm.
  unfold run. destruct (main s) as [[[]|n|e] s']; [|done|].
  - destruct Hm as (-> & -> & -> & Hsub & _). done.
  - destruct Hm as (Hsub & ->). done.
Qed.

(** X19.  The layout after a successful set-up (same assumptions, status 0):
    [images/source] and [images/output] are directories, [logs] exists, both
    README files exist, a README that was missing holds the text the script
    writes, and no path outside the layout has changed. *)
Theorem setup_success_layout (s : state) :
  3 < major sys_version_info
  ∨ major sys_version_info = 3 ∧ 7 ≤ minor sys_version_info →
  (∀ pkg imp, (pkg, imp) ∈ required_packages → importable imp = true) →
  s_fs s !! script_dir = Some Dir →
  consistent (s_fs s) →
  (run s).1 = 0 →
  s_fs (run s).2 !! source_dir = Some Dir
  ∧ s_fs (run s).2 !! output_dir = Some Dir
  ∧ is_Some (s_fs (run s).2 !! logs_dir)
  ∧ is_Some (s_fs (run s).2 !! source_readme)
  ∧ is_Some (s_fs (run s).2 !! output_readme)
  ∧ (s_fs s !! source_readme = None →
     s_fs (run s).2 !! source_readme
     = Some (File (String.concat "" source_readme_chunks)))
  ∧ (s_fs s !! output_readme = None →
     s_fs (run s).2 !! output_readme
     = Some (File (String.concat "" output_readme_chunks)))
  ∧ (∀ p, p ∉ [images_dir; source_dir; output_dir; logs_dir;
               source_readme; output_readme] →
          s_fs (run s).2 !! p = s_fs s !! p).
Proof.
  intros Hv Hi Hdir Hc. pose proof (main_spec s Hv Hi Hdir Hc) as Hm.
  unfold run. destruct (main s) as [[[]|n|e] s']; [|done..].
  intros _. cbn [snd]. by destruct Hm as (_ & _ & _ & _ & Hrest).
Qed.


(** *** What the script keeps *)

Lemma only_adds_bind {A B} (m : P A) (f : A → P B) :
  only_adds m → (∀ a, only_adds (f a)) → only_adds (m ≫= f).
Proof.
  intros Hm Hf s. rewrite setup_bind. specialize (Hm s).
  destruct (m s) as [[a|n|e] s1]; [|done..].
  etrans; [done|]. apply Hf.
Qed.

Lemma only_adds_print line : only_adds (print line).
Proof. by intros s. Qed.

Lemma only_adds_ret {A} (a : A) : only_adds (mret a : P A).
Proof. by intros s. Qed.

Lemma only_adds_sys_exit {A} n : only_adds (sys_exit n : P A).
Proof. by intros s. Qed.

Lemma only_adds_print_all lines : only_adds (print_all lines).
Proof. intros s. by rewrite print_all_eq. Qed.

Lemma only_adds_check_python_version : only_adds check_python_version.
Proof.
  unfold check_python_version. destruct (_ || _);
    (apply only_adds_bind; [apply only_adds_print|intros; apply only_adds_ret]).
Qed.

Lemma only_adds_check_dependencies : only_adds check_dependencies.
Proof.
  intros s. destruct (check_dependencies_spec s) as (out & ->). done.
Qed.

Lemma only_adds_install_loop missing :
  (∀ fs name, fs ⊆ (pip_install fs name).2) →
  only_adds (install_loop missing).
Proof.
  intros Hpip. induction missing as [|package rest IH];
    [apply only_adds_ret|].
  cbn [install_loop]. apply only_adds_bind; [apply only_adds_print|].
  intros _. apply only_adds_bind.
  - intros s. unfold install_package. specialize (Hpip (s_fs s) package).
    by destruct (pip_install (s_fs s) package) as [[e|] fs].
  - intros [].
    + apply only_adds_bind; [apply only_adds_print|done].
    + repeat (apply only_adds_bind; [apply only_adds_print|intros _]).
      apply only_adds_sys_exit.
Qed.

Lemma only_adds_directories_loop dirs : only_adds (directories_loop dirs).
Proof.
  induction dirs as [|d dirs IH]; [apply only_adds_ret|].
  cbn [directories_loop]. apply only_adds_bind; [|done].
  intros s. apply ensure_directory_mono.
Qed.

Lemma only_adds_create_readme_files : only_adds create_readme_files.
Proof.
  unfold create_readme_files. apply only_adds_bind.
  - intros s. apply create_readme_mono.
  - intros _ s. apply create_readme_mono.
Qed.

Lemma only_adds_main :
  (∀ fs name, fs ⊆ (pip_install fs name).2) → only_adds main.
Proof.
  intros Hpip. unfold main.
  repeat (apply only_adds_bind; [apply only_adds_print|intros _]).
  apply only_adds_bind; [apply only_adds_check_python_version|intros ok].
  apply only_adds_bind.
  { destruct ok; [apply only_adds_ret|apply only_adds_sys_exit]. }
  intros _. apply only_adds_bind; [apply only_adds_print|intros _].
  apply only_adds_bind; [apply only_adds_check_dependencies|].
  intros [dependencies_ok missing_packages].
  apply only_adds_bind.
  { destruct dependencies_ok; [apply only_adds_ret|].
    repeat (apply only_adds_bind; [apply only_adds_print|intros _]).
    by apply only_adds_install_loop. }
  intros _.
  repeat (apply only_adds_bind; [apply only_adds_print|intros _]).
  apply only_adds_bind.
  { unfold setup_directories. apply only_adds_bind;
      [apply only_adds_directories_loop|intros; apply only_adds_ret]. }
  intros _. apply only_adds_bind; [apply only_adds_print|intros _].
  apply only_adds_bind; [apply only_adds_create_readme_files|intros _].
  do 3 (apply only_adds_bind; [apply only_adds_print|intros _]).
  apply only_adds_print_all.
Qed.

(** X20.  The script never removes, replaces or rewrites anything.  Provided pip
    itself keeps the entries it finds, every path that holds a file or a
    directory before the run holds the same afterwards, whatever the exit
    status: an existing README keeps its bytes, an existing directory its
    content. *)
Theorem setup_keeps_existing (s : state) (p : string) (n : node) :
  (∀ fs name, fs ⊆ (pip_install fs name).2) →
  s_fs s !! p = Some n →
  s_fs (run s).2 !! p = Some n.
Proof.
  intros Hpip Hp. eapply lookup_weaken; [done|].
  pose proof (only_adds_main Hpip s) as Hm. unfold run.
  by destruct (main s) as [[[]|k|e] s'].
Qed.


(** X22.  The first package that fails to install ends the script with status 1:
    the packages after it are not tried and no directory or README is made,
    so the file system is the one that pip run left. *)
Theorem failed_install_stops_setup (s : state) (package : string)
    (rest : list string) (e : exn) (fs' : filesystem) :
  3 < major sys_version_info
  ∨ major sys_version_info = 3 ∧ 7 ≤ minor sys_version_info →
  fst <$> filter (λ pi, importable pi.2 = false) required_packages
  = package :: rest →
  pip_install (s_fs s) package = (Some e, fs') →
  (run s).1 = 1
  ∧ s_fs (run s).2 = fs'
  ∧ ∃ out,
      s_out (run s).2
      = out ++ [[T nl; T "Installing "; T package; T "..."];
                [T "Error installing "; T package; T ": "; T e];
                [T "✗ Failed to install "; T package];
                [T "Please try installing manually: pip install -r requirements.txt"]].
Proof.
  intros Hv Hmiss Hpip.
  assert (∃ out,
    run s
    = (1, {| s_fs := fs';
             s_out := out
               ++ [[T nl; T "Installing "; T package; T "..."];
                   [T "Error installing "; T package; T ": "; T e];
                   [T "✗ Failed to install "; T package];
                   [T "Please try installing manually: pip install -r requirements.txt"]] |}))
    as (out & ->); [|split_and!; [done..|by exists out]].
  unfold run, main. rewrite !setup_print.
  rewrite (setup_bind_Done _ _ _ _ _ (check_python_version_ok _ Hv)).
  cbn [negb]. rewrite setup_ret, setup_print.
  match goal with
  | |- context [(check_dependencies ≫= _) ?st] =>
      destruct (check_dependencies_spec st) as (out & E)
  end.
  rewrite (setup_bind_Done _ _ _ _ _ E). clear E. rewrite Hmiss.
  rewrite bool_decide_eq_false_2 by done. cbn [negb].
  rewrite setup_bind, !setup_print. cbn [install_loop].
  rewrite setup_print, setup_bind. unfold install_package at 1.
  unfold printed at 1 2 3 4 5 6 7 8 9 10 11. cbn [s_fs s_out]. rewrite Hpip.
  rewrite !setup_print. unfold sys_exit. unfold printed. cbn [s_fs s_out].
  match goal with
  | |- ∃ _, (_, {| s_fs := _;
                   s_out := (((?X ++ _) ++ _) ++ _) ++ _ |}) = _ => exists X
  end.
  f_equal. f_equal. by rewrite <- !app_assoc.
Qed.


(** X23.  The dependency check.  It reports as missing exactly the packages
    whose module does not import, in the order of the list, answers [True]
    exactly when all three import, prints one line per package and touches
    no file. *)
Theorem check_dependencies_reports (s : state) :
  ∃ ok missing out,
    check_dependencies s
    = (Done (ok, missing), {| s_fs := s_fs s; s_out := s_out s ++ out |})
    ∧ length out = 3%nat
    ∧ missing
      = fst <$> filter (λ pi, importable pi.2 = false) required_packages
    ∧ (∀ pkg, pkg ∈ missing ↔
              ∃ imp, (pkg, imp) ∈ required_packages ∧ importable imp = false)
    ∧ (ok = true ↔
       ∀ pkg imp, (pkg, imp) ∈ required_packages → importable imp = true).
Proof.
  unfold check_dependencies.
  destruct (check_loop_spec required_packages [] s) as (out & E & Hlen).
  rewrite (setup_bind_Done _ _ _ _ _ E). cbn [app].
  set (missing := fst <$> filter (λ pi, importable pi.2 = false)
                              required_packages).
  assert (∀ pkg, pkg ∈ missing ↔
                 ∃ imp, (pkg, imp) ∈ required_packages
                        ∧ importable imp = false) as Hmem.
  { intros pkg. unfold missing. rewrite list_elem_of_fmap. split.
    - intros ([pkg' imp] & -> & Hin). apply list_elem_of_filter in Hin as [Hf Hin].
      by exists imp.
    - intros (imp & Hin & Hf). exists (pkg, imp). split; [done|].
      by apply list_elem_of_filter. }
  exists (bool_decide (length missing = 0%nat)), missing, out.
  split_and!; [done|done|done|done|].
  rewrite bool_decide_eq_true. split.
  - intros Hnil pkg imp Hin. destruct (importable imp) eqn:Hi; [done|].
    assert (pkg ∈ missing) as Hp by (apply Hmem; by exists imp).
    destruct missing; [by apply elem_of_nil in Hp|done].
  - intros Hall. destruct missing as [|pkg rest] eqn:Hm; [done|].
    destruct (proj1 (Hmem pkg)) as (imp & Hin & Hf); [left|].
    by rewrite (Hall pkg imp Hin) in Hf.
Qed.

End setup_layout.

(** ** Set-up, run again *)

Section setup_again.
Context `{Setup.Env}.
Import Setup.

Hypothesis Hroot : script_dir ≠ "".
Hypothesis Hslash : Py.endswith script_dir "/" = false.

Lemma directories_done s s1 :
  directories_loop directories s = (Done tt, s1) →
  is_Some (s_fs s1 !! source_dir) ∧ is_Some (s_fs s1 !! output_dir)
  ∧ is_Some (s_fs s1 !! logs_dir).
Proof.
  destruct (join_name script_dir "images" Hroot Hslash)
    as (_ & HIne & HIe & _); [done..|].
  unfold directories. fold images_dir. fold source_dir. fold output_dir.
  fold logs_dir. cbn [directories_loop]. rewrite setup_bind.
  destruct (ensure_directory source_dir s) as [[[]|n|e] sa] eqn:Ea; [|done..].
  rewrite setup_bind.
  destruct (ensure_directory output_dir sa) as [[[]|n|e] sb] eqn:Eb; [|done..].
  rewrite setup_bind.
  destruct (ensure_directory logs_dir sb) as [[[]|n|e] sc] eqn:Ec; [|done..].
  intros [= <-].
  pose proof (ensure_directory_mono output_dir sa) as Hab. rewrite Eb in Hab.
  pose proof (ensure_directory_mono logs_dir sb) as Hbc. rewrite Ec in Hbc.
  apply ensure_directory_done in Ea; [|done..].
  apply ensure_directory_done in Eb; [|done..].
  apply ensure_directory_done in Ec; [|done..].
  split_and!; [|by eapply lookup_weaken_is_Some|done].
  eapply lookup_weaken_is_Some; [|done]. by eapply lookup_weaken_is_Some.
Qed.

Lemma directories_exist s :
  is_Some (s_fs s !! source_dir) → is_Some (s_fs s !! output_dir) →
  is_Some (s_fs s !! logs_dir) →
  directories_loop directories s
  = (Done tt,
     {| s_fs := s_fs s;
        s_out := s_out s
          ++ [[T "✓ Directory exists: "; T source_dir];
              [T "✓ Directory exists: "; T output_dir];
              [T "✓ Directory exists: "; T logs_dir]] |}).
Proof.
  intros HS HO HL. unfold directories. fold images_dir. fold source_dir.
  fold output_dir. fold logs_dir. cbn [directories_loop].
  rewrite (setup_bind_Done _ _ _ _ _ (ensure_directory_exists _ _ HS)).
  rewrite (setup_bind_Done _ _ _ _ _
             (ensure_directory_exists output_dir (printed _ s) HO)).
  rewrite (setup_bind_Done _ _ _ _ _
             (ensure_directory_exists logs_dir (printed _ (printed _ s)) HL)).
  unfold printed. cbn [s_fs s_out]. by rewrite <- !app_assoc.
Qed.

Lemma readmes_exist s :
  is_Some (s_fs s !! source_readme) → is_Some (s_fs s !! output_readme) →
  create_readme_files s
  = (Done tt,
     {| s_fs := s_fs s;
        s_out := s_out s
          ++ [[T "✓ README exists: "; T source_readme];
              [T "✓ README exists: "; T output_readme]] |}).
Proof.
  intros [n Hn] [m Hm]. unfold create_readme_files.
  pose proof (create_readme_spec source_readme source_readme_chunks s) as H1.
  rewrite Hn in H1. rewrite (setup_bind_Done _ _ _ _ _ H1).
  pose proof (create_readme_spec output_readme output_readme_chunks
                (printed [T "✓ README exists: "; T source_readme] s)) as H2.
  rewrite printed_fs, Hm in H2. rewrite H2.
  unfold printed. cbn [s_fs s_out]. by rewrite <- !app_assoc.
Qed.

Lemma mkdir_no_exit p s n : (mkdir p s).1 ≠ SysExit n.
Proof.
  pose proof (mkdir_spec p s) as Hm. by destruct (mkdir p s) as [[[]|?|?] ?].
Qed.

Lemma makedirs_from_no_exit depth p s n :
  (makedirs_from depth p s).1 ≠ SysExit n.
Proof.
  revert p s. induction depth as [|depth IH]; intros p s; [done|].
  rewrite makedirs_from_S.
  destruct (OsPath.split p) as [h t].
  destruct (if negb (Py.truthy t) then OsPath.split h else (h, t)) as [h' t'].
  rewrite setup_get_fs. cbv beta.
  destruct (_ && _); [|apply mkdir_no_exit].
  rewrite setup_bind. unfold try_except. specialize (IH h' s).
  destruct (makedirs_from depth h' s) as [[[]|?|e'] s3]; simpl in IH.
  - destruct (String.eqb t' "."); [done|apply mkdir_no_exit].
  - done.
  - destruct (is_FileExistsError e'); [|done].
    change ((mret () : P unit) s3) with (Done (), s3). cbv beta iota.
    destruct (String.eqb t' "."); [done|apply mkdir_no_exit].
Qed.

Lemma directories_loop_no_exit dirs s n :
  (directories_loop dirs s).1 ≠ SysExit n.
Proof.
  revert s. induction dirs as [|d dirs IH]; intros s; [done|].
  cbn [directories_loop]. rewrite setup_bind.
  unfold ensure_directory at 1. rewrite setup_get_fs. cbv beta.
  destruct (negb _); [|apply IH].
  rewrite setup_bind. unfold makedirs.
  pose proof (makedirs_from_no_exit (String.length d) d s n) as Hm.
  destruct (makedirs_from _ d s) as [[[]|?|?] s1]; [apply IH|done|done].
Qed.

(** X24.  Running the set-up again is safe.  After a run that ended with status
    0 (current Python, nothing to install), a second run also ends with
    status 0 and leaves the file system exactly as the first run left it: it
    makes no directory and rewrites no README. *)
Theorem setup_idempotent (s : state) :
  3 < major sys_version_info
  ∨ major sys_version_info = 3 ∧ 7 ≤ minor sys_version_info →
  (∀ pkg imp, (pkg, imp) ∈ required_packages → importable imp = true) →
  (run s).1 = 0 →
  (run (run s).2).1 = 0 ∧ s_fs (run (run s).2).2 = s_fs (run s).2.
Proof.
  intros Hv Hi.
  assert (∀ s0, (run s0).1 = 0 →
                ∃ s1, run s0 = (0, s1)
                      ∧ is_Some (s_fs s1 !! source_dir)
                      ∧ is_Some (s_fs s1 !! output_dir)
                      ∧ is_Some (s_fs s1 !! logs_dir)
                      ∧ is_Some (s_fs s1 !! source_readme)
                      ∧ is_Some (s_fs s1 !! output_readme)) as Hfirst.
  { intros s0. unfold run.
    destruct (main_bootstrap Hroot Hslash s0 Hv Hi) as (out0 & out1 & ->).
    pose proof (directories_loop_no_exit directories
                  {| s_fs := s_fs s0; s_out := out0 |}) as Hno.
    destruct (directories_loop directories _) as [[[]|n|e] s1] eqn:E1.
    2:{ by destruct (Hno n). }
    2:{ cbn. done. }
    pose proof (readmes_phase Hroot Hslash (printed [] s1)) as H2.
    destruct (create_readme_files (printed [] s1)) as [[[]|n|e] s2] eqn:E2;
      [|done|cbn; done].
    intros _. eexists. split; [done|]. cbn [s_fs].
    destruct H2 as (Hsub2 & HSR2 & HOR2 & _). rewrite printed_fs in Hsub2.
    destruct (directories_done _ _ E1) as (HS1 & HO1 & HL1).
    split_and!; [by eapply lookup_weaken_is_Some..|done|done]. }
  intros Hrun. destruct (Hfirst s Hrun) as (s1 & -> & HS & HO & HL & HSR & HOR).
  cbn [snd]. unfold run.
  destruct (main_bootstrap Hroot Hslash s1 Hv Hi) as (out0 & out1 & ->).
  rewrite directories_exist by done. cbn [s_fs].
  rewrite readmes_exist by (by rewrite printed_fs). done.
Qed.

End setup_again.
(** ** The set-up and the engine together *)

Section setup_and_engine.
Context `{Host} `{Setup.Env}.
Import ConvertHeic.

Hypothesis Hroot : Setup.script_dir ≠ "".
Hypothesis Hslash : Py.endswith Setup.script_dir "/" = false.
(** Both scripts belong to one project: [setup.py] lies in the project
    root, the engine in [src/] below it. *)
Hypothesis Hproject : project_root = Setup.script_dir.

Lemma defaults_layout :
  ns_source defaults = Setup.source_dir ∧ ns_output defaults = Setup.output_dir.
Proof.
  unfold defaults. cbn [ns_source ns_output]. by rewrite Hproject.
Qed.

Lemma output_name_no_sep file fmt :
  Py.contains OsPath.sep (base_name_of file +:+ output_ext fmt) = false.
Proof.
  rewrite contains_app, base_name_no_sep. unfold output_ext.
  destruct (String.eqb _ _); [done|]. by case_bool_decide.
Qed.

Lemma output_name_not_readme file fmt :
  base_name_of file +:+ output_ext fmt ≠ "README.md".
Proof.
  intros E. pose proof (endswith_app (base_name_of file) (output_ext fmt)) as He.
  rewrite E in He. revert He. unfold output_ext.
  destruct (String.eqb _ _); [done|]. by case_bool_decide.
Qed.

(** [os.makedirs] on a directory that is there, two levels below a
    directory that is there: the level between is made if it is missing. *)
Lemma makedirs_below root a b w :
  root ≠ "" → Py.endswith root "/" = false →
  a ≠ "" → Py.contains OsPath.sep a = false →
  b ≠ "" → Py.contains OsPath.sep b = false → b ≠ "." →
  w_fs w !! root = Some Dir →
  w_fs w !! OsPath.join (OsPath.join root a) b = Some Dir →
  ∃ w1, Os.makedirs (OsPath.join (OsPath.join root a) b) w = (Ok tt, w1)
        ∧ made_dirs w w1.
Proof.
  intros Hr Hre Ha Has Hb Hbs Hdot Hroot_dir Hd.
  destruct (join_name root a Hr Hre Ha Has)
    as (_ & Hane & Hae & Hasplit & Hadir & _).
  destruct (join_name (OsPath.join root a) b Hane Hae Hb Hbs)
    as (_ & Hbne & _ & Hbsplit & _ & Hbneq).
  set (mid := OsPath.join root a) in *.
  set (name := OsPath.join mid b) in *.
  pose proof (makedirs_made name w) as Hmade.
  assert (∃ w1, Os.makedirs name w = (Ok tt, w1)) as [w1 E];
    [|exists w1; split; [done|]; by rewrite E in Hmade].
  clear Hmade. unfold Os.makedirs. cbn [Os.makedirs_from].
  rewrite Hbsplit.
  assert (Py.truthy b = true) as Hbt by (by destruct b).
  rewrite Hbt. cbn [negb].
  rewrite bind_unfold. unfold get_fs at 1. cbv beta iota.
  assert (Py.truthy mid = true) as Hmt by (by destruct mid).
  rewrite Hmt, Hbt. cbn [andb].
  destruct (FS.exists_ (w_fs w) mid) eqn:Hex; cbn [negb].
  { exists w. by apply mkdir_exist_ok_existing. }
  assert (w_fs w !! mid = None) as Hnone.
  { unfold FS.exists_ in Hex. by destruct (w_fs w !! mid). }
  assert (String.eqb b "." = false) as -> by (by apply String.eqb_neq).
  destruct (String.length name) as [|n] eqn:Hlen.
  { by destruct name. }
  rewrite bind_unfold. unfold try_except at 1.
  cbn [Os.makedirs_from]. rewrite Hasplit.
  assert (Py.truthy a = true) as Hat by (by destruct a).
  rewrite Hat. cbn [negb].
  rewrite bind_unfold. unfold get_fs at 1. cbv beta iota.
  assert (FS.exists_ (w_fs w) root = true) as ->
    by (unfold FS.exists_; by rewrite Hroot_dir).
  rewrite Hat, andb_false_r.
  unfold Os.mkdir_exist_ok at 1, try_except at 1.
  unfold Os.mkdir at 1. rewrite bind_unfold. unfold get_fs at 1.
  cbv beta iota. rewrite bind_unfold. unfold lift at 1, FS.mkdir.
  rewrite Hmt. cbn [negb]. rewrite Hadir.
  assert (Py.truthy root = true) as -> by (by destruct root).
  rewrite Hroot_dir, Hnone. unfold set_fs at 1.
  eexists. apply mkdir_exist_ok_existing. cbn [w_fs].
  rewrite lookup_insert_ne; [done|]. intros E. by apply Hbneq.
Qed.

(** A batch run on the default folders keeps both READMEs, but for lines
    appended to one that is the log file. *)
Lemma batch_keeps_readmes fmt q ps clear w st w' :
  convert_images Setup.source_dir Setup.output_dir fmt q ps clear w
  = (Ok st, w') →
  is_Some (w_fs w !! Setup.source_readme) →
  is_Some (w_fs w !! Setup.output_readme) →
  kept_at (log_path w) Setup.source_readme (w_fs w) (w_fs w')
  ∧ kept_at (log_path w) Setup.output_readme (w_fs w) (w_fs w').
Proof.
  intros E [nS HnS] [nO HnO].
  destruct (convert_images_frame _ _ _ _ _ _ _ _ _ E) as (w1 & _ & _ & Hframe).
  destruct (layout_dirname Hroot Hslash) as (_ & _ & _ & _ & HdSR & HdOR).
  destruct (layout_distinct Hroot Hslash)
    as (_ & _ & _ & HSO & _ & _ & _ & HSR & HOR).
  rewrite !not_elem_of_cons in HSR, HOR.
  destruct HSR as (_ & _ & HSRO & _), HOR as (_ & _ & HORO & _).
  destruct (join_name Setup.script_dir "images" Hroot Hslash)
    as (_ & HIne & HIe & _); [done..|].
  destruct (join_name Setup.images_dir "output" HIne HIe)
    as (_ & HOne & HOe & _); [done..|].
  fold Setup.output_dir in HOne, HOe.
  assert (∀ n, Py.contains OsPath.sep n = false →
               OsPath.dirname (OsPath.join Setup.output_dir n)
               = Setup.output_dir) as Hdn.
  { intros n Hn. unfold OsPath.dirname. by rewrite split_join. }
  split.
  - destruct (Hframe Setup.source_readme)
      as [(g & _ & Hp)|[[Hn _]|[?|[(_ & d & _ & _ & n & Hp & Hn & _)|?]]]];
      [|congruence|by left| |by right].
    + exfalso. apply (f_equal OsPath.dirname) in Hp. unfold output_path_of in Hp.
      rewrite HdSR, Hdn in Hp by apply output_name_no_sep. done.
    + exfalso. apply (f_equal OsPath.dirname) in Hp.
      rewrite HdSR, Hdn in Hp by done. done.
  - destruct (Hframe Setup.output_readme)
      as [(g & _ & Hp)|[[Hn _]|[?|[(_ & d & _ & _ & n & Hp & Hn & _ & Hl)|?]]]];
      [|congruence|by left| |by right].
    + exfalso. unfold Setup.output_readme, output_path_of in Hp.
      fold Setup.images_dir in Hp. fold Setup.output_dir in Hp.
      apply join_inj in Hp; [|done|apply output_name_not_absolute].
      by apply (output_name_not_readme g fmt).
    + exfalso. unfold Setup.output_readme in Hp.
      fold Setup.images_dir in Hp. fold Setup.output_dir in Hp.
      apply join_inj in Hp; [|done|by apply startswith_sep_contains].
      subst n. by apply Hl.
Qed.

(** X25.  A project that the set-up has prepared is ready for the engine.  After
    a set-up that ended with status 0, the default source and output folders
    of the engine are the directories the set-up made; a batch run on them,
    in any format and with or without clearing, returns its statistics, and
    both README files are afterwards as the set-up left them: the clearing
    does not remove them and no conversion writes over them.  (Should a
    README be the log file of a logger configured before the run, the lines
    of the run are appended to it.) *)
Theorem batch_after_setup (s : Setup.state) (output_format : string)
    (quality : Z) (page_size : string) (clear_output : bool) (w : world) :
  3 < Setup.major Setup.sys_version_info
  ∨ Setup.major Setup.sys_version_info = 3
    ∧ 7 ≤ Setup.minor Setup.sys_version_info →
  (∀ pkg imp, (pkg, imp) ∈ Setup.required_packages →
              Setup.importable imp = true) →
  Setup.s_fs s !! Setup.script_dir = Some Dir →
  Setup.consistent (Setup.s_fs s) →
  (Setup.run s).1 = 0 →
  w_fs w = Setup.s_fs (Setup.run s).2 →
  FS.is_dir (w_fs w) (ns_source defaults) = true
  ∧ FS.is_dir (w_fs w) (ns_output defaults) = true
  ∧ ∃ st w',
      convert_images (ns_source defaults) (ns_output defaults) output_format
        quality page_size clear_output w = (Ok st, w')
      ∧ is_Some (w_fs w' !! Setup.source_readme)
      ∧ is_Some (w_fs w' !! Setup.output_readme)
      ∧ kept_at (log_path w) Setup.source_readme (w_fs w) (w_fs w')
      ∧ kept_at (log_path w) Setup.output_readme (w_fs w) (w_fs w')
      ∧ (log_path w ≠ Some Setup.source_readme →
         w_fs w' !! Setup.source_readme = w_fs w !! Setup.source_readme)
      ∧ (log_path w ≠ Some Setup.output_readme →
         w_fs w' !! Setup.output_readme = w_fs w !! Setup.output_readme).
Proof.
  intros Hv Hi Hdir Hc Hrun Hw.
  destruct defaults_layout as [-> ->].
  pose proof (main_spec Hroot Hslash s Hv Hi Hdir Hc) as Hm.
  unfold Setup.run in Hrun, Hw.
  destruct (Setup.main s) as [[[]|n|e] s']; [|done..].
  cbn [snd] in Hw.
  destruct Hm as (_ & _ & _ & Hsub & HS & HO & _ & HSR & HOR & _).
  assert (w_fs w !! Setup.script_dir = Some Dir) as Hdirw
    by (rewrite Hw; by eapply lookup_weaken).
  rewrite <- Hw in HS, HO, HSR, HOR.
  unfold FS.is_dir. rewrite HS, HO. split; [done|]. split; [done|].
  destruct (makedirs_below Setup.script_dir "images" "output" w)
    as (w0 & Emk & Hmade); [done..|].
  fold Setup.images_dir in Emk. fold Setup.output_dir in Emk.
  assert (∃ w1, prepare_output Setup.output_dir clear_output w = (Ok tt, w1))
    as [w1 Eprep].
  { unfold prepare_output. rewrite (bind_Ok _ _ _ _ _ Emk).
    rewrite info_bind. destruct clear_output; [|by eexists].
    apply clear_output_folder_returns. apply logged_lookup_Dir.
    eapply lookup_weaken; [exact HO|by apply made_dirs_subseteq]. }
  destruct (convert_images_returns Setup.source_dir Setup.output_dir
              output_format quality page_size clear_output w w1 Eprep)
    as (st & w' & E).
  exists st, w'. split; [done|].
  destruct (batch_keeps_readmes _ _ _ _ _ _ _ E HSR HOR) as [HkS HkO].
  destruct HSR as [nS HnS], HOR as [nO HnO].
  split_and!; [| |done|done| |].
  - destruct HkS as [->|(_ & d & m & _ & ->)]; eauto.
  - destruct HkO as [->|(_ & d & m & _ & ->)]; eauto.
  - intros Hne. by eapply kept_at_ne.
  - intros Hne. by eapply kept_at_ne.
Qed.

(** X26.  The set-up takes a regular file named [logs] for the logs directory:
    it only asks whether the path exists.  The run still ends with status 0,
    and the engine then stops in its logging set-up, before it looks at its
    arguments' folders: its exit status is 1 whatever the (well-formed)
    arguments. *)
Theorem logs_file_passes_setup (s : Setup.state) (w : world) :
  3 < Setup.major Setup.sys_version_info
  ∨ Setup.major Setup.sys_version_info = 3
    ∧ 7 ≤ Setup.minor Setup.sys_version_info →
  (∀ pkg imp, (pkg, imp) ∈ Setup.required_packages →
              Setup.importable imp = true) →
  Setup.s_fs s !! Setup.script_dir = Some Dir →
  Setup.consistent (Setup.s_fs s) →
  Setup.is_file (Setup.s_fs s) Setup.images_dir = false →
  Setup.is_file (Setup.s_fs s) Setup.source_dir = false →
  Setup.is_file (Setup.s_fs s) Setup.output_dir = false →
  Setup.is_file (Setup.s_fs s) Setup.logs_dir = true →
  w_fs w = Setup.s_fs (Setup.run s).2 →
  (Setup.run s).1 = 0
  ∧ (∀ log_level, ∃ e, setup_logging log_level w = (Raise e, w))
  ∧ ∀ argv args, parse_args argv defaults = Args args → main argv w = (1, w).
Proof.
  intros Hv Hi Hdir Hc HfI HfS HfO HfL Hw.
  pose proof (main_spec Hroot Hslash s Hv Hi Hdir Hc) as Hm.
  unfold Setup.run in *.
  destruct (Setup.main s) as [[[]|n|e] s']; [|done|].
  2:{ destruct Hm as [_ Hm]. by rewrite HfI, HfS, HfO in Hm. }
  cbn [snd] in Hw. destruct Hm as (_ & _ & _ & Hsub & _).
  assert (w_fs w !! Setup.script_dir = Some Dir) as Hdirw
    by (rewrite Hw; by eapply lookup_weaken).
  assert (∃ d, w_fs w !! Setup.logs_dir = Some (File d)) as [d Hd].
  { unfold Setup.is_file in HfL.
    destruct (Setup.s_fs s !! Setup.logs_dir) as [[d|]|] eqn:HL; [|done..].
    exists d. rewrite Hw. by eapply lookup_weaken. }
  assert (∀ log_level, ∃ e, setup_logging log_level w = (Raise e, w)) as Hlog.
  { intros log_level. unfold setup_logging. rewrite bind_unfold.
    change (OsPath.dirname (OsPath.dirname script_file)) with project_root.
    rewrite Hproject. fold Setup.logs_dir.
    destruct (join_name Setup.script_dir "logs" Hroot Hslash)
      as (_ & _ & _ & Hsplit & Hdn & _); [done..|].
    fold Setup.logs_dir in Hsplit, Hdn.
    unfold Os.makedirs. cbn [Os.makedirs_from]. rewrite Hsplit.
    cbn [Py.truthy negb].
    rewrite bind_unfold. unfold get_fs at 1. cbv beta iota.
    assert (FS.exists_ (w_fs w) Setup.script_dir = true) as ->
      by (unfold FS.exists_; by rewrite Hdirw).
    rewrite andb_false_r.
    pose proof (os_mkdir_spec Setup.logs_dir w) as Hmk.
    unfold Os.mkdir_exist_ok, try_except.
    destruct (Os.mkdir Setup.logs_dir w) as [[[]|e] w0].
    - destruct Hmk as (_ & Hn & _). congruence.
    - subst w0. rewrite bind_unfold. unfold get_fs at 1. cbv beta iota.
      unfold FS.is_dir. rewrite Hd. by eexists. }
  split; [done|]. split; [done|].
  intros argv args Hargs. unfold main. rewrite Hargs. unfold run.
  destruct (Hlog (if ns_verbose args then DEBUG else INFO)) as [e' El].
  by rewrite (bind_Raise _ _ _ _ _ El).
Qed.

End setup_and_engine.

(** ** Sample runs of the set-up *)

Lemma sample_all_importable :
  ∀ pkg imp, (pkg, imp) ∈ Setup.required_packages →
             Setup.importable (Env := SampleSetup.ready) imp = true.
Proof.
  intros pkg imp Hin. unfold Setup.required_packages in Hin.
  rewrite !elem_of_cons, elem_of_nil in Hin.
  by destruct Hin as [[= -> ->]|[[= -> ->]|[[= -> ->]|[]]]].
Qed.

Lemma sample_consistent (fs : filesystem) :
  bool_decide (map_Forall (λ p _, Setup.inside_file fs p = false) fs) = true →
  Setup.consistent fs.
Proof. intros Hb. by apply bool_decide_eq_true in Hb. Qed.

Lemma setup_exit_status_witness :
  (Setup.run (H := SampleSetup.ready)
     (SampleSetup.start SampleSetup.with_output_file)).1 = 1
  ∧ (Setup.run (H := SampleSetup.ready) (SampleSetup.start SampleSetup.bare)).1
    = 0.
Proof.
  split.
  - destruct (setup_exit_status (H := SampleSetup.ready))
      with (s := SampleSetup.start SampleSetup.with_output_file) as [-> _].
    + done.
    + reflexivity.
    + right. split; [reflexivity|by vm_compute].
    + apply sample_all_importable.
    + vm_compute. reflexivity.
    + apply sample_consistent. vm_compute. reflexivity.
    + vm_compute. reflexivity.
  - destruct (setup_exit_status (H := SampleSetup.ready))
      with (s := SampleSetup.start SampleSetup.bare) as [-> _].
    + done.
    + reflexivity.
    + right. split; [reflexivity|by vm_compute].
    + apply sample_all_importable.
    + vm_compute. reflexivity.
    + apply sample_consistent. vm_compute. reflexivity.
    + vm_compute. reflexivity.
Defined.

Lemma setup_success_layout_witness :
  Setup.s_fs (Setup.run (H := SampleSetup.ready)
                (SampleSetup.start SampleSetup.bare)).2
    !! "/app/images/source" = Some Dir
  ∧ Setup.s_fs (Setup.run (H := SampleSetup.ready)
                  (SampleSetup.start SampleSetup.bare)).2
      !! "/app/setup.py" = Some (File "#!/usr/bin/env python3").
Proof.
  destruct (setup_success_layout (H := SampleSetup.ready))
    with (s := SampleSetup.start SampleSetup.bare)
    as (HS & _ & _ & _ & _ & _ & _ & Hframe).
  - done.
  - reflexivity.
  - right. split; [reflexivity|by vm_compute].
  - apply sample_all_importable.
  - vm_compute. reflexivity.
  - apply sample_consistent. vm_compute. reflexivity.
  - vm_compute. reflexivity.
  - split; [exact HS|]. rewrite Hframe; [vm_compute; reflexivity|].
    apply (bool_decide_unpack _). vm_compute. reflexivity.
Defined.

Lemma setup_keeps_existing_witness :
  Setup.s_fs (Setup.run (H := SampleSetup.ready)
                (SampleSetup.start SampleSetup.with_output_file)).2
    !! "/app/images/source/README.md" = Some (File "mine").
Proof.
  apply (setup_keeps_existing (H := SampleSetup.ready)).
  - intros fs name. unfold Setup.pip_install, SampleSetup.ready, SampleSetup.env.
    by destruct (Py.in_list name []).
  - vm_compute. reflexivity.
Defined.


Lemma failed_install_stops_setup_witness :
  (Setup.run (H := SampleSetup.offline) (SampleSetup.start SampleSetup.bare)).1
  = 1
  ∧ Setup.s_fs (Setup.run (H := SampleSetup.offline)
                  (SampleSetup.start SampleSetup.bare)).2 = SampleSetup.bare.
Proof.
  destruct (failed_install_stops_setup (H := SampleSetup.offline)
              (SampleSetup.start SampleSetup.bare) "reportlab" []
              "Command returned non-zero exit status 1." SampleSetup.bare)
    as (Hst & Hfs & _).
  - right. split; [reflexivity|by vm_compute].
  - vm_compute. reflexivity.
  - reflexivity.
  - by split.
Defined.

Lemma setup_idempotent_witness :
  (Setup.run (H := SampleSetup.ready)
     (Setup.run (H := SampleSetup.ready)
        (SampleSetup.start SampleSetup.bare)).2).1 = 0.
Proof.
  apply (setup_idempotent (H := SampleSetup.ready)).
  - done.
  - reflexivity.
  - right. split; [reflexivity|by vm_compute].
  - apply sample_all_importable.
  - vm_compute. reflexivity.
Defined.

Lemma batch_after_setup_witness :
  ∃ st w',
    ConvertHeic.convert_images (H := Sample.posix) "/app/images/source"
      "/app/images/output" "jpg" 90 "letter" true
      (Sample.fresh (Setup.s_fs (Setup.run (H := SampleSetup.ready)
                                   (SampleSetup.start SampleSetup.bare)).2))
    = (Ok st, w')
    ∧ is_Some (w_fs w' !! "/app/images/output/README.md").
Proof.
  destruct (batch_after_setup (H := Sample.posix) (H0 := SampleSetup.ready))
    with (s := SampleSetup.start SampleSetup.bare) (output_format := "jpg")
         (quality := 90) (page_size := "letter") (clear_output := true)
         (w := Sample.fresh (Setup.s_fs (Setup.run (H := SampleSetup.ready)
                                (SampleSetup.start SampleSetup.bare)).2))
    as (_ & _ & st & w' & E & _ & HOR & _).
  - done.
  - reflexivity.
  - reflexivity.
  - right. split; [reflexivity|by vm_compute].
  - apply sample_all_importable.
  - vm_compute. reflexivity.
  - apply sample_consistent. vm_compute. reflexivity.
  - vm_compute. reflexivity.
  - reflexivity.
  - exists st, w'. split; [exact E|exact HOR].
Defined.

Lemma logs_file_passes_setup_witness :
  (Setup.run (H := SampleSetup.ready)
     (SampleSetup.start SampleSetup.with_logs_file)).1 = 0
  ∧ ConvertHeic.main (H := Sample.posix) ["-f"; "png"]
      (Sample.fresh (Setup.s_fs (Setup.run (H := SampleSetup.ready)
                       (SampleSetup.start SampleSetup.with_logs_file)).2))
    = (1, Sample.fresh (Setup.s_fs (Setup.run (H := SampleSetup.ready)
                          (SampleSetup.start SampleSetup.with_logs_file)).2)).
Proof.
  destruct (logs_file_passes_setup (H := Sample.posix) (H0 := SampleSetup.ready))
    with (s := SampleSetup.start SampleSetup.with_logs_file)
         (w := Sample.fresh (Setup.s_fs (Setup.run (H := SampleSetup.ready)
                                (SampleSetup.start SampleSetup.with_logs_file)).2))
    as (Hst & _ & Hmain).
  - done.
  - reflexivity.
  - reflexivity.
  - right. split; [reflexivity|by vm_compute].
  - apply sample_all_importable.
  - vm_compute. reflexivity.
  - apply sample_consistent. vm_compute. reflexivity.
  - vm_compute. reflexivity.
  - vm_compute. reflexivity.
  - vm_compute. reflexivity.
  - vm_compute. reflexivity.
  - reflexivity.
  - split; [exact Hst|].
    apply (Hmain ["-f"; "png"] (ConvertHeic.set_format "png" Sample.defaults)).
    vm_compute. reflexivity.
Defined.
